(** * echother-back: the retrieval-and-synthesis core

    A shallow embedding of [src/services/rag_service.py] (class
    [RAGService]) and [src/services/intelligent_ticket_generator.py]
    (class [IntelligentTicketGenerator]).

    Conventions of the embedding:
    - a Python [str] is a [string] of 8-bit characters; [lower],
      [strip] and the regular-expression class [\s] are the ASCII
      restrictions of the Python ones;
    - the lexical score, which the code only adds, multiplies, divides
      and compares, is an exact rational ([Q]); the cosine similarity of
      the semantic mode is computed in IEEE 754 doubles (the primitive
      [float]), with their rounding, underflow, overflow and NaN;
    - a function that can raise returns a [pyresult];
    - a chunk record read through [.get] is a record of optional fields;
      a [dict] whose keys or order matter (the ticket, the groups of
      similar implementations) is an association list in insertion
      order. *)

From Stdlib Require Import Bool Arith ZArith QArith Qminmax Lia List Sorted.
From Stdlib Require Import Permutation Ascii String DecimalString.
From Stdlib Require Import Floats Psatz.
Import ListNotations.

Set Warnings "-inexact-float".

Local Close Scope R_scope.
Local Close Scope Q_scope.
Local Close Scope float_scope.
Local Open Scope string_scope.
Local Open Scope nat_scope.
Local Open Scope list_scope.

(** ** Python results *)

Inductive exn : Type :=
| ValueError (msg : string)
| RuntimeError (msg : string).

Definition exn_str (e : exn) : string :=
  match e with
  | ValueError m => m
  | RuntimeError m => m
  end.

Inductive pyresult (A : Type) : Type :=
| Ok (a : A)
| Raise (e : exn).

Arguments Ok {A} a.
Arguments Raise {A} e.

Definition bind {A B : Type} (m : pyresult A) (k : A -> pyresult B)
  : pyresult B :=
  match m with
  | Ok a => k a
  | Raise e => Raise e
  end.

Notation "x <- m ;; k" := (bind m (fun x => k))
  (at level 61, m at next level, right associativity).

(** [try: body except Exception as e: handler e] *)
Definition try_except {A : Type} (body : pyresult A) (handler : exn -> pyresult A)
  : pyresult A :=
  match body with
  | Ok a => Ok a
  | Raise e => handler e
  end.

(** ** Python strings *)

Module PyStr.

Definition newline : ascii := "010"%char.

Definition is_upper (c : ascii) : bool :=
  let n := nat_of_ascii c in (65 <=? n) && (n <=? 90).

Definition lower_char (c : ascii) : ascii :=
  if is_upper c then ascii_of_nat (nat_of_ascii c + 32) else c.

(** [s.lower()] *)
Fixpoint lower (s : string) : string :=
  match s with
  | EmptyString => EmptyString
  | String c s' => String (lower_char c) (lower s')
  end.

(** [s.startswith(p)] *)
Fixpoint startswith (p s : string) : bool :=
  match p, s with
  | EmptyString, _ => true
  | String _ _, EmptyString => false
  | String a p', String b s' => Ascii.eqb a b && startswith p' s'
  end.

(** [sub in s] *)
Fixpoint contains (sub s : string) : bool :=
  startswith sub s ||
  match s with
  | EmptyString => false
  | String _ s' => contains sub s'
  end.

(** [s[n:]] for [n >= 0] *)
Fixpoint drop (n : nat) (s : string) : string :=
  match n, s with
  | O, _ => s
  | S _, EmptyString => EmptyString
  | S n', String _ s' => drop n' s'
  end.

(** [str.isspace] on one ASCII character: TAB, LF, VT, FF, CR,
    FS, GS, RS, US and the space. *)
Definition is_space (c : ascii) : bool :=
  let n := nat_of_ascii c in
  ((9 <=? n) && (n <=? 13)) || ((28 <=? n) && (n <=? 32)).

Fixpoint lstrip (s : string) : string :=
  match s with
  | EmptyString => EmptyString
  | String c s' => if is_space c then lstrip s' else s
  end.

Fixpoint rstrip (s : string) : string :=
  match s with
  | EmptyString => EmptyString
  | String c s' =>
      match rstrip s' with
      | EmptyString => if is_space c then EmptyString else String c EmptyString
      | r => String c r
      end
  end.

(** [s.strip()] *)
Definition strip (s : string) : string := lstrip (rstrip s).

(** [s.split(sep)] for a one-character separator: never empty. *)
Fixpoint split (sep : ascii) (s : string) : list string :=
  match s with
  | EmptyString => [EmptyString]
  | String c s' =>
      if Ascii.eqb c sep then EmptyString :: split sep s'
      else match split sep s' with
           | [] => [String c EmptyString]
           | w :: ws => String c w :: ws
           end
  end.

(** [l[-1]] of a list of strings that is never empty here *)
Definition last_field (l : list string) : string := last l EmptyString.

(** [any(w in s for w in words)] *)
Definition any_in (words : list string) (s : string) : bool :=
  existsb (fun w => contains w s) words.

End PyStr.

Import PyStr.

(** ** CodeChunk (rag_service.py, lines 15-22) *)

Definition metadata : Type := list (string * bool).

Record CodeChunk (F : Type) : Type := mkCodeChunk {
  filename : string;
  code : string;
  language : string;
  score : F;
  chunk_metadata : metadata;
  location : string
}.

Arguments mkCodeChunk {F}.
Arguments filename {F}.
Arguments code {F}.
Arguments language {F}.
Arguments score {F}.
Arguments chunk_metadata {F}.
Arguments location {F}.

(** ** RequestAnalyzer: [_classify_intent] (lines 50-65) *)

Module Intent.

Definition feature_words : list string := ["add"; "create"; "implement"; "build"].
Definition bug_words : list string := ["fix"; "bug"; "error"; "issue"].
Definition refactor_words : list string := ["refactor"; "improve"; "optimize"].
Definition security_words : list string := ["security"; "vulnerability"; "auth"].
Definition performance_words : list string := ["performance"; "speed"; "efficiency"].

Definition _classify_intent (request : string) : string :=
  let request_lower := lower request in
  if any_in feature_words request_lower then "feature_implementation"
  else if any_in bug_words request_lower then "bug_fix"
  else if any_in refactor_words request_lower then "refactoring"
  else if any_in security_words request_lower then "security_update"
  else if any_in performance_words request_lower then "performance_optimization"
  else "general_implementation".

End Intent.

(** ** ProjectContextBuilder: [_detect_architectural_patterns] (lines 261-288) *)

Module Patterns.

Section Detect.
Context {F : Type}.

Definition any_filename (sub : string) (filenames : list string) : bool :=
  existsb (fun f => contains sub (lower f)) filenames.

Definition _detect_architectural_patterns (code_chunks : list (CodeChunk F))
  : list string :=
  let patterns := [] in
  let filenames := map filename code_chunks in
  let patterns :=
    if any_filename "model" filenames && any_filename "view" filenames
       && any_filename "controller" filenames
    then patterns ++ ["MVC"] else patterns in
  let patterns :=
    if any_filename "component" filenames || any_filename "components" filenames
    then patterns ++ ["Component-based"] else patterns in
  let patterns :=
    if any_filename "service" filenames
    then patterns ++ ["Service Layer"] else patterns in
  let patterns :=
    if any_filename "repository" filenames
    then patterns ++ ["Repository Pattern"] else patterns in
  let patterns :=
    if any_filename "domain" filenames && any_filename "application" filenames
    then patterns ++ ["Clean Architecture"] else patterns in
  patterns.
End Detect.

End Patterns.

(** ** Python floats

    What the code asks of a score: literals and the comparison [>],
    which is a total preorder on the scores that occur. [Q] carries the
    lexical scores. The doubles of the semantic mode are no instance:
    with a NaN the comparison [>] is not a total preorder. *)

Class PyFloat (F : Type) : Type := {
  lit : Q -> F;
  gtb : F -> F -> bool;
  gtb_asym : forall x y, gtb x y = true -> gtb y x = false;
  gtb_le_trans : forall x y z, gtb x y = false -> gtb y z = false -> gtb x z = false
}.

Definition Qgtb (a b : Q) : bool :=
  match Qcompare a b with
  | Gt => true
  | _ => false
  end.

#[export] Program Instance PyFloat_Q : PyFloat Q :=
  {| lit := fun q => q; gtb := Qgtb |}.
Next Obligation.
  unfold Qgtb in *.
  assert (Hyx : (y < x)%Q).
  { apply Qgt_alt. destruct (Qcompare x y) eqn:E; congruence. }
  pose proof (proj1 (Qle_alt y x) (Qlt_le_weak _ _ Hyx)) as N.
  destruct (Qcompare y x) eqn:E; congruence.
Qed.
Next Obligation.
  unfold Qgtb in *.
  assert (Hxy : (x <= y)%Q).
  { apply Qle_alt. intro E. rewrite E in *. discriminate. }
  assert (Hyz : (y <= z)%Q).
  { apply Qle_alt. intro E. rewrite E in *. discriminate. }
  pose proof (proj1 (Qle_alt x z) (Qle_trans _ _ _ Hxy Hyz)) as N.
  destruct (Qcompare x z) eqn:E; congruence.
Qed.


(** ** RelevanceRanker: [search_relevant_code] (lines 126-168) *)

Module Ranker.

(** A chunk record of [code_embeddings]: a dict read through [.get] and
    ["embedding" in chunk], so every key may be absent. *)
Record chunk_record : Type := mkRecord {
  r_filename : option string;
  r_code : option string;
  r_language : option string;
  r_embedding : option (list float);
  r_metadata : option metadata;
  r_location : option string
}.

(** [chunk.get(key, default)] *)
Definition get {A : Type} (field : option A) (default : A) : A :=
  match field with
  | Some v => v
  | None => default
  end.

(** The character class [[a-z0-9_]] *)
Definition is_term_char (c : ascii) : bool :=
  let n := nat_of_ascii c in
  ((97 <=? n) && (n <=? 122)) || ((48 <=? n) && (n <=? 57)) || (n =? 95).

(** [re.findall(r"[a-z0-9_]+", s)]: the maximal runs of term characters *)
Fixpoint findall_terms (s : string) : list string :=
  match s with
  | EmptyString => []
  | String c s' =>
      if is_term_char c then
        match s' with
        | EmptyString => [String c EmptyString]
        | String c' _ =>
            if is_term_char c' then
              match findall_terms s' with
              | [] => [String c EmptyString]
              | w :: ws => String c w :: ws
              end
            else String c EmptyString :: findall_terms s'
        end
      else findall_terms s'
  end.

(** [set(...)]: the order of iteration does not matter to the sum *)
Definition py_set (l : list string) : list string := nodup string_dec l.

(** [f"{filename}\n{code}".lower()] *)
Definition chunk_text (chunk : chunk_record) : string :=
  lower (get (r_filename chunk) "" ++ String newline (get (r_code chunk) ""))%string.

(** [sum(1 for t in q_terms if t and t in text)] *)
Definition count_matches (q_terms : list string) (text : string) : nat :=
  List.length (filter (fun t => negb (String.eqb t "") && contains t text) q_terms).

(** [len(q_terms) or 1] *)
Definition len_or_1 (q_terms : list string) : nat :=
  match List.length q_terms with
  | O => 1
  | n => n
  end.

Definition Qnat (n : nat) : Q := inject_Z (Z.of_nat n).

(** [min(len(text) / 10000.0, 1.0)] *)
Definition length_penalty (text : string) : Q :=
  Qmin (Qnat (String.length text) / 10000) 1.

(** [matches / (len(q_terms) or 1)] *)
Definition overlap (q_terms : list string) (text : string) : Q :=
  (Qnat (count_matches q_terms text) / Qnat (len_or_1 q_terms))%Q.

Definition lexical_score (q_terms : list string) (chunk : chunk_record) : Q :=
  let text := chunk_text chunk in
  (overlap q_terms text * (7 # 10) + (3 # 10) * length_penalty text)%Q.

(** The [else] branch of the loop (lines 138-145) *)
Definition lexical_similarities (query : string) (code_embeddings : list chunk_record)
  : list (Q * chunk_record) :=
  let q := lower query in
  let q_terms := py_set (findall_terms q) in
  map (fun chunk => (lexical_score q_terms chunk, chunk)) code_embeddings.

(** The products of the components, accumulated in order from 0.0, each
    operation rounded to a double *)
Definition dot (vec1 vec2 : list float) : float :=
  fold_left (fun acc p => (acc + fst p * snd p)%float) (combine vec1 vec2) 0%float.

(** [np.dot] of two one-dimensional arrays of doubles: a [ValueError]
    unless the shapes agree *)
Definition np_dot (vec1 vec2 : list float) : pyresult float :=
  if List.length vec1 =? List.length vec2
  then Ok (dot vec1 vec2)
  else Raise (ValueError "shapes not aligned").

(** [np.linalg.norm] of a one-dimensional array: the square root of the
    dot product of the array with itself *)
Definition np_norm (vec : list float) : float := PrimFloat.sqrt (dot vec vec).

(** [_cosine_similarity] (lines 170-179); [==] and [/] are those of
    doubles: the guard also fires when the squares underflow, and the
    quotient can be infinite or NaN *)
Definition _cosine_similarity (vec1 vec2 : list float) : pyresult float :=
  dot_product <- np_dot vec1 vec2 ;;
  let norm1 := np_norm vec1 in
  let norm2 := np_norm vec2 in
  if (norm1 =? 0)%float || (norm2 =? 0)%float then Ok 0%float
  else Ok (dot_product / (norm1 * norm2))%float.

(** The [if] branch of the loop (lines 132-136) *)
Fixpoint semantic_similarities (query_embedding : list float)
    (code_embeddings : list chunk_record) : pyresult (list (float * chunk_record)) :=
  match code_embeddings with
  | [] => Ok []
  | chunk :: rest =>
      match r_embedding chunk with
      | Some chunk_embedding =>
          similarity <- _cosine_similarity query_embedding chunk_embedding ;;
          similarities <- semantic_similarities query_embedding rest ;;
          Ok ((similarity, chunk) :: similarities)
      | None => semantic_similarities query_embedding rest
      end
  end.

(** [l[:k]], also for a negative [k] *)
Definition slice_to {A : Type} (l : list A) (k : Z) : list A :=
  if (0 <=? k)%Z then firstn (Z.to_nat k) l
  else firstn (List.length l - Z.to_nat (- k)) l.

Section Tail.
Context {F : Type} `{PyFloat F}.

(** [similarities.sort(key=lambda x: x[0], reverse=True)] on scores
    that [>] orders totally: stable, equal keys keep their input
    order. *)
Fixpoint insert_desc (x : F * chunk_record) (l : list (F * chunk_record))
  : list (F * chunk_record) :=
  match l with
  | [] => [x]
  | y :: l' => if gtb (fst y) (fst x) then y :: insert_desc x l' else x :: l
  end.

Definition sort_desc (l : list (F * chunk_record)) : list (F * chunk_record) :=
  fold_right insert_desc [] l.

Definition to_code_chunk (p : F * chunk_record) : CodeChunk F :=
  let '(score, chunk) := p in
  {| filename := get (r_filename chunk) "";
     code := get (r_code chunk) "";
     language := get (r_language chunk) "";
     score := score;
     chunk_metadata := get (r_metadata chunk) [];
     location := get (r_location chunk) "" |}.

(** Lines 148-164, on totally ordered scores *)
Definition rank (similarities : list (F * chunk_record)) (top_k : Z)
  : list (CodeChunk F) :=
  let similarities := sort_desc similarities in
  let top_results := slice_to similarities top_k in
  map to_code_chunk (filter (fun p => gtb (fst p) (lit (3 # 10))) top_results).
End Tail.

(** [similarities.sort(key=lambda x: x[0], reverse=True)] on doubles.
    A similarity can be NaN; [>] is then no total preorder and the order
    of the sorted list is left to the sorting algorithm. What holds of
    every call is that the list is permuted, and the semantic tail takes
    the sort as such a function. *)
Class ListSort : Type := {
  list_sort : list (float * chunk_record) -> list (float * chunk_record);
  list_sort_permutation : forall l, Permutation (list_sort l) l
}.

(** Lines 148-164, on doubles: [score > 0.3] is false of a NaN *)
Definition rank_floats `{ListSort} (similarities : list (float * chunk_record))
    (top_k : Z) : list (CodeChunk float) :=
  let similarities := list_sort similarities in
  let top_results := slice_to similarities top_k in
  map to_code_chunk (filter (fun p => (0.3 <? fst p)%float) top_results).

(** The stable descending insertion sort: the order that [list.sort]
    gives when no key is NaN *)
Fixpoint insert_float (x : float * chunk_record) (l : list (float * chunk_record))
  : list (float * chunk_record) :=
  match l with
  | [] => [x]
  | y :: l' => if (fst x <? fst y)%float then y :: insert_float x l' else x :: l
  end.

Definition sort_floats (l : list (float * chunk_record)) : list (float * chunk_record) :=
  fold_right insert_float [] l.

#[export] Program Instance stable_sort : ListSort :=
  {| list_sort := sort_floats |}.
Next Obligation.
  unfold sort_floats. induction l as [| x l IH]; simpl; [constructor |].
  apply Permutation_trans with (x :: fold_right insert_float [] l);
    [| apply perm_skip; exact IH].
  generalize (fold_right insert_float [] l). clear IH l.
  intro l. induction l as [| y l IH]; simpl; [apply Permutation_refl |].
  destruct (fst x <? fst y)%float; [| apply Permutation_refl].
  apply Permutation_trans with (y :: x :: l);
    [apply perm_skip; exact IH | apply perm_swap].
Qed.

(** [self.embedding_model]: [encode([query])[0]] *)
Definition encoder : Type := string -> pyresult (list float).

Definition score_type (embedding_model : option encoder) : Type :=
  match embedding_model with
  | Some _ => float
  | None => Q
  end.

Section Search.
Context `{ListSort}.

Definition search_body (embedding_model : option encoder) (query : string)
    (code_embeddings : list chunk_record) (top_k : Z)
  : pyresult (list (CodeChunk (score_type embedding_model))) :=
  match embedding_model as m
        return pyresult (list (CodeChunk (score_type m))) with
  | Some model =>
      query_embedding <- model query ;;
      similarities <- semantic_similarities query_embedding code_embeddings ;;
      Ok (rank_floats similarities top_k)
  | None =>
      Ok (rank (lexical_similarities query code_embeddings) top_k)
  end.

Definition search_relevant_code (embedding_model : option encoder) (query : string)
    (code_embeddings : list chunk_record) (top_k : Z)
  : pyresult (list (CodeChunk (score_type embedding_model))) :=
  try_except (search_body embedding_model query code_embeddings top_k)
             (fun _ => Ok []).
End Search.

(** Number of positions of [s] at which [sub] occurs: how often a text
    contains a term. *)
Fixpoint occurrences (sub s : string) : nat :=
  (if startswith sub s then 1 else 0) +
  match s with
  | EmptyString => 0
  | String _ s' => occurrences sub s'
  end.

Definition default_top_k : Z := 15.

(** A chunk record with a filename and a code, as in
    [_get_placeholder_embeddings] without the other keys *)
Definition record (name body : string) : chunk_record :=
  {| r_filename := Some name; r_code := Some body; r_language := None;
     r_embedding := None; r_metadata := None; r_location := None |}.

Definition sample_candidates : list chunk_record :=
  [ record "login.py" "form"; record "x" "login"; record "login_form" "login form" ].

End Ranker.

(** ** ProjectContextBuilder: [_extract_similar_implementations] (lines 321-340) *)

Module Similar.

Section Extract.
Context {F : Type} `{PyFloat F}.

(** [chunk.filename.split('/')[-1]] *)
Definition basename (path : string) : string := last_field (split "/"%char path).

(** [f"{chunk.language}_{chunk.filename.split('/')[-1]}"] *)
Definition group_key (chunk : CodeChunk F) : string :=
  (language chunk ++ "_" ++ basename (filename chunk))%string.

(** [grouped]: a dict from key to list of chunks, in insertion order.
    [if key not in grouped: grouped[key] = []] then
    [grouped[key].append(chunk)]. *)
Fixpoint append_to (key : string) (chunk : CodeChunk F)
    (grouped : list (string * list (CodeChunk F)))
  : list (string * list (CodeChunk F)) :=
  match grouped with
  | [] => [(key, [chunk])]
  | (k, chunks) :: rest =>
      if String.eqb k key then (k, chunks ++ [chunk]) :: rest
      else (k, chunks) :: append_to key chunk rest
  end.

Definition high_relevance (chunk : CodeChunk F) : bool :=
  gtb (score chunk) (lit (7 # 10)).

Definition group_step (grouped : list (string * list (CodeChunk F)))
    (chunk : CodeChunk F) : list (string * list (CodeChunk F)) :=
  if high_relevance chunk then append_to (group_key chunk) chunk grouped
  else grouped.

Definition group_chunks (code_chunks : list (CodeChunk F))
  : list (string * list (CodeChunk F)) :=
  fold_left group_step code_chunks [].

(** [max(chunks, key=lambda x: x.score)]: the first chunk of maximal
    score; a [ValueError] on the empty list. *)
Fixpoint max_from (best : CodeChunk F) (chunks : list (CodeChunk F))
  : CodeChunk F :=
  match chunks with
  | [] => best
  | x :: rest => max_from (if gtb (score x) (score best) then x else best) rest
  end.

Definition py_max (chunks : list (CodeChunk F)) : pyresult (CodeChunk F) :=
  match chunks with
  | [] => Raise (ValueError "max() arg is an empty sequence")
  | x :: rest => Ok (max_from x rest)
  end.

Fixpoint best_of_each (groups : list (string * list (CodeChunk F)))
  : pyresult (list (CodeChunk F)) :=
  match groups with
  | [] => Ok []
  | (_, chunks) :: rest =>
      best_chunk <- py_max chunks ;;
      similar_impls <- best_of_each rest ;;
      Ok (best_chunk :: similar_impls)
  end.

Definition _extract_similar_implementations (code_chunks : list (CodeChunk F))
  : pyresult (list (CodeChunk F)) :=
  similar_impls <- best_of_each (group_chunks code_chunks) ;;
  Ok (firstn 5 similar_impls).

(** The keys of a list in the order of their first occurrence: the
    insertion order of a dict filled from that list. *)
Fixpoint first_occurrences (keys : list string) : list string :=
  match keys with
  | [] => []
  | k :: rest => k :: filter (fun k' => negb (String.eqb k' k)) (first_occurrences rest)
  end.

(** The high-relevance chunks of one group, in input order *)
Definition members (chunks : list (CodeChunk F)) (key : string)
  : list (CodeChunk F) :=
  filter (fun c => String.eqb (group_key c) key) chunks.

(** [c] is a member of group [key] and no member has a greater score *)
Definition best_in (chunks : list (CodeChunk F)) (key : string)
    (c : CodeChunk F) : Prop :=
  In c (members chunks key) /\
  forall c', In c' (members chunks key) -> gtb (score c') (score c) = false.
End Extract.

(** A chunk with a filename, a language and a lexical score *)
Definition scored (name lang : string) (s : Q) : CodeChunk Q :=
  {| filename := name; code := ""; language := lang; score := s;
     chunk_metadata := []; location := "" |}.

End Similar.

(** ** TicketSynthesizer (intelligent_ticket_generator.py) *)

Module Ticket.

Definition nl : string := String newline EmptyString.

(** *** [re.sub] *)

Section ReSub.
(** [matcher s] is the length of the match of the pattern at the start
    of [s], if there is one. *)
Variable matcher : string -> option nat.
Variable repl : string.

(** Scan from the left; at a position outside a previous match try the
    pattern, replace a match by [repl] and go on behind it. *)
Fixpoint re_sub_from (skip : nat) (s : string) : string :=
  match s with
  | EmptyString => EmptyString
  | String c s' =>
      match skip with
      | S k => re_sub_from k s'
      | O =>
          match matcher s with
          | Some (S n) => (repl ++ re_sub_from n s')%string
          | _ => String c (re_sub_from 0 s')
          end
      end
  end.

Definition re_sub (s : string) : string := re_sub_from 0 s.
End ReSub.

(** [.*] without DOTALL: up to the end of the line *)
Fixpoint line_length (s : string) : nat :=
  match s with
  | EmptyString => 0
  | String c s' => if Ascii.eqb c newline then 0 else S (line_length s')
  end.

(** [\*\*Label:\*\*.*\n?] *)
Definition match_field (label : string) (s : string) : option nat :=
  let marker := ("**" ++ label ++ ":**")%string in
  if startswith marker s then
    let rest := drop (String.length marker) s in
    let n := line_length rest in
    Some (String.length marker + n + (if startswith nl (drop n rest) then 1 else 0))
  else None.

(** [\s*] *)
Fixpoint space_run (s : string) : nat :=
  match s with
  | EmptyString => 0
  | String c s' => if is_space c then S (space_run s') else 0
  end.

(** [.*?(?:\n##|\Z)] with DOTALL: the shortest stretch that ends in a
    newline followed by [##], or else everything to the end. *)
Fixpoint until_heading (s : string) : nat :=
  match s with
  | EmptyString => 0
  | String _ s' => if startswith (nl ++ "##")%string s then 3 else S (until_heading s')
  end.

(** [(?si)##\s*Example Code Snippet.*?(?:\n##|\Z)] *)
Definition match_example (s : string) : option nat :=
  if startswith "##" s then
    let w := space_run (drop 2 s) in
    let rest := drop (2 + w) s in
    let heading := "Example Code Snippet" in
    if startswith (lower heading) (lower rest) then
      Some (2 + w + String.length heading
            + until_heading (drop (String.length heading) rest))
    else None
  else None.

(** Position of the first occurrence of [p] *)
Fixpoint find_first (p s : string) : option nat :=
  if startswith p s then Some 0
  else match s with
       | EmptyString => None
       | String _ s' => option_map S (find_first p s')
       end.

Definition fence : string := "```".

(** [```[\s\S]*?```] *)
Definition match_fence (s : string) : option nat :=
  if startswith fence s then
    match find_first fence (drop 3 s) with
    | Some k => Some (3 + k + 3)
    | None => None
    end
  else None.

Fixpoint newline_run (s : string) : nat :=
  match s with
  | EmptyString => 0
  | String c s' => if Ascii.eqb c newline then S (newline_run s') else 0
  end.

(** [\n{3,}] *)
Definition match_newlines (s : string) : option nat :=
  let n := newline_run s in
  if 3 <=? n then Some n else None.

Definition disallowed_patterns : list (string -> option nat) :=
  [ match_field "Assigned To";
    match_field "Due Date";
    match_field "Tags";
    match_field "Ticket ID";
    match_field "Project";
    match_field "Component";
    match_field "Priority";
    match_field "Complexity";
    match_field "Status";
    match_example ].

(** Lines 247-250: the removals *)
Definition remove_disallowed (md : string) : string :=
  let cleaned :=
    fold_left (fun cleaned pat => re_sub pat "" cleaned) disallowed_patterns md in
  re_sub match_fence "" cleaned.

(** All removals of lines 247-250, in the order in which they run *)
Definition all_patterns : list (string -> option nat) :=
  disallowed_patterns ++ [match_fence].

(** [re.sub(r"\n{3,}", "\n\n", cleaned)] *)
Definition collapse : string -> string :=
  re_sub match_newlines (nl ++ nl)%string.

(** Line 251: [re.sub(r"\n{3,}", "\n\n", cleaned).strip()] *)
Definition normalize_blank (cleaned : string) : string :=
  strip (collapse cleaned).

(** [_sanitize_ticket] (lines 233-252) *)
Definition _sanitize_ticket (md : string) : string :=
  normalize_blank (remove_disallowed md).

(** Does the pattern match anywhere in [s]? *)
Fixpoint matches_somewhere (matcher : string -> option nat) (s : string) : bool :=
  match matcher s with
  | Some (S _) => true
  | _ => match s with
         | EmptyString => false
         | String _ s' => matches_somewhere matcher s'
         end
  end.

(** No disallowed field line, example section or fenced block is left. *)
Definition residue_free (s : string) : bool :=
  forallb (fun pat => negb (matches_somewhere pat s)) all_patterns.

(** *** The ticket dict *)

Inductive value : Type :=
| VStr (s : string)
| VList (l : list string).

Definition ticket : Type := list (string * value).

(** [d[key]]: [None] stands for a [KeyError] *)
Fixpoint lookup (key : string) (d : ticket) : option value :=
  match d with
  | [] => None
  | (k, v) :: rest => if String.eqb k key then Some v else lookup key rest
  end.

Definition keys (d : ticket) : list string := map fst d.

(** *** [_parse_generated_ticket] (lines 180-231) *)

(** Lines 185-189 *)
Definition parse_title (lines : list string) : string :=
  match find (startswith "# ") lines with
  | Some line => strip (drop 2 line)
  | None => "Generated Ticket"
  end.

(** Lines 195-207; the flag is [in_criteria_section] *)
Fixpoint criteria_loop (in_criteria_section : bool) (lines : list string)
  : list string :=
  match lines with
  | [] => []
  | line :: rest =>
      if String.eqb (strip line) "## Acceptance Criteria" then
        criteria_loop true rest
      else if startswith "## " line && in_criteria_section then
        []
      else if in_criteria_section && startswith "- [ ]" (strip line) then
        let criteria := strip (drop 5 (strip line)) in
        if negb (String.eqb criteria "") then
          criteria :: criteria_loop in_criteria_section rest
        else criteria_loop in_criteria_section rest
      else criteria_loop in_criteria_section rest
  end.

Definition backtick : ascii := "`"%char.

(** [[^`]+] *)
Fixpoint plain_run (s : string) : nat :=
  match s with
  | EmptyString => 0
  | String c s' => if Ascii.eqb c backtick then 0 else S (plain_run s')
  end.

Fixpoint take (n : nat) (s : string) : string :=
  match n, s with
  | O, _ => EmptyString
  | S _, EmptyString => EmptyString
  | S n', String c s' => String c (take n' s')
  end.

(** [re.findall(r'`([^`]+)`', line)[0]], if the list is not empty *)
Fixpoint first_backticked (line : string) : option string :=
  match line with
  | EmptyString => None
  | String c s' =>
      if Ascii.eqb c backtick then
        let n := plain_run s' in
        if (0 <? n) && startswith (String backtick EmptyString) (drop n s')
        then Some (take n s')
        else first_backticked s'
      else first_backticked s'
  end.

(** Lines 210-223; the flag is [in_files_section] *)
Fixpoint files_loop (in_files_section : bool) (lines : list string)
  : list string :=
  match lines with
  | [] => []
  | line :: rest =>
      if String.eqb (strip line) "## Files to Modify" then
        files_loop true rest
      else if startswith "## " line && in_files_section then
        []
      else if in_files_section && contains (String backtick EmptyString) line then
        match first_backticked line with
        | Some m => m :: files_loop in_files_section rest
        | None => files_loop in_files_section rest
        end
      else files_loop in_files_section rest
  end.

Definition _parse_generated_ticket (markdown_content : string) : ticket :=
  let lines := split newline markdown_content in
  let title := parse_title lines in
  let description := markdown_content in
  let acceptance_criteria := criteria_loop false lines in
  let files_to_modify := files_loop false lines in
  [ ("title", VStr title);
    ("description", VStr description);
    ("acceptance_criteria", VList acceptance_criteria);
    ("files_to_modify", VList files_to_modify);
    ("raw_markdown", VStr markdown_content) ].

(** *** [_generate_ticket_with_llm] (lines 138-178) *)

(** The generation collaborator: system content and user content to
    [response.choices[0].message.content], which may be [None]. *)
Definition generation : Type := string -> string -> pyresult (option string).

Definition user_instruction (user_request : string) : string :=
  ("Generate a concise, LLM-ready implementation ticket in Markdown without any placeholder fields or meta headers. "
   ++ "Do NOT include sections like 'Example Code Snippet', 'Assigned To', 'Due Date', 'Tags', 'Ticket ID', 'Project', 'Component', 'Priority', 'Complexity', 'Status'. "
   ++ "Focus on: Title, Summary, Intent, Scope, Files to Modify (list real paths if known or leave empty), Considerations, Acceptance Criteria as checklist. "
   ++ "User request: " ++ user_request)%string.

(** The dict of lines 173-178 *)
Definition error_ticket (e : exn) : ticket :=
  [ ("title", VStr "Error generating ticket");
    ("description", VStr ("Failed to generate ticket: " ++ exn_str e)%string);
    ("acceptance_criteria", VList []);
    ("files_to_modify", VList []) ].

Definition _generate_ticket_with_llm (create : generation)
    (contextual_prompt user_request : string) : pyresult ticket :=
  try_except
    (content <- create contextual_prompt (user_instruction user_request) ;;
     let markdown_content := strip (match content with Some c => c | None => "" end) in
     let markdown_content := _sanitize_ticket markdown_content in
     Ok (_parse_generated_ticket markdown_content))
    (fun e => Ok (error_ticket e)).

(** The five fields of a Ticket *)
Definition ticket_fields : list string :=
  ["title"; "description"; "acceptance_criteria"; "files_to_modify"; "raw_markdown"].

End Ticket.

(** ** Markdown as the ticket parser expects it *)

Module Render.
Import Ticket.

(** A checklist line of the acceptance criteria section *)
Definition checklist_line (item : string) : string := ("- [ ] " ++ item)%string.

(** The section headed [## Acceptance Criteria] with one checklist line
    per item, followed by [tail] *)
Definition criteria_section (items : list string) (tail : string) : string :=
  ("## Acceptance Criteria"
   ++ fold_right (fun item rest => nl ++ checklist_line item ++ rest) tail items)%string.

(** A text of whitespace only *)
Fixpoint all_space (s : string) : bool :=
  match s with
  | EmptyString => true
  | String c s' => is_space c && all_space s'
  end.

End Render.

(** ** RequestAnalyzer: the other signals (rag_service.py, lines 39-124) *)

Module Analyzer.

(** The maximal runs of characters that satisfy [p], from left to right *)
Fixpoint runs (p : ascii -> bool) (s : string) : list string :=
  match s with
  | EmptyString => []
  | String c s' =>
      if p c then
        match s' with
        | EmptyString => [String c EmptyString]
        | String c' _ =>
            if p c' then
              match runs p s' with
              | [] => [String c EmptyString]
              | w :: ws => String c w :: ws
              end
            else String c EmptyString :: runs p s'
        end
      else runs p s'
  end.

(** [s.split()]: the words between runs of whitespace *)
Definition split_words (s : string) : list string :=
  runs (fun c => negb (is_space c)) s.

(** [_estimate_complexity] (lines 67-75) *)
Definition _estimate_complexity (request : string) : string :=
  let words := split_words request in
  if List.length words <? 10 then "simple"
  else if List.length words <? 30 then "medium"
  else "complex".

Definition component_words : list string := ["component"; "function"; "class"].
Definition module_words : list string := ["module"; "service"; "api"].
Definition system_words : list string := ["system"; "architecture"; "database"].

(** [_determine_scope] (lines 77-88) *)
Definition _determine_scope (request : string) : string :=
  let request_lower := lower request in
  if any_in component_words request_lower then "component"
  else if any_in module_words request_lower then "module"
  else if any_in system_words request_lower then "system"
  else "component".

Definition common_words : list string :=
  ["the"; "a"; "an"; "and"; "or"; "but"; "in"; "on"; "at"; "to"; "for"; "of";
   "with"; "by"; "is"; "are"; "was"; "were"; "be"; "been"; "have"; "has"; "had";
   "do"; "does"; "did"; "will"; "would"; "could"; "should"; "may"; "might";
   "can"; "this"; "that"; "these"; "those"].

(** The class [\w] on ASCII: letters, digits and the underscore *)
Definition is_word_char (c : ascii) : bool :=
  let n := nat_of_ascii c in
  ((97 <=? n) && (n <=? 122)) || ((65 <=? n) && (n <=? 90))
  || ((48 <=? n) && (n <=? 57)) || (n =? 95).

(** [x in common_words] *)
Definition mem (x : string) (l : list string) : bool :=
  existsb (String.eqb x) l.

(** [_extract_keywords] (lines 90-98); [list(set(...))] keeps one copy of
    each keyword, in an order the language does not fix *)
Definition _extract_keywords (request : string) : list string :=
  let words := runs is_word_char (lower request) in
  let keywords :=
    filter (fun word => negb (mem word common_words) && (2 <? String.length word))
           words in
  nodup string_dec keywords.

Definition technology_keywords : list (string * list string) :=
  [ ("react", ["react"; "jsx"; "component"; "hook"]);
    ("vue", ["vue"; "template"; "composition"]);
    ("angular", ["angular"; "service"; "directive"]);
    ("flutter", ["flutter"; "widget"; "dart"]);
    ("python", ["python"; "django"; "flask"; "fastapi"]);
    ("java", ["java"; "spring"; "maven"]);
    ("typescript", ["typescript"; "ts"; "interface"; "type"]);
    ("javascript", ["javascript"; "js"; "node"; "express"]);
    ("database", ["database"; "sql"; "mongodb"; "postgres"]);
    ("api", ["api"; "rest"; "graphql"; "endpoint"]);
    ("auth", ["authentication"; "auth"; "login"; "jwt"; "oauth"]);
    ("testing", ["test"; "spec"; "unit"; "integration"; "e2e"]) ].

(** [_extract_technology_hints] (lines 100-124) *)
Definition _extract_technology_hints (request : string) : list string :=
  let request_lower := lower request in
  fold_left
    (fun hints entry =>
       let '(tech, keywords) := entry in
       if any_in keywords request_lower then hints ++ [tech] else hints)
    technology_keywords [].

(** The dict of [analyze_user_request] (lines 39-48) *)
Record RequestAnalysis : Type := mkAnalysis {
  intent : string;
  complexity : string;
  scope : string;
  keywords : list string;
  technology_hints : list string
}.

Definition analyze_user_request (user_request : string) : RequestAnalysis :=
  {| intent := Intent._classify_intent user_request;
     complexity := _estimate_complexity user_request;
     scope := _determine_scope user_request;
     keywords := _extract_keywords user_request;
     technology_hints := _extract_technology_hints user_request |}.

End Analyzer.

(** ** [re.findall] with one group *)

Module Regex.

Section FindAll.
(** [matcher s] is the length of the match of the pattern at the start
    of [s] and the text of its group, if there is a match. *)
Variable matcher : string -> option (nat * string).

Fixpoint findall_from (skip : nat) (s : string) : list string :=
  match s with
  | EmptyString => []
  | String _ s' =>
      match skip with
      | S k => findall_from k s'
      | O =>
          match matcher s with
          | Some (S n, group) => group :: findall_from n s'
          | _ => findall_from 0 s'
          end
      end
  end.

Definition findall (s : string) : list string := findall_from 0 s.
End FindAll.

(** Length of the longest prefix whose characters satisfy [p] *)
Fixpoint run (p : ascii -> bool) (s : string) : nat :=
  match s with
  | EmptyString => 0
  | String c s' => if p c then S (run p s') else 0
  end.

Definition is_lower (c : ascii) : bool :=
  let n := nat_of_ascii c in (97 <=? n) && (n <=? 122).

Definition is_digit (c : ascii) : bool :=
  let n := nat_of_ascii c in (48 <=? n) && (n <=? 57).

Definition is_underscore (c : ascii) : bool := nat_of_ascii c =? 95.

Definition is_quote (c : ascii) : bool :=
  let n := nat_of_ascii c in (n =? 39) || (n =? 34).

(** A keyword, whitespace ([\s+]) and, as the group, an identifier: one
    character of the class [first], then any number of the class [rest] *)
Definition match_declaration (keyword : string) (first rest : ascii -> bool)
    (s : string) : option (nat * string) :=
  if startswith keyword s then
    let after_keyword := drop (String.length keyword) s in
    let w := run is_space after_keyword in
    if 1 <=? w then
      match drop w after_keyword with
      | EmptyString => None
      | String c t =>
          if first c then
            let n := run rest t in
            Some (String.length keyword + w + S n,
                  Ticket.take (S n) (String c t))
          else None
      end
    else None
  else None.

(** [def\s+] and the group [[a-z_][a-z0-9_]*] *)
Definition match_def : string -> option (nat * string) :=
  match_declaration "def"
    (fun c => is_lower c || is_underscore c)
    (fun c => is_lower c || is_digit c || is_underscore c).

(** [function\s+] and the group [[a-z][a-zA-Z0-9]*] *)
Definition match_function : string -> option (nat * string) :=
  match_declaration "function" is_lower
    (fun c => is_lower c || is_upper c || is_digit c).

(** [const\s+], the group [[a-z][a-zA-Z0-9]*], then [\s*=] *)
Definition match_const (s : string) : option (nat * string) :=
  match match_declaration "const" is_lower
          (fun c => is_lower c || is_upper c || is_digit c) s with
  | Some (n, group) =>
      let after := drop n s in
      let w := run is_space after in
      if startswith "=" (drop w after) then Some (n + w + 1, group) else None
  | None => None
  end.

Definition is_name_start (c : ascii) : bool :=
  is_lower c || is_upper c || is_underscore c.

Definition is_name_char (c : ascii) : bool :=
  is_lower c || is_upper c || is_digit c || is_underscore c.

(** [import\s+] and the group [[a-zA-Z_][a-zA-Z0-9_]*] *)
Definition match_import : string -> option (nat * string) :=
  match_declaration "import" is_name_start is_name_char.

(** [from\s+] and the group [[a-zA-Z_][a-zA-Z0-9_]*] *)
Definition match_from : string -> option (nat * string) :=
  match_declaration "from" is_name_start is_name_char.

(** The pattern [Q([^Q]+)Q], where [Q] is the class of the single and the
    double quote: a quote, what follows up to the next quote (at least
    one character), that quote *)
Definition match_quoted (s : string) : option (nat * string) :=
  match s with
  | EmptyString => None
  | String q t =>
      if is_quote q then
        let n := run (fun c => negb (is_quote c)) t in
        if (1 <=? n) && negb (String.eqb (drop n t) EmptyString)
        then Some (n + 2, Ticket.take n t)
        else None
      else None
  end.

(** [require\(Q([^Q]+)Q\)] *)
Definition match_require (s : string) : option (nat * string) :=
  if startswith "require(" s then
    match match_quoted (drop 8 s) with
    | Some (n, group) =>
        if startswith ")" (drop (8 + n) s) then Some (8 + n + 1, group) else None
    | None => None
    end
  else None.

(** [from\s+Q([^Q]+)Q] *)
Definition match_from_quoted (s : string) : option (nat * string) :=
  if startswith "from" s then
    let w := run is_space (drop 4 s) in
    if 1 <=? w then
      match match_quoted (drop (4 + w) s) with
      | Some (n, group) => Some (4 + w + n, group)
      | None => None
      end
    else None
  else None.

(** [.*?] followed by the pattern above: the first place on the current
    line where it matches *)
Fixpoint first_on_line (s : string) : option (nat * string) :=
  match match_from_quoted s with
  | Some r => Some r
  | None =>
      match s with
      | EmptyString => None
      | String c s' =>
          if Ascii.eqb c newline then None
          else match first_on_line s' with
               | Some (n, group) => Some (S n, group)
               | None => None
               end
      end
  end.

(** [import\s+.*?from\s+Q([^Q]+)Q] *)
Definition match_import_from (s : string) : option (nat * string) :=
  if startswith "import" s then
    let w := run is_space (drop 6 s) in
    if 1 <=? w then
      match first_on_line (drop (6 + w) s) with
      | Some (n, group) => Some (6 + w + n, group)
      | None => None
      end
    else None
  else None.

End Regex.

(** ** ProjectContextBuilder: the other analyses (rag_service.py, lines 181-402) *)

Module Context.
Import Regex.

(** The double quote character *)
Definition dq : string := String "034"%char EmptyString.

(** A dict from label to count, in insertion order *)
Definition counter : Type := list (string * nat).

(** [d[key] = d.get(key, 0) + 1] *)
Fixpoint incr (key : string) (d : counter) : counter :=
  match d with
  | [] => [(key, 1)]
  | (k, n) :: rest =>
      if String.eqb k key then (k, S n) :: rest else (k, n) :: incr key rest
  end.

(** [d.get(key, 0)] *)
Fixpoint count_of (key : string) (d : counter) : nat :=
  match d with
  | [] => 0
  | (k, n) :: rest => if String.eqb k key then n else count_of key rest
  end.

(** [if cond: d[key] = d.get(key, 0) + 1] *)
Definition bump (cond : bool) (key : string) (d : counter) : counter :=
  if cond then incr key d else d.

Record TechnologyStack : Type := mkStack {
  languages : counter;
  frameworks : counter;
  libraries : counter;
  tools : counter;
  databases : counter;
  platforms : counter
}.

(** One round of the second loop (lines 230-257) *)
Definition detect_frameworks (code_lower : string) (fw : counter) : counter :=
  let fw := bump (contains "react" code_lower || contains "jsx" code_lower) "react" fw in
  let fw := bump (contains "vue" code_lower) "vue" fw in
  let fw := bump (contains "angular" code_lower) "angular" fw in
  let fw := bump (contains "flutter" code_lower) "flutter" fw in
  let fw := bump (contains "django" code_lower) "django" fw in
  let fw := bump (contains "fastapi" code_lower) "fastapi" fw in
  let fw := bump (contains "spring" code_lower) "spring" fw in
  fw.

Definition detect_libraries (code_lower : string) (libs : counter) : counter :=
  let libs := bump (contains "axios" code_lower) "axios" libs in
  let libs := bump (contains "lodash" code_lower) "lodash" libs in
  let libs := bump (contains "moment" code_lower) "moment" libs in
  let libs := bump (contains "pandas" code_lower) "pandas" libs in
  libs.

(** A decoded JSON value *)
#[warnings="-register-all"]
Inductive json : Type :=
| JNull
| JBool (b : bool)
| JNum (q : Q)
| JStr (s : string)
| JArr (items : list json)
| JObj (fields : list (string * json)).

(** [value.get(key, {})]: an [AttributeError] unless [value] is a dict *)
Definition json_get (key : string) (value : json) : pyresult json :=
  match value with
  | JObj fields =>
      match find (fun kv => String.eqb (fst kv) key) fields with
      | Some (_, v) => Ok v
      | None => Ok (JObj [])
      end
  | _ => Raise (RuntimeError "object has no attribute 'get'")
  end.

(** [list(value.keys())]: an [AttributeError] unless [value] is a dict *)
Definition json_keys (value : json) : pyresult (list string) :=
  match value with
  | JObj fields => Ok (map fst fields)
  | _ => Raise (RuntimeError "object has no attribute 'keys'")
  end.

Record Dependencies : Type := mkDependencies {
  runtime : list string;
  development : list string;
  external : list string
}.

(** [project_metadata]: file name to text *)
Definition manifests : Type := list (string * string).

Definition manifest (name : string) (project_metadata : manifests) : option string :=
  match find (fun kv => String.eqb (fst kv) name) project_metadata with
  | Some (_, text) => Some text
  | None => None
  end.

(** Lines 376-382, with [json.loads] as [loads]: the two assignments run
    in order, and the bare [except] stops at the first failure, keeping
    what was assigned before *)
Definition manifest_dependencies (loads : string -> pyresult json)
    (project_metadata : manifests) : list string * list string :=
  match manifest "package.json" project_metadata with
  | None => ([], [])
  | Some text =>
      match loads text with
      | Raise _ => ([], [])
      | Ok package_data =>
          match (deps <- json_get "dependencies" package_data ;; json_keys deps) with
          | Raise _ => ([], [])
          | Ok run =>
              match (deps <- json_get "devDependencies" package_data ;;
                     json_keys deps) with
              | Raise _ => (run, [])
              | Ok dev => (run, dev)
              end
          end
      end
  end.

Section Builder.
Context {F : Type} `{PyFloat F}.

(** [_analyze_technology_stack] (lines 211-259); the metadata is not read *)
Definition _analyze_technology_stack (code_chunks : list (CodeChunk F))
  : TechnologyStack :=
  let langs := fold_left (fun d chunk => incr (language chunk) d) code_chunks [] in
  let fw := fold_left (fun d chunk => detect_frameworks (lower (code chunk)) d)
                      code_chunks [] in
  let libs := fold_left (fun d chunk => detect_libraries (lower (code chunk)) d)
                        code_chunks [] in
  {| languages := langs; frameworks := fw; libraries := libs;
     tools := []; databases := []; platforms := [] |}.

(** [match[0].isupper()], [elif "_" in match], [else] (lines 312-317);
    [match[0]] of an empty string is an [IndexError], written here as a
    [RuntimeError] *)
Definition naming_style (m : string) : pyresult string :=
  match m with
  | EmptyString => Raise (RuntimeError "string index out of range")
  | String c _ =>
      if is_upper c then Ok "PascalCase"
      else if contains "_" m then Ok "snake_case"
      else Ok "camelCase"
  end.

Fixpoint tally_matches (matches : list string) (naming : counter)
  : pyresult counter :=
  match matches with
  | [] => Ok naming
  | m :: rest =>
      style <- naming_style m ;;
      tally_matches rest (incr style naming)
  end.

Definition function_patterns : list (string -> option (nat * string)) :=
  [match_def; match_function; match_const].

Fixpoint tally_patterns (patterns : list (string -> option (nat * string)))
    (code : string) (naming : counter) : pyresult counter :=
  match patterns with
  | [] => Ok naming
  | pattern :: rest =>
      naming <- tally_matches (findall pattern code) naming ;;
      tally_patterns rest code naming
  end.

Fixpoint tally_chunks (code_chunks : list (CodeChunk F)) (naming : counter)
  : pyresult counter :=
  match code_chunks with
  | [] => Ok naming
  | chunk :: rest =>
      naming <- tally_patterns function_patterns (code chunk) naming ;;
      tally_chunks rest naming
  end.

Record CodingConventions : Type := mkConventions {
  naming : counter;
  structure : counter;
  style : counter
}.

(** [_analyze_coding_conventions] (lines 290-319) *)
Definition _analyze_coding_conventions (code_chunks : list (CodeChunk F))
  : pyresult CodingConventions :=
  naming <- tally_chunks code_chunks [] ;;
  Ok {| naming := naming; structure := []; style := [] |}.

(** One round of the loop of [_identify_best_practices] (lines 346-363) *)
Definition chunk_practices (code : string) : list string :=
  (if contains "try:" code || contains "catch" code || contains "except" code
   then ["Error Handling"] else [])
  ++ (if contains ":" code && (contains "def " code || contains "function" code)
      then ["Type Annotations"] else [])
  ++ (if contains (dq ++ dq ++ dq) code || contains "'''" code || contains "//" code
      then ["Code Documentation"] else [])
  ++ (if contains "test" (lower code) || contains "spec" (lower code)
      then ["Testing"] else []).

(** [_identify_best_practices] (lines 342-365); [list(set(...))] keeps
    one copy of each label, in an order the language does not fix *)
Definition _identify_best_practices (code_chunks : list (CodeChunk F))
  : list string :=
  nodup string_dec (flat_map (fun chunk => chunk_practices (code chunk)) code_chunks).

(** Lines 389-396 *)
Definition all_imports (code : string) : list string :=
  findall match_import code ++ findall match_from code
  ++ findall match_require code ++ findall match_import_from code.

(** Lines 398-400: [if imp not in external: external.append(imp)] *)
Definition add_new (found : list string) (imp : string) : list string :=
  if Analyzer.mem imp found then found else found ++ [imp].

(** [_analyze_dependencies] (lines 367-402) *)
Definition _analyze_dependencies (loads : string -> pyresult json)
    (code_chunks : list (CodeChunk F)) (project_metadata : manifests)
  : Dependencies :=
  let '(run, dev) := manifest_dependencies loads project_metadata in
  let ext :=
    fold_left (fun found chunk => fold_left add_new (all_imports (code chunk)) found)
              code_chunks [] in
  {| runtime := run; development := dev; external := ext |}.

Record ProjectContext : Type := mkContext {
  technology_stack : TechnologyStack;
  architectural_patterns : list string;
  coding_conventions : CodingConventions;
  similar_implementations : list (CodeChunk F);
  best_practices : list string;
  dependencies : Dependencies
}.

(** [build_project_context] (lines 181-209) *)
Definition build_project_context (loads : string -> pyresult json)
    (code_chunks : list (CodeChunk F)) (project_metadata : manifests)
  : pyresult ProjectContext :=
  let technology_stack := _analyze_technology_stack code_chunks in
  let architectural_patterns := Patterns._detect_architectural_patterns code_chunks in
  coding_conventions <- _analyze_coding_conventions code_chunks ;;
  similar_implementations <- Similar._extract_similar_implementations code_chunks ;;
  let best_practices := _identify_best_practices code_chunks in
  let dependencies := _analyze_dependencies loads code_chunks project_metadata in
  Ok {| technology_stack := technology_stack;
        architectural_patterns := architectural_patterns;
        coding_conventions := coding_conventions;
        similar_implementations := similar_implementations;
        best_practices := best_practices;
        dependencies := dependencies |}.

End Builder.

End Context.

(** ** PromptComposer (rag_service.py, lines 404-503) *)

Module Prompt.
Import Context Analyzer.

Definition nl : string := String newline EmptyString.

(** [sep.join(items)] *)
Fixpoint join (sep : string) (items : list string) : string :=
  match items with
  | [] => EmptyString
  | [x] => x
  | x :: rest => (x ++ sep ++ join sep rest)%string
  end.

(** [sorted(d.items(), key=lambda x: x[1], reverse=True)]: stable, equal
    counts keep their insertion order *)
Fixpoint insert_by_count (x : string * nat) (l : counter) : counter :=
  match l with
  | [] => [x]
  | y :: l' => if snd x <? snd y then y :: insert_by_count x l' else x :: l
  end.

Definition sorted_by_count (d : counter) : counter :=
  fold_right insert_by_count [] d.

(** One line of [_build_technology_context]: nothing for an empty dict *)
Definition top_line (title : string) (n : nat) (d : counter) : string :=
  match d with
  | [] => EmptyString
  | _ => (title ++ join ", " (map fst (firstn n (sorted_by_count d))) ++ nl)%string
  end.

(** [_build_technology_context] (lines 453-469) *)
Definition _build_technology_context (technology_stack : TechnologyStack) : string :=
  ("TECHNOLOGY STACK:" ++ nl
   ++ top_line "- Primary Languages: " 3 (languages technology_stack)
   ++ top_line "- Frameworks: " 3 (frameworks technology_stack)
   ++ top_line "- Key Libraries: " 5 (libraries technology_stack))%string.

(** [_build_architectural_context] (lines 471-480) *)
Definition _build_architectural_context (architectural_patterns : list string)
  : string :=
  match architectural_patterns with
  | [] => ("ARCHITECTURE: Standard application architecture" ++ nl)%string
  | _ =>
      fold_left (fun context pattern => (context ++ "- " ++ pattern ++ nl)%string)
                architectural_patterns
                ("ARCHITECTURAL PATTERNS:" ++ nl)%string
  end.

(** [max(d.items(), key=lambda x: x[1])]: the first entry of greatest count *)
Fixpoint max_count_from (best : string * nat) (l : counter) : string * nat :=
  match l with
  | [] => best
  | x :: rest => max_count_from (if snd best <? snd x then x else best) rest
  end.

(** [_build_conventions_context] (lines 482-490) *)
Definition _build_conventions_context (coding_conventions : CodingConventions)
  : string :=
  match naming coding_conventions with
  | [] => ("CODING CONVENTIONS:" ++ nl)%string
  | x :: rest =>
      ("CODING CONVENTIONS:" ++ nl
       ++ "- Naming Convention: " ++ fst (max_count_from x rest) ++ nl)%string
  end.

(** [str(i)] *)
Definition str_nat (i : nat) : string := NilZero.string_of_uint (Nat.to_uint i).

Section Examples.
Context {F : Type}.

(** The loop of [_build_examples_context] over [enumerate(..., 1)] *)
Fixpoint examples_from (i : nat) (impls : list (CodeChunk F)) (context : string)
  : string :=
  match impls with
  | [] => context
  | impl :: rest =>
      examples_from (S i) rest
        (context
         ++ str_nat i ++ ". File: " ++ filename impl ++ nl
         ++ "   Language: " ++ language impl ++ nl
         ++ "   Code: " ++ Ticket.take 200 (code impl) ++ "..." ++ nl ++ nl)%string
  end.

(** [_build_examples_context] (lines 492-503) *)
Definition _build_examples_context (similar_implementations : list (CodeChunk F))
  : string :=
  match similar_implementations with
  | [] => ("EXAMPLES: No specific examples available" ++ nl)%string
  | _ =>
      examples_from 1 (firstn 3 similar_implementations)
                    ("SIMILAR IMPLEMENTATIONS (for reference):" ++ nl)%string
  end.

(** [generate_contextual_prompt] (lines 404-451) *)
Definition generate_contextual_prompt `{PyFloat F} (user_request : string)
    (project_context : ProjectContext) (request_analysis : RequestAnalysis)
  : string :=
  let tech_context := _build_technology_context (technology_stack project_context) in
  let arch_context :=
    _build_architectural_context (architectural_patterns project_context) in
  let conventions_context :=
    _build_conventions_context (coding_conventions project_context) in
  let examples_context :=
    _build_examples_context (similar_implementations project_context) in
  (nl
   ++ "You are a senior technical lead generating implementation tickets for a project with the following characteristics:" ++ nl
   ++ nl
   ++ tech_context ++ nl
   ++ nl
   ++ arch_context ++ nl
   ++ nl
   ++ conventions_context ++ nl
   ++ nl
   ++ "USER REQUEST ANALYSIS:" ++ nl
   ++ "- Intent: " ++ intent request_analysis ++ nl
   ++ "- Complexity: " ++ complexity request_analysis ++ nl
   ++ "- Scope: " ++ scope request_analysis ++ nl
   ++ "- Keywords: " ++ join ", " (keywords request_analysis) ++ nl
   ++ "- Technology Hints: " ++ join ", " (technology_hints request_analysis) ++ nl
   ++ nl
   ++ examples_context ++ nl
   ++ nl
   ++ "USER REQUEST: " ++ dq ++ user_request ++ dq ++ nl
   ++ nl
   ++ "CRITICAL INSTRUCTIONS:" ++ nl
   ++ "1. Follow the EXACT patterns and conventions shown in the examples above" ++ nl
   ++ "2. Use the SAME technology stack and libraries detected in the project" ++ nl
   ++ "3. Maintain consistency with the architectural patterns identified" ++ nl
   ++ "4. Reference ACTUAL files and structures from the project" ++ nl
   ++ "5. Include specific implementation details based on the project's coding style" ++ nl
   ++ "6. Consider the complexity level and scope identified in the analysis" ++ nl
   ++ nl
   ++ "Generate a comprehensive implementation ticket that is perfectly aligned with this project's specific characteristics and patterns." ++ nl)%string.
End Examples.

End Prompt.

(** ** Orchestrator: [generate_intelligent_ticket]
    (intelligent_ticket_generator.py, lines 20-136) *)

Module Orchestrator.
Import Ranker Context Analyzer Prompt.

Definition placeholder (name body : string) (embedding : float) : chunk_record :=
  {| r_filename := Some name;
     r_code := Some body;
     r_language := Some "typescript";
     r_embedding := Some (repeat embedding 384);
     r_metadata := Some [("has_functions", true); ("has_imports", true)];
     r_location := None |}.

Definition login_form_code : string :=
  ("export default function LoginForm() {"
   ++ nl ++ "  const [email, setEmail] = useState('');"
   ++ nl ++ "  const [password, setPassword] = useState('');"
   ++ nl ++ "  "
   ++ nl ++ "  const handleSubmit = async (e) => {"
   ++ nl ++ "    e.preventDefault();"
   ++ nl ++ "    // Login logic here"
   ++ nl ++ "  };"
   ++ nl ++ "  "
   ++ nl ++ "  return ("
   ++ nl ++ "    <form onSubmit={handleSubmit}>"
   ++ nl ++ "      <input type='email' value={email} onChange={(e) => setEmail(e.target.value)} />"
   ++ nl ++ "      <input type='password' value={password} onChange={(e) => setPassword(e.target.value)} />"
   ++ nl ++ "      <button type='submit'>Login</button>"
   ++ nl ++ "    </form>"
   ++ nl ++ "  );"
   ++ nl ++ "}")%string.

Definition auth_route_code : string :=
  ("import { NextRequest, NextResponse } from 'next/server';"
   ++ nl ++ ""
   ++ nl ++ "export async function POST(request: NextRequest) {"
   ++ nl ++ "  try {"
   ++ nl ++ "    const { email, password } = await request.json();"
   ++ nl ++ "    "
   ++ nl ++ "    // Authentication logic here"
   ++ nl ++ "    "
   ++ nl ++ "    return NextResponse.json({ success: true });"
   ++ nl ++ "  } catch (error) {"
   ++ nl ++ "    return NextResponse.json({ error: 'Authentication failed' }, { status: 400 });"
   ++ nl ++ "  }"
   ++ nl ++ "}")%string.

Definition button_code : string :=
  ("import * as React from 'react';"
   ++ nl ++ "import { cn } from '@/lib/utils';"
   ++ nl ++ ""
   ++ nl ++ "export interface ButtonProps extends React.ButtonHTMLAttributes<HTMLButtonElement> {"
   ++ nl ++ "  variant?: 'default' | 'outline' | 'ghost';"
   ++ nl ++ "  size?: 'default' | 'sm' | 'lg';"
   ++ nl ++ "}"
   ++ nl ++ ""
   ++ nl ++ "const Button = React.forwardRef<HTMLButtonElement, ButtonProps>("
   ++ nl ++ "  ({ className, variant = 'default', size = 'default', ...props }, ref) => {"
   ++ nl ++ "    return ("
   ++ nl ++ "      <button"
   ++ nl ++ "        className={cn("
   ++ nl ++ "          'inline-flex items-center justify-center rounded-md text-sm font-medium',"
   ++ nl ++ "          'transition-colors focus-visible:outline-none focus-visible:ring-2',"
   ++ nl ++ "          className"
   ++ nl ++ "        )}"
   ++ nl ++ "        ref={ref}"
   ++ nl ++ "        {...props}"
   ++ nl ++ "      />"
   ++ nl ++ "    );"
   ++ nl ++ "  }"
   ++ nl ++ ");"
   ++ nl ++ "Button.displayName = 'Button';"
   ++ nl ++ ""
   ++ nl ++ "export { Button };")%string.

(** [_get_placeholder_embeddings] (lines 93-117) *)
Definition _get_placeholder_embeddings : list chunk_record :=
  [ placeholder "app/components/LoginForm.tsx" login_form_code 0.1%float;
    placeholder "app/api/auth/route.ts" auth_route_code 0.2%float;
    placeholder "components/ui/button.tsx" button_code 0.3%float ].

(** The text that [json.dumps] gives for the dict of lines 122-135 *)
Definition package_json : string :=
  ("{" ++ dq ++ "name" ++ dq ++ ": " ++ dq ++ "example-project"
     ++ dq ++ ", " ++ dq ++ "dependencies" ++ dq ++ ": {" ++ dq ++ "react"
     ++ dq ++ ": " ++ dq ++ "^18.0.0" ++ dq ++ ", " ++ dq ++ "next"
     ++ dq ++ ": " ++ dq ++ "^13.0.0" ++ dq ++ ", " ++ dq ++ "typescript"
     ++ dq ++ ": " ++ dq ++ "^5.0.0" ++ dq ++ ", "
     ++ dq ++ "@radix-ui/react-dialog" ++ dq ++ ": " ++ dq ++ "^1.0.0"
     ++ dq ++ ", " ++ dq ++ "lucide-react" ++ dq ++ ": "
     ++ dq ++ "^0.300.0" ++ dq ++ "}, " ++ dq ++ "devDependencies"
     ++ dq ++ ": {" ++ dq ++ "tailwindcss" ++ dq ++ ": " ++ dq ++ "^3.0.0"
     ++ dq ++ ", " ++ dq ++ "eslint" ++ dq ++ ": " ++ dq ++ "^8.0.0"
     ++ dq ++ "}}")%string.

(** [_get_placeholder_metadata] (lines 119-136) *)
Definition _get_placeholder_metadata : manifests := [("package.json", package_json)].

(** What [index_repository] returns (cocoindex_service.py, lines 240-277):
    one of its two dicts *)
Inductive indexing_result : Type :=
| Indexed (repository : string) (indexed_files embeddings_generated : nat)
| NotIndexed (error repository : string).

(** The [context] of a successful run (lines 73-83) *)
Record run_context : Type := mkRunContext {
  ctx_indexing_result : indexing_result;
  ctx_request_analysis : RequestAnalysis;
  relevant_code_count : nat;
  ctx_languages : list string;
  ctx_frameworks : list string;
  ctx_patterns : list string;
  ctx_best_practices : list string
}.

(** The dict that [generate_intelligent_ticket] returns: with
    [success: True], a ticket and a context, or with [success: False],
    an error and [ticket: None] *)
Inductive envelope : Type :=
| Success (ticket : Ticket.ticket) (context : run_context)
| Failure (error : string).

Section Run.
Context `{ListSort}.

(** The collaborators: [index_repository], [json.loads] and the chat
    completion call *)
Variable index : string -> option string -> pyresult indexing_result.
Variable loads : string -> pyresult json.
Variable create : Ticket.generation.

Definition run_body (user_request repo_url : string) (github_token : option string)
  : pyresult envelope :=
  indexing_result <- index repo_url github_token ;;
  match indexing_result with
  | NotIndexed error _ =>
      Ok (Failure ("Failed to index repository: " ++ error)%string)
  | Indexed _ _ _ =>
      let request_analysis := analyze_user_request user_request in
      let placeholder_embeddings := _get_placeholder_embeddings in
      relevant_code <-
        search_relevant_code None user_request placeholder_embeddings default_top_k ;;
      let project_metadata := _get_placeholder_metadata in
      project_context <-
        build_project_context (F := Q) loads relevant_code project_metadata ;;
      let contextual_prompt :=
        generate_contextual_prompt user_request project_context request_analysis in
      ticket <- Ticket._generate_ticket_with_llm create contextual_prompt user_request ;;
      Ok (Success ticket
            {| ctx_indexing_result := indexing_result;
               ctx_request_analysis := request_analysis;
               relevant_code_count := List.length relevant_code;
               ctx_languages :=
                 map fst (languages (technology_stack project_context));
               ctx_frameworks :=
                 map fst (frameworks (technology_stack project_context));
               ctx_patterns := architectural_patterns project_context;
               ctx_best_practices := best_practices project_context |})
  end.

(** [generate_intelligent_ticket] (lines 20-91) *)
Definition generate_intelligent_ticket (user_request repo_url : string)
    (github_token : option string) : pyresult envelope :=
  try_except (run_body user_request repo_url github_token)
             (fun e => Ok (Failure (exn_str e))).
End Run.

End Orchestrator.

(** ** Shapes of texts and chunks used in the statements *)

Module Shape.

(** Every character of [s] satisfies [p] *)
Fixpoint all_chars (p : ascii -> bool) (s : string) : bool :=
  match s with
  | EmptyString => true
  | String c s' => p c && all_chars p s'
  end.

(** A text of ASCII characters only *)
Definition is_ascii_text (s : string) : bool :=
  all_chars (fun c => nat_of_ascii c <? 128) s.

(** A word that starts with a character other than whitespace *)
Definition starts_with_text (w : string) : bool :=
  match w with
  | EmptyString => false
  | String c _ => negb (is_space c)
  end.

End Shape.

(** * Properties *)

(** ** Strings *)

Section StringFacts.

Lemma startswith_refl (s : string) : startswith s s = true.
Proof.
  induction s as [| c s IH]; simpl; [reflexivity |].
  rewrite Ascii.eqb_refl. exact IH.
Qed.

Lemma startswith_lower (p s : string) :
  startswith p s = true -> startswith (lower p) (lower s) = true.
Proof.
  revert s. induction p as [| a p IH]; intros [| b s]; simpl; try easy.
  intro E. apply andb_true_iff in E as [Eab Eps].
  apply Ascii.eqb_eq in Eab. subst b.
  rewrite Ascii.eqb_refl. simpl. apply IH. exact Eps.
Qed.

Lemma contains_lower (p s : string) :
  contains p s = true -> contains (lower p) (lower s) = true.
Proof.
  induction s as [| c s IH]; simpl; intro E.
  - rewrite orb_false_r in E. apply startswith_lower in E.
    simpl in E. rewrite E. reflexivity.
  - apply orb_true_iff in E as [E | E].
    + apply startswith_lower in E. simpl in E. rewrite E. reflexivity.
    + rewrite (IH E). apply orb_true_r.
Qed.

Lemma any_in_true (words : list string) (s : string) :
  any_in words s = true <-> exists w, In w words /\ contains w s = true.
Proof. unfold any_in. apply existsb_exists. Qed.

Lemma any_in_false (words : list string) (s : string) :
  any_in words s = false <-> forall w, In w words -> contains w s = false.
Proof.
  split.
  - intros E w Hw. destruct (contains w s) eqn:C; [| reflexivity].
    assert (T : any_in words s = true) by (apply any_in_true; eauto).
    congruence.
  - intro A. destruct (any_in words s) eqn:E; [| reflexivity].
    apply any_in_true in E as (w & Hw & C). rewrite (A w Hw) in C. discriminate.
Qed.

End StringFacts.

(** ** Intent classification *)

Section IntentFacts.
Import Intent.

Lemma bug_words_lower (w : string) : In w bug_words -> lower w = w.
Proof.
  unfold bug_words. simpl.
  intros [E | [E | [E | [E | []]]]]; subst w; reflexivity.
Qed.

(** C6, as amended: a request that contains a bug_fix keyword and a
    refactoring keyword, and whose lower-cased text contains none of the
    feature_implementation keywords (add, create, implement, build),
    is classified as bug_fix. *)
Theorem classify_intent_bug_fix_before_refactoring (request : string) :
  (exists w, In w bug_words /\ contains w request = true) ->
  (exists w, In w refactor_words /\ contains w request = true) ->
  (forall w, In w feature_words -> contains w (lower request) = false) ->
  _classify_intent request = "bug_fix".
Proof.
  intros (b & Hb & Cb) _ Hfeature.
  unfold _classify_intent.
  apply any_in_false in Hfeature. rewrite Hfeature.
  assert (Hbug : any_in bug_words (lower request) = true).
  { apply any_in_true. exists b. split; [exact Hb |].
    rewrite <- (bug_words_lower b Hb). apply contains_lower. exact Cb. }
  rewrite Hbug. reflexivity.
Qed.

Lemma classify_intent_bug_fix_before_refactoring_witness :
  _classify_intent "fix and refactor the parser" = "bug_fix".
Proof.
  apply classify_intent_bug_fix_before_refactoring.
  - exists "fix". split; [simpl; auto | reflexivity].
  - exists "refactor". split; [simpl; auto | reflexivity].
  - intros w Hw. simpl in Hw.
    destruct Hw as [E | [E | [E | [E | []]]]]; subst w; reflexivity.
Defined.

(** C6, as stated, fails: "address" contains the feature keyword "add",
    and the feature bucket is scanned first. *)
Lemma classify_intent_feature_shadows_bug_fix :
  let request := "fix and refactor the address parser" in
  In "fix" bug_words /\ contains "fix" request = true /\
  In "refactor" refactor_words /\ contains "refactor" request = true /\
  _classify_intent request = "feature_implementation" /\
  _classify_intent request <> "bug_fix".
Proof.
  simpl. repeat split; auto; try reflexivity. discriminate.
Qed.

End IntentFacts.

(** ** Architecture patterns *)

Section PatternFacts.
Import Patterns.
Context {F : Type}.

Lemma any_filename_true (sub : string) (code_chunks : list (CodeChunk F)) :
  any_filename sub (map filename code_chunks) = true <->
  exists c, In c code_chunks /\ contains sub (lower (filename c)) = true.
Proof.
  unfold any_filename. rewrite existsb_exists. split.
  - intros (f & Hf & C). apply in_map_iff in Hf as (c & E & Hc).
    subst f. eauto.
  - intros (c & Hc & C). exists (filename c). split; [| exact C].
    apply in_map. exact Hc.
Qed.

(** C8: "MVC" is among the detected patterns exactly when each of
    "model", "view" and "controller" occurs in the lower-cased filename
    of some chunk. *)
Theorem mvc_iff_model_view_controller (code_chunks : list (CodeChunk F)) :
  In "MVC" (_detect_architectural_patterns code_chunks) <->
  (exists c, In c code_chunks /\ contains "model" (lower (filename c)) = true) /\
  (exists c, In c code_chunks /\ contains "view" (lower (filename c)) = true) /\
  (exists c, In c code_chunks /\ contains "controller" (lower (filename c)) = true).
Proof.
  rewrite <- !any_filename_true.
  unfold _detect_architectural_patterns.
  set (fs := map filename code_chunks).
  destruct (any_filename "model" fs), (any_filename "view" fs),
    (any_filename "controller" fs),
    (any_filename "component" fs || any_filename "components" fs),
    (any_filename "service" fs), (any_filename "repository" fs),
    (any_filename "domain" fs && any_filename "application" fs);
    simpl; split;
    try (intros (A & B & C); (discriminate || (left; reflexivity)));
    intro I; repeat split; try reflexivity;
    repeat (destruct I as [I | I]; try discriminate I); try contradiction.
Qed.

End PatternFacts.

(** ** Ticket parsing and the error ticket *)

Section TicketFacts.
Import Ticket.

Lemma find_first_match {A : Type} (f : A -> bool) (l : list A) :
  match find f l with
  | Some x =>
      exists before after,
        l = before ++ x :: after /\ f x = true /\
        Forall (fun y => f y = false) before
  | None => Forall (fun y => f y = false) l
  end.
Proof.
  induction l as [| a l IH]; simpl.
  - constructor.
  - destruct (f a) eqn:Fa.
    + exists [], l. repeat split; [exact Fa | constructor].
    + destruct (find f l) as [x |].
      * destruct IH as (before & after & E & Fx & Hb).
        exists (a :: before), after. subst l. repeat split; [exact Fx |].
        constructor; assumption.
      * constructor; assumption.
Qed.

Lemma contains_append_r (p s : string) : contains s (p ++ s)%string = true.
Proof.
  induction p as [| c p IH]; simpl.
  - destruct s; simpl.
    + reflexivity.
    + rewrite Ascii.eqb_refl, startswith_refl. reflexivity.
  - rewrite IH. apply orb_true_r.
Qed.

(** C4: parsing is a total function of the text; the dict it returns
    has exactly the five Ticket fields; the title is taken from the
    first line that starts with "# " (the marker dropped, the rest
    trimmed) and is "Generated Ticket" when no line does; description
    and raw_markdown are the whole text; the two remaining fields are
    lists. *)
Theorem parse_generated_ticket_shape (markdown_content : string) :
  let t := _parse_generated_ticket markdown_content in
  let lines := split newline markdown_content in
  keys t = ticket_fields /\
  (exists title,
      lookup "title" t = Some (VStr title) /\
      ((exists before line after,
           lines = before ++ line :: after /\
           startswith "# " line = true /\
           Forall (fun l => startswith "# " l = false) before /\
           title = strip (drop 2 line))
       \/
       (Forall (fun l => startswith "# " l = false) lines /\
        title = "Generated Ticket"))) /\
  lookup "description" t = Some (VStr markdown_content) /\
  (exists criteria, lookup "acceptance_criteria" t = Some (VList criteria)) /\
  (exists files, lookup "files_to_modify" t = Some (VList files)) /\
  lookup "raw_markdown" t = Some (VStr markdown_content) /\
  _parse_generated_ticket "" =
    [ ("title", VStr "Generated Ticket"); ("description", VStr "");
      ("acceptance_criteria", VList []); ("files_to_modify", VList []);
      ("raw_markdown", VStr "") ].
Proof.
  cbv zeta. unfold _parse_generated_ticket.
  split; [reflexivity |]. split.
  - exists (parse_title (split newline markdown_content)).
    split; [reflexivity |]. unfold parse_title.
    pose proof (find_first_match (startswith "# ") (split newline markdown_content)) as P.
    destruct (find (startswith "# ") (split newline markdown_content)) as [line |].
    + left. destruct P as (before & after & E & S & B).
      exists before, line, after. auto.
    + right. auto.
  - repeat split; try reflexivity; eexists; reflexivity.
Qed.

(** C3, on the code: when the generation call raises, the function
    returns the dict of the [except] branch. It has the fixed title, a
    description that contains the failure message and two empty lists,
    but only four keys: [raw_markdown] is absent. *)
Theorem generate_ticket_error_path
    (create : generation) (contextual_prompt user_request : string) (e : exn) :
  create contextual_prompt (user_instruction user_request) = Raise e ->
  exists t description,
    _generate_ticket_with_llm create contextual_prompt user_request = Ok t /\
    lookup "title" t = Some (VStr "Error generating ticket") /\
    lookup "description" t = Some (VStr description) /\
    contains (exn_str e) description = true /\
    lookup "acceptance_criteria" t = Some (VList []) /\
    lookup "files_to_modify" t = Some (VList []) /\
    lookup "raw_markdown" t = None /\
    keys t = ["title"; "description"; "acceptance_criteria"; "files_to_modify"].
Proof.
  intro E. unfold _generate_ticket_with_llm. rewrite E. simpl.
  eexists. eexists. split; [reflexivity |].
  repeat split. apply contains_append_r.
Qed.

Lemma generate_ticket_error_path_witness :
  exists t description,
    _generate_ticket_with_llm (fun _ _ => Raise (RuntimeError "timeout"))
      "prompt" "add a login form" = Ok t /\
    lookup "title" t = Some (VStr "Error generating ticket") /\
    lookup "description" t = Some (VStr description) /\
    contains "timeout" description = true /\
    lookup "acceptance_criteria" t = Some (VList []) /\
    lookup "files_to_modify" t = Some (VList []) /\
    lookup "raw_markdown" t = None /\
    keys t = ["title"; "description"; "acceptance_criteria"; "files_to_modify"].
Proof.
  apply (generate_ticket_error_path
           (fun _ _ => Raise (RuntimeError "timeout"))
           "prompt" "add a login form" (RuntimeError "timeout")).
  reflexivity.
Defined.

End TicketFacts.

(** ** Relevance ranking *)

Section ListFacts.
Context {A : Type}.

Lemma In_firstn (n : nat) (l : list A) (x : A) : In x (firstn n l) -> In x l.
Proof.
  revert l. induction n as [| n IH]; intros [| a l]; simpl; try tauto.
  intros [E | I]; [left; exact E | right; apply IH; exact I].
Qed.

Lemma length_firstn_le (n : nat) (l : list A) : List.length (firstn n l) <= n.
Proof.
  revert l. induction n as [| n IH]; intros [| a l]; simpl; try lia.
  specialize (IH l). lia.
Qed.

Lemma length_filter_le (f : A -> bool) (l : list A) :
  List.length (filter f l) <= List.length l.
Proof.
  induction l as [| a l IH]; simpl; [lia |].
  destruct (f a); simpl; lia.
Qed.

Lemma length_filter_all (f : A -> bool) (l : list A) :
  Forall (fun x => f x = true) l -> List.length (filter f l) = List.length l.
Proof.
  induction 1 as [| a l Fa _ IH]; simpl; [reflexivity |].
  rewrite Fa. simpl. rewrite IH. reflexivity.
Qed.
End ListFacts.

Section LexicalFacts.
Import Ranker.

Lemma findall_terms_nonempty (s : string) :
  Forall (fun t => t <> EmptyString) (findall_terms s).
Proof.
  induction s as [| c s IH]; simpl; [constructor |].
  destruct (is_term_char c); [| exact IH].
  destruct s as [| c' s']; [repeat constructor; discriminate |].
  destruct (is_term_char c').
  - destruct (findall_terms (String c' s')) as [| w ws].
    + repeat constructor. discriminate.
    + inversion IH; subst. constructor; [discriminate | assumption].
  - constructor; [discriminate | exact IH].
Qed.

Lemma py_set_In (l : list string) (t : string) : In t (py_set l) <-> In t l.
Proof. unfold py_set. apply nodup_In. Qed.

Lemma query_terms_nonempty (query t : string) :
  In t (py_set (findall_terms (lower query))) -> t <> EmptyString.
Proof.
  intro I. apply (proj1 (py_set_In _ _)) in I.
  pose proof (findall_terms_nonempty (lower query)) as N.
  rewrite Forall_forall in N. apply N. exact I.
Qed.

Lemma count_matches_le (q_terms : list string) (text : string) :
  count_matches q_terms text <= List.length q_terms.
Proof. unfold count_matches. apply length_filter_le. Qed.

Lemma count_matches_all (q_terms : list string) (text : string) :
  (forall t, In t q_terms -> t <> EmptyString /\ contains t text = true) ->
  count_matches q_terms text = List.length q_terms.
Proof.
  intro A. unfold count_matches. apply length_filter_all.
  apply Forall_forall. intros t I. destruct (A t I) as [N C].
  rewrite C, andb_true_r. apply negb_true_iff.
  apply String.eqb_neq. exact N.
Qed.

Lemma len_or_1_pos (q_terms : list string) : 1 <= len_or_1 q_terms.
Proof. unfold len_or_1. destruct (List.length q_terms); lia. Qed.

Lemma len_or_1_ge (q_terms : list string) : List.length q_terms <= len_or_1 q_terms.
Proof. unfold len_or_1. destruct (List.length q_terms); lia. Qed.

Lemma Qnat_le (a b : nat) : a <= b -> (Qnat a <= Qnat b)%Q.
Proof. intro L. unfold Qnat. rewrite <- Zle_Qle. lia. Qed.

Lemma Qnat_pos (n : nat) : 1 <= n -> (0 < Qnat n)%Q.
Proof.
  intro L. unfold Qnat, Qlt. simpl. lia.
Qed.

Lemma overlap_range (q_terms : list string) (text : string) :
  (0 <= overlap q_terms text <= 1)%Q.
Proof.
  unfold overlap.
  pose proof (Qnat_pos _ (len_or_1_pos q_terms)) as P.
  split.
  - apply Qle_shift_div_l; [exact P |].
    rewrite Qmult_0_l. apply (Qnat_le 0). lia.
  - apply Qle_shift_div_r; [exact P |].
    rewrite Qmult_1_l. apply Qnat_le.
    pose proof (count_matches_le q_terms text).
    pose proof (len_or_1_ge q_terms). lia.
Qed.

Lemma overlap_full (q_terms : list string) (text : string) :
  q_terms <> [] ->
  (forall t, In t q_terms -> t <> EmptyString /\ contains t text = true) ->
  (overlap q_terms text == 1)%Q.
Proof.
  intros N A. unfold overlap.
  rewrite (count_matches_all _ _ A).
  assert (E : len_or_1 q_terms = List.length q_terms).
  { unfold len_or_1. destruct q_terms; [congruence | reflexivity]. }
  rewrite E. unfold Qdiv. apply Qmult_inv_r.
  assert (P : (0 < Qnat (List.length q_terms))%Q).
  { apply Qnat_pos. destruct q_terms; [congruence | simpl; lia]. }
  intro Z. rewrite Z in P. apply (Qlt_irrefl 0). exact P.
Qed.

Lemma length_penalty_range (text : string) : (0 <= length_penalty text <= 1)%Q.
Proof.
  unfold length_penalty. split.
  - apply Q.min_glb; [| discriminate].
    apply Qle_shift_div_l; [reflexivity |].
    rewrite Qmult_0_l. apply (Qnat_le 0). lia.
  - apply Q.le_min_r.
Qed.

Lemma lexical_score_le_1 (q_terms : list string) (chunk : chunk_record) :
  (lexical_score q_terms chunk <= 1)%Q.
Proof.
  unfold lexical_score.
  pose proof (overlap_range q_terms (chunk_text chunk)) as [_ O].
  pose proof (length_penalty_range (chunk_text chunk)) as [_ L].
  lra.
Qed.

Lemma lexical_similarities_le_1 (query : string) (code_embeddings : list chunk_record) :
  Forall (fun p => (fst p <= 1)%Q) (lexical_similarities query code_embeddings).
Proof.
  unfold lexical_similarities. apply Forall_forall. intros p I.
  apply in_map_iff in I as (chunk & E & _). subst p. simpl.
  apply lexical_score_le_1.
Qed.

(** C5, as amended: in lexical mode, for a query of 2 terms and a
    candidate whose text contains every term of the query (however
    often), the overlap is 1.0 and the score is
    0.7*1.0 + 0.3*length_score, length_score = min(len(text)/10000, 1.0). *)
Theorem lexical_score_full_overlap
    (query : string) (code_embeddings : list chunk_record)
    (similarity : Q) (chunk : chunk_record) :
  let q_terms := py_set (findall_terms (lower query)) in
  let text := chunk_text chunk in
  List.length q_terms = 2 ->
  (forall t, In t q_terms -> contains t text = true) ->
  In (similarity, chunk) (lexical_similarities query code_embeddings) ->
  (overlap q_terms text == 1)%Q /\
  (similarity ==
     (7 # 10) * 1 + (3 # 10) * Qmin (Qnat (String.length text) / 10000) 1)%Q.
Proof.
  intros q_terms text L A I.
  assert (O : (overlap q_terms text == 1)%Q).
  { apply overlap_full.
    - intro E. rewrite E in L. discriminate.
    - intros t It. split; [| apply A; exact It].
      apply (query_terms_nonempty query). exact It. }
  split; [exact O |].
  unfold lexical_similarities in I.
  apply in_map_iff in I as (chunk' & E & _).
  inversion E; subst chunk'. unfold lexical_score.
  fold q_terms. fold text. rewrite O. unfold length_penalty. ring.
Qed.

End LexicalFacts.

Section LexicalExamples.
Import Ranker.

Lemma lexical_score_full_overlap_witness :
  let query := "login form" in
  let chunk := record "auth.py" "login form" in
  let q_terms := py_set (findall_terms (lower query)) in
  let text := chunk_text chunk in
  (overlap q_terms text == 1)%Q /\
  (lexical_score q_terms chunk ==
     (7 # 10) * 1 + (3 # 10) * Qmin (Qnat (String.length text) / 10000) 1)%Q.
Proof.
  cbv zeta.
  apply (lexical_score_full_overlap "login form" [record "auth.py" "login form"]).
  - reflexivity.
  - intros t I. vm_compute in I.
    destruct I as [E | [E | []]]; subst t; reflexivity.
  - simpl. left. reflexivity.
Defined.

(** C5, as stated, fails: the query has two terms, the text contains
    one of them three times and the other not at all; the overlap is
    1/2, not 1. *)
Lemma lexical_overlap_counts_distinct_terms :
  let query := "login form" in
  let chunk := record "a.py" "login login login" in
  let q_terms := py_set (findall_terms (lower query)) in
  let text := chunk_text chunk in
  List.length q_terms = 2 /\
  In "login" q_terms /\
  occurrences "login" text = 3 /\
  lexical_similarities query [chunk] = [(lexical_score q_terms chunk, chunk)] /\
  (overlap q_terms text == 1 # 2)%Q /\
  ~ (overlap q_terms text == 1)%Q /\
  ~ (lexical_score q_terms chunk ==
       (7 # 10) * 1 + (3 # 10) * Qmin (Qnat (String.length text) / 10000) 1)%Q.
Proof.
  cbv zeta. repeat split.
  - vm_compute. auto.
  - vm_compute. intro E. discriminate E.
  - vm_compute. intro E. discriminate E.
Qed.

End LexicalExamples.

Section TailFacts.
Import Ranker.
Context {F : Type} `{PyFloat F}.

Lemma insert_desc_In (x p : F * chunk_record) (l : list (F * chunk_record)) :
  In p (insert_desc x l) <-> p = x \/ In p l.
Proof.
  induction l as [| y l IH]; simpl.
  - intuition.
  - destruct (gtb (fst y) (fst x)); simpl; [rewrite IH |]; intuition.
Qed.

Lemma sort_desc_In (p : F * chunk_record) (l : list (F * chunk_record)) :
  In p (sort_desc l) <-> In p l.
Proof.
  unfold sort_desc. induction l as [| x l IH]; simpl; [tauto |].
  rewrite insert_desc_In, IH. intuition.
Qed.

Lemma insert_desc_length (x : F * chunk_record) (l : list (F * chunk_record)) :
  List.length (insert_desc x l) = S (List.length l).
Proof.
  induction l as [| y l IH]; simpl; [reflexivity |].
  destruct (gtb (fst y) (fst x)); simpl; [rewrite IH |]; reflexivity.
Qed.

Lemma sort_desc_length (l : list (F * chunk_record)) :
  List.length (sort_desc l) = List.length l.
Proof.
  unfold sort_desc. induction l as [| x l IH]; simpl; [reflexivity |].
  rewrite insert_desc_length, IH. reflexivity.
Qed.

Lemma slice_to_In {A : Type} (l : list A) (k : Z) (x : A) :
  In x (slice_to l k) -> In x l.
Proof. unfold slice_to. destruct (0 <=? k)%Z; apply In_firstn. Qed.

Lemma slice_to_length {A : Type} (l : list A) (k : Z) :
  (0 <= k)%Z -> (Z.of_nat (List.length (slice_to l k)) <= k)%Z.
Proof.
  intro P. unfold slice_to.
  destruct (0 <=? k)%Z eqn:E; [| apply Z.leb_gt in E; lia].
  pose proof (length_firstn_le (Z.to_nat k) l). lia.
Qed.

Lemma score_to_code_chunk (p : F * chunk_record) :
  score (to_code_chunk p) = fst p.
Proof. destruct p. reflexivity. Qed.

Lemma rank_In (similarities : list (F * chunk_record)) (top_k : Z) (c : CodeChunk F) :
  In c (rank similarities top_k) ->
  exists p, In p similarities /\ gtb (fst p) (lit (3 # 10)) = true /\
            c = to_code_chunk p.
Proof.
  unfold rank. intro I.
  apply in_map_iff in I as (p & E & I).
  apply filter_In in I as [I G].
  apply slice_to_In in I. apply (proj1 (sort_desc_In _ _)) in I.
  exists p. repeat split; [exact I | exact G | symmetry; exact E].
Qed.

Lemma rank_length (similarities : list (F * chunk_record)) (top_k : Z) :
  (0 <= top_k)%Z ->
  (Z.of_nat (List.length (rank similarities top_k)) <= top_k)%Z.
Proof.
  intro P. unfold rank. rewrite length_map.
  pose proof (length_filter_le (fun p : F * chunk_record => gtb (fst p) (lit (3 # 10)))
                (slice_to (sort_desc similarities) top_k)).
  pose proof (slice_to_length (sort_desc similarities) top_k P). lia.
Qed.

End TailFacts.

(** ** Cosine similarity *)

Section CosineFacts.
Import Ranker.

Lemma float_mul_comm (x y : float) : (x * y)%float = (y * x)%float.
Proof.
  apply Prim2SF_inj. rewrite !mul_spec. unfold SF64mul.
  destruct (Prim2SF x) as [sx | sx | | sx mx ex], (Prim2SF y) as [sy | sy | | sy my ey];
    cbn [SFmul]; try reflexivity; try (rewrite xorb_comm; reflexivity).
  rewrite xorb_comm, Pos.mul_comm, Z.add_comm. reflexivity.
Qed.

Lemma dot_from_comm (vec1 vec2 : list float) (acc : float) :
  fold_left (fun acc p => (acc + fst p * snd p)%float) (combine vec1 vec2) acc
  = fold_left (fun acc p => (acc + fst p * snd p)%float) (combine vec2 vec1) acc.
Proof.
  revert vec2 acc. induction vec1 as [| a vec1 IH]; intros [| b vec2] acc;
    try reflexivity.
  cbn [combine fold_left fst snd]. rewrite (float_mul_comm a b). apply IH.
Qed.

Lemma dot_comm (vec1 vec2 : list float) : dot vec1 vec2 = dot vec2 vec1.
Proof. apply dot_from_comm. Qed.



Lemma np_dot_aligned (vec1 vec2 : list float) :
  List.length vec1 = List.length vec2 -> np_dot vec1 vec2 = Ok (dot vec1 vec2).
Proof.
  intro E. unfold np_dot. rewrite E, Nat.eqb_refl. reflexivity.
Qed.


Lemma semantic_similarities_length (query_embedding : list float)
    (code_embeddings : list chunk_record) (similarities : list (float * chunk_record)) :
  semantic_similarities query_embedding code_embeddings = Ok similarities ->
  List.length similarities <= List.length code_embeddings.
Proof.
  revert similarities.
  induction code_embeddings as [| chunk rest IH]; simpl; intros similarities E.
  - inversion E. apply Nat.le_refl.
  - destruct (r_embedding chunk) as [chunk_embedding |].
    + destruct (_cosine_similarity query_embedding chunk_embedding) as [s |];
        simpl in E; [| discriminate].
      destruct (semantic_similarities query_embedding rest) as [tl |];
        simpl in E; [| discriminate].
      inversion E. simpl. apply le_n_S. apply IH. reflexivity.
    + apply Nat.le_trans with (List.length rest); [apply IH; exact E | apply Nat.le_succ_diag_r].
Qed.

End CosineFacts.

Section SearchFacts.
Import Ranker.

(** The length of [l[:k]] for every integer [k] *)
Lemma slice_to_bound {A : Type} (l : list A) (k : Z) (n : nat) :
  List.length l <= n ->
  (Z.of_nat (List.length (slice_to l k))
   <= if (0 <=? k)%Z then k else Z.max 0 (Z.of_nat n + k))%Z.
Proof.
  intro L. unfold slice_to.
  destruct (0 <=? k)%Z eqn:E; rewrite length_firstn.
  - apply Z.leb_le in E. lia.
  - apply Z.leb_gt in E. lia.
Qed.

Lemma rank_bound {F : Type} `{PyFloat F} (similarities : list (F * chunk_record))
    (top_k : Z) (n : nat) :
  List.length similarities <= n ->
  (Z.of_nat (List.length (rank similarities top_k))
   <= if (0 <=? top_k)%Z then top_k else Z.max 0 (Z.of_nat n + top_k))%Z.
Proof.
  intro L. unfold rank. rewrite length_map.
  pose proof (length_filter_le (fun p : F * chunk_record => gtb (fst p) (lit (3 # 10)))
                (slice_to (sort_desc similarities) top_k)) as Lf.
  pose proof (slice_to_bound (sort_desc similarities) top_k n) as Ls.
  rewrite sort_desc_length in Ls. specialize (Ls L). lia.
Qed.

Lemma rank_floats_bound `{ListSort} (similarities : list (float * chunk_record))
    (top_k : Z) (n : nat) :
  List.length similarities <= n ->
  (Z.of_nat (List.length (rank_floats similarities top_k))
   <= if (0 <=? top_k)%Z then top_k else Z.max 0 (Z.of_nat n + top_k))%Z.
Proof.
  intro L. unfold rank_floats. rewrite length_map.
  pose proof (length_filter_le (fun p : float * chunk_record => (0.3 <? fst p)%float)
                (slice_to (list_sort similarities) top_k)) as Lf.
  pose proof (slice_to_bound (list_sort similarities) top_k n) as Ls.
  rewrite (Permutation_length (list_sort_permutation similarities)) in Ls.
  specialize (Ls L). lia.
Qed.

Lemma rank_floats_In `{ListSort} (similarities : list (float * chunk_record))
    (top_k : Z) (c : CodeChunk float) :
  In c (rank_floats similarities top_k) ->
  exists p, In p similarities /\ (0.3 <? fst p)%float = true /\ c = to_code_chunk p.
Proof.
  unfold rank_floats. intro I.
  apply in_map_iff in I as (p & E & I).
  apply filter_In in I as [I G].
  apply slice_to_In in I.
  apply (Permutation_in _ (list_sort_permutation similarities)) in I.
  exists p. repeat split; [exact I | exact G | symmetry; exact E].
Qed.

Lemma search_lexical_bounds `{ListSort} (query : string)
    (code_embeddings : list chunk_record) (top_k : Z) :
  exists res : list (CodeChunk Q),
    search_relevant_code None query code_embeddings top_k = Ok res /\
    Forall (fun c => (3 # 10 < score c)%Q /\ (score c <= 1)%Q) res /\
    (Z.of_nat (List.length res)
     <= if (0 <=? top_k)%Z then top_k
        else Z.max 0 (Z.of_nat (List.length code_embeddings) + top_k))%Z.
Proof.
  eexists. split; [reflexivity |]. split.
  - apply Forall_forall. intros c I.
    apply rank_In in I as (p & Ip & G & E). subst c.
    rewrite score_to_code_chunk. split.
    + simpl in G. unfold Qgtb in G. apply Qgt_alt.
      destruct (Qcompare (fst p) (3 # 10)); congruence.
    + pose proof (lexical_similarities_le_1 query code_embeddings) as B.
      rewrite Forall_forall in B. apply B. exact Ip.
  - apply rank_bound. unfold lexical_similarities. rewrite length_map. apply Nat.le_refl.
Qed.

Lemma search_semantic_bounds `{ListSort} (model : encoder) (query : string)
    (code_embeddings : list chunk_record) (top_k : Z) :
  exists res : list (CodeChunk float),
    search_relevant_code (Some model) query code_embeddings top_k = Ok res /\
    Forall (fun c => (0.3 <? score c)%float = true) res /\
    (Z.of_nat (List.length res)
     <= if (0 <=? top_k)%Z then top_k
        else Z.max 0 (Z.of_nat (List.length code_embeddings) + top_k))%Z.
Proof.
  assert (Z0 : (0 <= if (0 <=? top_k)%Z then top_k
                     else Z.max 0 (Z.of_nat (List.length code_embeddings) + top_k))%Z).
  { destruct (0 <=? top_k)%Z eqn:E; [apply Z.leb_le in E; exact E | lia]. }
  unfold search_relevant_code, search_body.
  destruct (model query) as [query_embedding | e]; unfold bind, try_except;
    [| exists []; repeat split; [constructor | exact Z0]].
  destruct (semantic_similarities query_embedding code_embeddings)
    as [similarities | e] eqn:S;
    [| exists []; repeat split; [constructor | exact Z0]].
  eexists. split; [reflexivity |]. split.
  - apply Forall_forall. intros c I.
    apply rank_floats_In in I as (p & Ip & G & E). subst c.
    rewrite score_to_code_chunk. exact G.
  - apply rank_floats_bound. apply (semantic_similarities_length _ _ _ S).
Qed.

(** C1, as amended: for every query, candidate list and top_k, and for
    every behaviour of the sort, [search_relevant_code] returns a list
    whose chunks all have a score greater than 0.3 (so none is NaN); in
    lexical mode the score is at most 1.0; the list has at most top_k
    chunks when top_k >= 0, and at most max(0, n + top_k) chunks of n
    candidates when top_k < 0. No upper bound is stated of the semantic
    score: in doubles a cosine can exceed 1.0. *)
Theorem search_relevant_code_bounds `{ListSort} (query : string)
    (code_embeddings : list chunk_record) (top_k : Z) :
  (exists res : list (CodeChunk Q),
      search_relevant_code None query code_embeddings top_k = Ok res /\
      Forall (fun c => (3 # 10 < score c)%Q /\ (score c <= 1)%Q) res /\
      (Z.of_nat (List.length res)
       <= if (0 <=? top_k)%Z then top_k
          else Z.max 0 (Z.of_nat (List.length code_embeddings) + top_k))%Z) /\
  (forall model : encoder,
      exists res : list (CodeChunk float),
        search_relevant_code (Some model) query code_embeddings top_k = Ok res /\
        Forall (fun c => (0.3 <? score c)%float = true) res /\
        (Z.of_nat (List.length res)
         <= if (0 <=? top_k)%Z then top_k
            else Z.max 0 (Z.of_nat (List.length code_embeddings) + top_k))%Z).
Proof.
  split.
  - apply search_lexical_bounds.
  - intro model. apply search_semantic_bounds.
Qed.

Lemma search_relevant_code_bounds_witness :
  (exists res : list (CodeChunk Q),
      search_relevant_code None "login form" sample_candidates default_top_k = Ok res /\
      Forall (fun c => (3 # 10 < score c)%Q /\ (score c <= 1)%Q) res /\
      (Z.of_nat (List.length res) <= default_top_k)%Z) /\
  (forall model : encoder,
      exists res : list (CodeChunk float),
        search_relevant_code (Some model) "login form" sample_candidates default_top_k
          = Ok res /\
        Forall (fun c => (0.3 <? score c)%float = true) res /\
        (Z.of_nat (List.length res) <= default_top_k)%Z).
Proof.
  apply (search_relevant_code_bounds "login form" sample_candidates default_top_k).
Defined.

(** The length bound fails at a negative top_k: [l[:-1]] drops the last
    element only, and no list is shorter than -1. *)
Lemma search_relevant_code_negative_top_k :
  exists res : list (CodeChunk Q),
    search_relevant_code None "login form" sample_candidates (-1) = Ok res /\
    List.length res = 2 /\
    ~ (Z.of_nat (List.length res) <= -1)%Z.
Proof.
  eexists. split; [vm_compute; reflexivity |].
  split; [reflexivity | simpl; lia].
Qed.

(** The bound 1.0 fails in semantic mode: the cosine of [1, 1, 1] with
    itself is 3 / (sqrt(3) * sqrt(3)), and sqrt(3) * sqrt(3) rounds to
    2.9999999999999996, so the score is 1.0000000000000002. *)
Lemma search_relevant_code_score_above_one `{ListSort} :
  exists c : CodeChunk float,
    search_relevant_code
      (Some (fun _ => Ok [1; 1; 1]%float)) "q"
      [ {| r_filename := Some "a.py"; r_code := Some "x"; r_language := None;
           r_embedding := Some [1; 1; 1]%float; r_metadata := None;
           r_location := None |} ] 15 = Ok [c] /\
    score c = 0x1.0000000000001p+0%float /\
    (1 <? score c)%float = true.
Proof.
  unfold search_relevant_code, search_body, try_except, bind.
  cbn [semantic_similarities r_embedding]. unfold bind.
  replace (_cosine_similarity [1; 1; 1]%float [1; 1; 1]%float)
    with (Ok (A := float) 0x1.0000000000001p+0%float) by (vm_compute; reflexivity).
  unfold rank_floats.
  match goal with
  | |- context [list_sort [?p]] =>
      rewrite (Permutation_length_1_inv
                 (Permutation_sym (list_sort_permutation [p])))
  end.
  eexists. split; [vm_compute; reflexivity |]. split; reflexivity.
Qed.

(** C1, as stated, fails twice: in length at a negative top_k, and in
    the bound 1.0 at a semantic score that rounding puts above it. *)
Lemma search_relevant_code_bounds_fail :
  (exists res : list (CodeChunk Q),
      search_relevant_code None "login form" sample_candidates (-1) = Ok res /\
      ~ (Z.of_nat (List.length res) <= -1)%Z) /\
  (exists c : CodeChunk float,
      search_relevant_code
        (Some (fun _ => Ok [1; 1; 1]%float)) "q"
        [ {| r_filename := Some "a.py"; r_code := Some "x"; r_language := None;
             r_embedding := Some [1; 1; 1]%float; r_metadata := None;
             r_location := None |} ] 15 = Ok [c] /\
      (1 <? score c)%float = true).
Proof.
  split.
  - destruct search_relevant_code_negative_top_k as (res & E & _ & N).
    exists res. split; assumption.
  - destruct (search_relevant_code_score_above_one (H := stable_sort))
      as (c & E & _ & G).
    exists c. split; assumption.
Qed.

(** C10: [search_relevant_code] returns in every case, and whenever the
    body of its [try] raises, it returns the empty list. *)
Theorem search_relevant_code_never_raises `{ListSort} (embedding_model : option encoder)
    (query : string) (code_embeddings : list chunk_record) (top_k : Z) :
  (exists res,
      search_relevant_code embedding_model query code_embeddings top_k = Ok res) /\
  (forall e,
      search_body embedding_model query code_embeddings top_k = Raise e ->
      search_relevant_code embedding_model query code_embeddings top_k = Ok []).
Proof.
  unfold search_relevant_code.
  destruct (search_body embedding_model query code_embeddings top_k) as [res | e];
    simpl; split.
  - exists res. reflexivity.
  - intros e E. discriminate E.
  - exists []. reflexivity.
  - intros _ _. reflexivity.
Qed.

(** The body does raise: an embedding of another length than the
    query's makes [np.dot] fail, and the caller gets the empty list. *)
Example search_relevant_code_catches_misaligned :
  let model : encoder := fun _ => Ok [1; 2]%float in
  let chunk := {| r_filename := Some "a.py"; r_code := Some "x"; r_language := None;
                  r_embedding := Some [1%float]; r_metadata := None;
                  r_location := None |} in
  search_body (Some model) "q" [chunk] 15 = Raise (ValueError "shapes not aligned") /\
  search_relevant_code (Some model) "q" [chunk] 15 = Ok [].
Proof. split; reflexivity. Qed.




(** What doubles add to the guard: the squares of a non-zero vector can
    underflow, its computed norm is then 0.0 and the similarity with
    itself is 0.0, not 1; the squares can overflow, and the similarity
    is then NaN. *)
Example cosine_similarity_in_doubles :
  _cosine_similarity [0x1p-700; 0x1p-700]%float [0x1p-700; 0x1p-700]%float
  = Ok 0%float /\
  _cosine_similarity [1; 1; 1]%float [1; 1; 1]%float
  = Ok 0x1.0000000000001p+0%float /\
  exists s,
    _cosine_similarity [0x1p+1023; 0x1p+1023]%float [0x1p+1023; 0x1p+1023]%float
    = Ok s /\ (s =? s)%float = false.
Proof.
  split; [vm_compute; reflexivity |]. split; [vm_compute; reflexivity |].
  eexists. split; [vm_compute; reflexivity | reflexivity].
Qed.

End SearchFacts.

(** ** Similar implementations *)

Section FirstOccurrences.
Import Similar.

Lemma first_occurrences_In (ks : list string) (k : string) :
  In k (first_occurrences ks) <-> In k ks.
Proof.
  induction ks as [| a ks IH]; simpl; [tauto |].
  rewrite filter_In, IH, negb_true_iff, String.eqb_neq. split.
  - intros [E | [I _]]; auto.
  - intros [E | I]; [left; exact E |].
    destruct (string_dec k a) as [E | N]; [left; auto | right; auto].
Qed.

Lemma first_occurrences_NoDup (ks : list string) : NoDup (first_occurrences ks).
Proof.
  induction ks as [| a ks IH]; simpl; constructor.
  - rewrite filter_In, negb_true_iff, String.eqb_neq. tauto.
  - apply NoDup_filter. exact IH.
Qed.

Lemma first_occurrences_snoc (ks : list string) (k : string) :
  first_occurrences (ks ++ [k]) =
  if in_dec string_dec k ks then first_occurrences ks
  else first_occurrences ks ++ [k].
Proof.
  induction ks as [| a ks IH]; simpl; [reflexivity |].
  rewrite IH. destruct (string_dec a k) as [E | N].
  - subst a. destruct (in_dec string_dec k ks) as [I | I]; [reflexivity |].
    rewrite filter_app. simpl. rewrite String.eqb_refl. simpl.
    rewrite app_nil_r. reflexivity.
  - destruct (in_dec string_dec k ks) as [I | I]; [reflexivity |].
    rewrite filter_app. simpl.
    assert (E : String.eqb k a = false) by (apply String.eqb_neq; congruence).
    rewrite E. reflexivity.
Qed.

Lemma NoDup_firstn {A : Type} (n : nat) (l : list A) :
  NoDup l -> NoDup (firstn n l).
Proof.
  revert l. induction n as [| n IH]; intros [| a l] ND; simpl; try constructor.
  - inversion ND; subst. intro I. apply In_firstn in I. contradiction.
  - inversion ND; subst. apply IH. assumption.
Qed.

Lemma Forall2_firstn {A B : Type} (R : A -> B -> Prop) (n : nat)
    (l : list A) (l' : list B) :
  Forall2 R l l' -> Forall2 R (firstn n l) (firstn n l').
Proof.
  intro H. revert n. induction H as [| a b l l' Rab _ IH]; intros [| n]; simpl;
    constructor; auto.
Qed.

Lemma Forall2_In_r {A B : Type} (R : A -> B -> Prop) (l : list A) (l' : list B)
    (b : B) :
  Forall2 R l l' -> In b l' -> exists a, In a l /\ R a b.
Proof.
  induction 1 as [| a b' l l' Rab _ IH]; simpl; [tauto |].
  intros [E | I].
  - subst b'. exists a. auto.
  - destruct (IH I) as (a' & Ia & Ra). exists a'. auto.
Qed.

Lemma Forall2_map_eq {A B : Type} (f : B -> A) (l : list A) (l' : list B) :
  Forall2 (fun a b => f b = a) l l' -> map f l' = l.
Proof.
  induction 1 as [| a b l l' E _ IH]; simpl; [reflexivity |].
  rewrite E, IH. reflexivity.
Qed.

End FirstOccurrences.

Section SimilarFacts.
Import Similar.
Context {F : Type} `{PyFloat F}.

Lemma members_snoc (chunks : list (CodeChunk F)) (c : CodeChunk F) (k : string) :
  members (chunks ++ [c]) k =
  if String.eqb k (group_key c) then members chunks k ++ [c] else members chunks k.
Proof.
  unfold members. rewrite filter_app. simpl.
  rewrite (String.eqb_sym (group_key c) k).
  destruct (String.eqb k (group_key c)); [reflexivity | apply app_nil_r].
Qed.

Lemma members_In (chunks : list (CodeChunk F)) (k : string) (c : CodeChunk F) :
  In c (members chunks k) <-> In c chunks /\ group_key c = k.
Proof.
  unfold members. rewrite filter_In, String.eqb_eq. tauto.
Qed.

Lemma append_to_map (k0 : string) (c : CodeChunk F)
    (g g' : string -> list (CodeChunk F)) (ks : list string) :
  NoDup ks ->
  (forall k, In k ks -> g' k = if String.eqb k k0 then g k ++ [c] else g k) ->
  append_to k0 c (map (fun k => (k, g k)) ks) =
  if in_dec string_dec k0 ks then map (fun k => (k, g' k)) ks
  else map (fun k => (k, g' k)) ks ++ [(k0, [c])].
Proof.
  induction ks as [| a ks IH]; intros ND Hg; simpl; [reflexivity |].
  inversion ND as [| ? ? Na ND']; subst.
  destruct (String.eqb a k0) eqn:E.
  - apply String.eqb_eq in E. subst a.
    destruct (string_dec k0 k0) as [E' | N]; [| congruence].
    rewrite (Hg k0 (or_introl eq_refl)), String.eqb_refl. f_equal.
    apply map_ext_in. intros k I. rewrite (Hg k (or_intror I)).
    assert (N : String.eqb k k0 = false)
      by (apply String.eqb_neq; intro; subst; contradiction).
    rewrite N. reflexivity.
  - apply String.eqb_neq in E.
    rewrite (Hg a (or_introl eq_refl)).
    assert (N : String.eqb a k0 = false) by (apply String.eqb_neq; exact E).
    rewrite N.
    rewrite (IH ND' (fun k I => Hg k (or_intror I))).
    destruct (string_dec a k0) as [E' | N']; [congruence |].
    destruct (in_dec string_dec k0 ks); reflexivity.
Qed.

(** The dict built by the first loop: one entry per key, in the order
    in which the keys first occur, each with its chunks in input order *)
Lemma group_chunks_spec (code_chunks : list (CodeChunk F)) :
  let hi := filter high_relevance code_chunks in
  group_chunks code_chunks =
  map (fun k => (k, members hi k)) (first_occurrences (map group_key hi)).
Proof.
  cbv zeta. induction code_chunks as [| c cs IH] using rev_ind; [reflexivity |].
  unfold group_chunks in *. rewrite fold_left_app. simpl. rewrite IH.
  unfold group_step. rewrite filter_app. simpl.
  destruct (high_relevance c); [| rewrite app_nil_r; reflexivity].
  set (hi := filter high_relevance cs).
  rewrite map_app. simpl. rewrite first_occurrences_snoc.
  rewrite (append_to_map (group_key c) c (members hi) (members (hi ++ [c]))).
  - destruct (in_dec string_dec (group_key c) (first_occurrences (map group_key hi)))
      as [I | I];
      destruct (in_dec string_dec (group_key c) (map group_key hi)) as [I' | I'];
      try reflexivity.
    + apply (proj1 (first_occurrences_In _ _)) in I. contradiction.
    + apply (proj2 (first_occurrences_In _ _)) in I'. contradiction.
    + rewrite map_app. simpl. rewrite members_snoc, String.eqb_refl.
      assert (E : members hi (group_key c) = []).
      { destruct (members hi (group_key c)) as [| x l] eqn:M; [reflexivity |].
        exfalso. apply I'.
        assert (Ix : In x (members hi (group_key c))) by (rewrite M; left; reflexivity).
        apply members_In in Ix as [Ix Ex]. rewrite <- Ex. apply in_map. exact Ix. }
      rewrite E. reflexivity.
  - apply first_occurrences_NoDup.
  - intros k _. apply members_snoc.
Qed.

Lemma max_from_In (best : CodeChunk F) (rest : list (CodeChunk F)) :
  In (max_from best rest) (best :: rest).
Proof.
  revert best. induction rest as [| x rest IH]; intro best; simpl; [auto |].
  destruct (IH (if gtb (score x) (score best) then x else best)) as [E | I].
  - rewrite <- E. destruct (gtb (score x) (score best)); auto.
  - auto.
Qed.

Lemma max_from_ge_best (best : CodeChunk F) (rest : list (CodeChunk F)) :
  gtb (score best) (score (max_from best rest)) = false.
Proof.
  revert best. induction rest as [| x rest IH]; intro best; simpl.
  - destruct (gtb (score best) (score best)) eqn:E; [| reflexivity].
    pose proof (gtb_asym _ _ E). congruence.
  - specialize (IH (if gtb (score x) (score best) then x else best)).
    destruct (gtb (score x) (score best)) eqn:G; [| exact IH].
    apply gtb_le_trans with (score x); [| exact IH].
    apply gtb_asym. exact G.
Qed.

Lemma max_from_ge_all (best : CodeChunk F) (rest : list (CodeChunk F))
    (y : CodeChunk F) :
  In y (best :: rest) -> gtb (score y) (score (max_from best rest)) = false.
Proof.
  revert best. induction rest as [| x rest IH]; intro best.
  - intros [E | []]. subst y. apply max_from_ge_best.
  - intros [E | [E | I]].
    + subst y. apply max_from_ge_best.
    + subst y. simpl.
      pose proof (max_from_ge_best (if gtb (score x) (score best) then x else best) rest)
        as M.
      destruct (gtb (score x) (score best)) eqn:G; [exact M |].
      apply gtb_le_trans with (score best); assumption.
    + simpl. apply IH. right. exact I.
Qed.

Lemma best_of_each_spec (chunks : list (CodeChunk F)) (ks : list string) :
  (forall k, In k ks -> members chunks k <> []) ->
  exists res,
    best_of_each (map (fun k => (k, members chunks k)) ks) = Ok res /\
    Forall2 (best_in chunks) ks res.
Proof.
  induction ks as [| k ks IH]; intro NE; simpl.
  - exists []. split; [reflexivity | constructor].
  - destruct (IH (fun k' I => NE k' (or_intror I))) as (res & E & R).
    destruct (members chunks k) as [| x rest] eqn:M.
    + exfalso. apply (NE k (or_introl eq_refl)). exact M.
    + simpl. rewrite E. simpl. eexists. split; [reflexivity |].
      constructor; [| exact R]. unfold best_in. rewrite M. split.
      * apply max_from_In.
      * intros c' I. apply max_from_ge_all. exact I.
Qed.

(** What the function returns, for any float model *)
Lemma extract_similar_implementations_spec (code_chunks : list (CodeChunk F)) :
  let hi := filter high_relevance code_chunks in
  exists res,
    _extract_similar_implementations code_chunks = Ok res /\
    Forall2 (best_in hi) (firstn 5 (first_occurrences (map group_key hi))) res.
Proof.
  cbv zeta. unfold _extract_similar_implementations.
  rewrite group_chunks_spec.
  set (hi := filter high_relevance code_chunks).
  destruct (best_of_each_spec hi (first_occurrences (map group_key hi)))
    as (res & E & R).
  - intros k I. apply (proj1 (first_occurrences_In _ _)) in I.
    apply in_map_iff in I as (c & Ek & Ic).
    intro M. assert (Im : In c (members hi k)) by (apply members_In; auto).
    rewrite M in Im. contradiction.
  - rewrite E. unfold bind. eexists. split; [reflexivity |].
    apply Forall2_firstn. exact R.
Qed.

End SimilarFacts.

Section SimilarTheorems.
Import Similar.

Lemma Qgtb_true (a b : Q) : Qgtb a b = true <-> (b < a)%Q.
Proof.
  unfold Qgtb. split.
  - intro E. apply Qgt_alt. revert E. destruct (Qcompare a b); congruence.
  - intro L. apply (proj1 (Qgt_alt a b)) in L. rewrite L. reflexivity.
Qed.

Lemma Qgtb_false (a b : Q) : Qgtb a b = false <-> (a <= b)%Q.
Proof.
  unfold Qgtb. split.
  - intro E. apply Qle_alt. intro G. rewrite G in E. discriminate.
  - intro L. apply (proj1 (Qle_alt a b)) in L. destruct (Qcompare a b); congruence.
Qed.

Lemma extract_similar_implementations_generic {F : Type} `{PyFloat F}
    (code_chunks : list (CodeChunk F)) :
  exists res,
    _extract_similar_implementations code_chunks = Ok res /\
    List.length res <= 5 /\
    Forall (fun c => In c code_chunks /\ high_relevance c = true) res /\
    NoDup (map (fun c => (language c, basename (filename c))) res) /\
    (forall c c',
        In c res -> In c' code_chunks -> high_relevance c' = true ->
        language c' = language c ->
        basename (filename c') = basename (filename c) ->
        gtb (score c') (score c) = false) /\
    map group_key res =
      firstn 5 (first_occurrences
                  (map group_key (filter high_relevance code_chunks))).
Proof.
  destruct (extract_similar_implementations_spec code_chunks) as (res & E & R).
  set (hi := filter high_relevance code_chunks) in *.
  assert (K : map group_key res =
              firstn 5 (first_occurrences (map group_key hi))).
  { apply Forall2_map_eq. eapply Forall2_impl; [| exact R].
    intros k c [I _]. apply members_In in I. tauto. }
  exists res. split; [exact E |]. repeat split.
  - apply Forall2_length in R. rewrite <- R. apply length_firstn_le.
  - apply Forall_forall. intros c I.
    destruct (Forall2_In_r _ _ _ _ R I) as (k & _ & [M _]).
    apply members_In in M as [M _]. apply filter_In in M. exact M.
  - apply (NoDup_map_inv (fun p => (fst p ++ "_" ++ snd p)%string)).
    rewrite map_map. change (NoDup (map group_key res)). rewrite K.
    apply NoDup_firstn. apply first_occurrences_NoDup.
  - intros c c' I I' Hi' EL EB.
    destruct (Forall2_In_r _ _ _ _ R I) as (k & _ & [M B]).
    apply B. apply members_In. split.
    + apply filter_In. auto.
    + apply members_In in M as [_ M]. rewrite <- M.
      unfold group_key. rewrite EL, EB. reflexivity.
  - exact K.
Qed.

Lemma split_before_last (dir name : string) :
  contains "/" name = false ->
  exists w pre, split "/"%char (dir ++ "/" ++ name) = (w :: pre) ++ [name].
Proof.
  intro N.
  assert (P : split "/"%char name = [name]).
  { clear dir. induction name as [| c name IH]; [reflexivity |].
    cbn [contains startswith] in N. apply orb_false_iff in N as [N1 N].
    rewrite andb_true_r in N1.
    cbn [split]. rewrite Ascii.eqb_sym, N1, (IH N). reflexivity. }
  induction dir as [| c dir (w & pre & IH)].
  - exists EmptyString, []. change (("" ++ "/" ++ name)%string) with (String "/" name).
    cbn [split]. rewrite Ascii.eqb_refl, P. reflexivity.
  - change ((String c dir ++ "/" ++ name)%string) with (String c (dir ++ "/" ++ name)).
    cbn [split]. rewrite IH. destruct (Ascii.eqb c "/").
    + exists EmptyString, (w :: pre). reflexivity.
    + exists (String c w), pre. reflexivity.
Qed.

(** [basename] is the part after the last slash: the directories of a
    path do not count, and a name without a slash is its own basename *)
Lemma basename_spec (dir name : string) :
  contains "/" name = false ->
  basename (dir ++ "/" ++ name) = name /\ basename name = name.
Proof.
  intro N. unfold basename, last_field. split.
  - destruct (split_before_last dir name N) as (w & pre & E).
    rewrite E. apply last_last.
  - destruct (split_before_last "" name N) as (w & pre & E).
    change (("" ++ "/" ++ name)%string) with (String "/" name) in E.
    cbn [split] in E. rewrite Ascii.eqb_refl in E.
    injection E as _ E. destruct pre as [| x pre].
    + simpl in E. rewrite E. reflexivity.
    + rewrite E. change (((x :: pre) ++ [name])) with ((x :: pre) ++ [name]).
      apply last_last.
Qed.

(** C7, as amended: [_extract_similar_implementations] returns at most 5
    chunks of the input, each with score > 0.7. The groups are those of
    the key, the string made of the language, an underscore and the
    basename of the filename (the part after the last slash): the keys
    of the result are the first five keys in the order in which they
    first occur among the chunks of score > 0.7, without repetition and
    not in order of score, and each chunk of the result has the greatest
    score among the chunks of score > 0.7 with its key. So no two chunks
    of the result share language and basename; but two different
    (language, basename) pairs with the same key are one group. *)
Theorem similar_implementations_invariant (code_chunks : list (CodeChunk Q)) :
  exists res,
    _extract_similar_implementations code_chunks = Ok res /\
    List.length res <= 5 /\
    Forall (fun c => In c code_chunks /\ (7 # 10 < score c)%Q) res /\
    map group_key res =
      firstn 5 (first_occurrences
                  (map group_key
                     (filter (fun c => Qgtb (score c) (7 # 10)) code_chunks))) /\
    NoDup (map group_key res) /\
    (forall c c',
        In c res -> In c' code_chunks -> (7 # 10 < score c')%Q ->
        group_key c' = group_key c ->
        (score c' <= score c)%Q) /\
    NoDup (map (fun c => (language c, basename (filename c))) res) /\
    (forall c : CodeChunk Q,
        group_key c = (language c ++ "_" ++ basename (filename c))%string) /\
    (forall dir name,
        contains "/" name = false ->
        basename (dir ++ "/" ++ name) = name /\ basename name = name).
Proof.
  destruct (extract_similar_implementations_spec code_chunks) as (res & E & R).
  destruct (extract_similar_implementations_generic code_chunks)
    as (res' & E' & L & S & N & _ & K).
  rewrite E in E'. injection E' as <-.
  exists res. split; [exact E |]. split; [exact L |]. split.
  { eapply Forall_impl; [| exact S]. intros c [I G]. split; [exact I |].
    apply Qgtb_true. exact G. }
  split; [exact K |]. split.
  { rewrite K. apply NoDup_firstn. apply first_occurrences_NoDup. }
  split.
  { intros c c' I I' G EK.
    destruct (Forall2_In_r _ _ _ _ R I) as (k & _ & [M B]).
    apply Qgtb_false. apply B. apply members_In. split.
    - apply filter_In. split; [exact I' |]. apply Qgtb_true. exact G.
    - apply members_In in M as [_ M]. rewrite EK. exact M. }
  split; [exact N |]. split; [reflexivity |].
  intros dir name. apply basename_spec.
Qed.

(** C7, as stated on (language, basename) groups, fails when two pairs
    give the same key: the three chunks have three different pairs and
    scores above 0.7, the first and the third share the key "a_b_d.ts",
    and the result has two chunks, the third before the second: the
    first pair has no chunk of its own, and the pair inserted last comes
    first. *)
Lemma similar_implementations_key_collision :
  _extract_similar_implementations
    [ scored "b_d.ts" "a" (8 # 10); scored "z.py" "py" (9 # 10);
      scored "d.ts" "a_b" (95 # 100) ]
  = Ok [ scored "d.ts" "a_b" (95 # 100); scored "z.py" "py" (9 # 10) ] /\
  group_key (scored "b_d.ts" "a" (8 # 10)) = group_key (scored "d.ts" "a_b" (95 # 100)) /\
  ("a", basename "b_d.ts") <> ("a_b", basename "d.ts").
Proof.
  split; [reflexivity |]. split; [reflexivity | discriminate].
Qed.

(** The order is that of the groups, not of the scores: the chunk of
    score 0.8 comes before the one of score 0.95; the two chunks named
    x.py form one group, represented by the better one. *)
Example similar_implementations_keep_group_order :
  _extract_similar_implementations
    [ scored "a/x.py" "py" (8 # 10); scored "y.py" "py" (95 # 100);
      scored "z.py" "py" (1 # 2); scored "b/x.py" "py" (9 # 10) ]
  = Ok [ scored "b/x.py" "py" (9 # 10); scored "y.py" "py" (95 # 100) ].
Proof. reflexivity. Qed.

End SimilarTheorems.

(** ** Sanitization *)

Section StripFacts.

Lemma lstrip_idempotent (s : string) : lstrip (lstrip s) = lstrip s.
Proof.
  induction s as [| c s IH]; simpl; [reflexivity |].
  destruct (is_space c) eqn:E; [exact IH |].
  simpl. rewrite E. reflexivity.
Qed.

Lemma rstrip_idempotent (s : string) : rstrip (rstrip s) = rstrip s.
Proof.
  induction s as [| c s IH]; simpl; [reflexivity |].
  destruct (rstrip s) as [| d r] eqn:R.
  - destruct (is_space c) eqn:E; simpl; [reflexivity |].
    rewrite E. reflexivity.
  - simpl in *. rewrite IH. reflexivity.
Qed.

Lemma rstrip_lstrip_fixed (u : string) :
  rstrip u = u -> rstrip (lstrip u) = lstrip u.
Proof.
  induction u as [| c u IH]; simpl; [reflexivity |].
  intro E. destruct (is_space c) eqn:S.
  - apply IH. destruct (rstrip u) as [| d r] eqn:R.
    + discriminate E.
    + inversion E. reflexivity.
  - simpl. rewrite S. exact E.
Qed.

Lemma strip_idempotent (s : string) : strip (strip s) = strip s.
Proof.
  unfold strip.
  rewrite (rstrip_lstrip_fixed (rstrip s) (rstrip_idempotent s)).
  apply lstrip_idempotent.
Qed.

Lemma lstrip_length (s : string) : String.length (lstrip s) <= String.length s.
Proof.
  induction s as [| c s IH]; simpl; [lia |].
  destruct (is_space c); simpl; lia.
Qed.

Lemma rstrip_length (s : string) : String.length (rstrip s) <= String.length s.
Proof.
  induction s as [| c s IH]; simpl; [lia |].
  destruct (rstrip s) as [| d r]; [destruct (is_space c) |]; simpl in *; lia.
Qed.

Lemma strip_length (s : string) : String.length (strip s) <= String.length s.
Proof.
  unfold strip. pose proof (lstrip_length (rstrip s)).
  pose proof (rstrip_length s). lia.
Qed.

End StripFacts.

Section ReSubFacts.
Import Ticket.
Variable matcher : string -> option nat.
Variable repl : string.

Lemma re_sub_from_skip (k : nat) (s : string) :
  re_sub_from matcher repl k s = re_sub_from matcher repl 0 (drop k s).
Proof.
  revert k. induction s as [| c s IH]; intros [| k]; simpl; try reflexivity.
  apply IH.
Qed.

(** The defining equation of the scan *)
Lemma re_sub_step (c : ascii) (s : string) :
  re_sub matcher repl (String c s) =
  match matcher (String c s) with
  | Some (S n) => (repl ++ re_sub matcher repl (drop n s))%string
  | _ => String c (re_sub matcher repl s)
  end.
Proof.
  unfold re_sub. simpl.
  destruct (matcher (String c s)) as [[| n] |]; try reflexivity.
  rewrite re_sub_from_skip. reflexivity.
Qed.

Lemma re_sub_no_match (s : string) :
  matches_somewhere matcher s = false -> re_sub matcher repl s = s.
Proof.
  induction s as [| c s IH]; [reflexivity |].
  intro M. rewrite re_sub_step. simpl in M.
  destruct (matcher (String c s)) as [[| n] |]; try discriminate M;
    rewrite (IH M); reflexivity.
Qed.

End ReSubFacts.

Section RemovalFacts.
Import Ticket.

Lemma drop_length (n : nat) (s : string) :
  String.length (drop n s) = String.length s - n.
Proof.
  revert s. induction n as [| n IH]; intros [| c s]; simpl; try lia.
  apply IH.
Qed.

(** Removal never lengthens the text, and shortens it when the pattern
    matches somewhere. *)
Lemma removal_length (matcher : string -> option nat) (s : string) :
  String.length (re_sub matcher "" s) <= String.length s.
Proof.
  remember (String.length s) as n eqn:L.
  assert (B : String.length s <= n) by lia. clear L.
  revert s B. induction n as [| n IH]; intros [| c s] B; simpl in B; try lia.
  - simpl. lia.
  - simpl. lia.
  - rewrite re_sub_step.
    destruct (matcher (String c s)) as [[| k] |]; simpl.
    + specialize (IH s). lia.
    + pose proof (IH (drop k s)) as I. rewrite drop_length in I. lia.
    + specialize (IH s). lia.
Qed.

Lemma removal_shortens (matcher : string -> option nat) (s : string) :
  matcher EmptyString = None ->
  matches_somewhere matcher s = true ->
  String.length (re_sub matcher "" s) < String.length s.
Proof.
  intro E0. induction s as [| c s IH]; intro M.
  - simpl in M. rewrite E0 in M. discriminate M.
  - rewrite re_sub_step. simpl in M.
    destruct (matcher (String c s)) as [[| k] |]; simpl.
    + specialize (IH M). lia.
    + pose proof (removal_length matcher (drop k s)) as I.
      rewrite drop_length in I. lia.
    + specialize (IH M). lia.
Qed.

Lemma removals_identity (pats : list (string -> option nat)) (s : string) :
  forallb (fun pat => negb (matches_somewhere pat s)) pats = true ->
  fold_left (fun cleaned pat => re_sub pat "" cleaned) pats s = s.
Proof.
  induction pats as [| p pats IH]; simpl; [reflexivity |].
  intro A. apply andb_true_iff in A as [N A].
  apply negb_true_iff in N. rewrite (re_sub_no_match p "" s N).
  apply IH. exact A.
Qed.

Lemma removals_length (pats : list (string -> option nat)) (s : string) :
  String.length (fold_left (fun cleaned pat => re_sub pat "" cleaned) pats s)
  <= String.length s.
Proof.
  revert s. induction pats as [| p pats IH]; intro s; simpl; [lia |].
  pose proof (IH (re_sub p "" s)). pose proof (removal_length p s). lia.
Qed.

Lemma removals_shorten (pats : list (string -> option nat)) (s : string) :
  Forall (fun pat => pat EmptyString = None) pats ->
  forallb (fun pat => negb (matches_somewhere pat s)) pats = false ->
  String.length (fold_left (fun cleaned pat => re_sub pat "" cleaned) pats s)
  < String.length s.
Proof.
  intro E0. revert s. induction E0 as [| p pats Ep _ IH]; intro s; simpl.
  - discriminate.
  - intro A. destruct (matches_somewhere p s) eqn:M; simpl in A.
    + pose proof (removals_length pats (re_sub p "" s)).
      pose proof (removal_shortens p s Ep M). lia.
    + rewrite (re_sub_no_match p "" s M). apply IH. exact A.
Qed.

End RemovalFacts.

Section BlankLineFacts.
Import Ticket.

Lemma newline_run_le_length (s : string) : newline_run s <= String.length s.
Proof.
  induction s as [| c s IH]; simpl; [lia |].
  destruct (Ascii.eqb c newline); lia.
Qed.

Lemma newline_run_drop (s : string) : newline_run (drop (newline_run s) s) = 0.
Proof.
  induction s as [| c s IH]; simpl; [reflexivity |].
  destruct (Ascii.eqb c newline) eqn:E; simpl; [exact IH |].
  rewrite E. reflexivity.
Qed.

Lemma match_newlines_cases (s : string) :
  (3 <= newline_run s /\ match_newlines s = Some (newline_run s)) \/
  (newline_run s < 3 /\ match_newlines s = None).
Proof.
  unfold match_newlines.
  destruct (3 <=? newline_run s) eqn:E.
  - left. apply Nat.leb_le in E. auto.
  - right. apply Nat.leb_gt in E. auto.
Qed.

(** No run of three newlines anywhere in [s] *)
Lemma no_run3_cons (c : ascii) (s : string) :
  matches_somewhere match_newlines (String c s) = false <->
  newline_run (String c s) < 3 /\ matches_somewhere match_newlines s = false.
Proof.
  cbn [matches_somewhere].
  destruct (match_newlines_cases (String c s)) as [[L E] | [L E]]; rewrite E.
  - destruct (newline_run (String c s)) as [| n] eqn:R; [lia |].
    split; [discriminate | lia].
  - tauto.
Qed.

Lemma collapse_cons (c : ascii) (s : string) :
  collapse (String c s) =
  if 3 <=? newline_run (String c s)
  then String newline (String newline
         (collapse (drop (newline_run (String c s)) (String c s))))
  else String c (collapse s).
Proof.
  unfold collapse. rewrite re_sub_step.
  destruct (match_newlines_cases (String c s)) as [[L E] | [L E]]; rewrite E.
  - destruct (newline_run (String c s)) as [| n] eqn:R; [lia |].
    apply Nat.leb_le in L. rewrite L. reflexivity.
  - apply Nat.leb_gt in L. rewrite L. reflexivity.
Qed.

Lemma newline_eqb_refl : Ascii.eqb newline newline = true.
Proof. reflexivity. Qed.

Lemma collapse_spec (n : nat) (s : string) :
  String.length s <= n ->
  newline_run (collapse s) = Nat.min (newline_run s) 2 /\
  matches_somewhere match_newlines (collapse s) = false /\
  String.length (collapse s) <= String.length s.
Proof.
  revert s. induction n as [| n IH]; intros [| c s] B; simpl in B; try lia;
    try (repeat split; simpl; lia).
  rewrite collapse_cons.
  destruct (3 <=? newline_run (String c s)) eqn:L.
  - apply Nat.leb_le in L.
    set (t := drop (newline_run (String c s)) (String c s)).
    assert (Rt : newline_run t = 0) by apply newline_run_drop.
    assert (Lt : String.length t <= n).
    { unfold t. rewrite drop_length. simpl String.length. lia. }
    assert (Lt' : String.length t + 3 <= String.length (String c s)).
    { unfold t. rewrite drop_length.
      pose proof (newline_run_le_length (String c s)). lia. }
    destruct (IH t Lt) as (R & M & Len). rewrite Rt in R. simpl in R.
    clearbody t. remember (newline_run (String c s)) as r eqn:Hr.
    remember (String.length (String c s)) as len eqn:Hlen.
    repeat split.
    + cbn [newline_run]. rewrite newline_eqb_refl, R. lia.
    + apply no_run3_cons. split.
      * cbn [newline_run]. rewrite newline_eqb_refl, R. lia.
      * apply no_run3_cons. split; [| exact M].
        cbn [newline_run]. rewrite newline_eqb_refl, R. lia.
    + simpl String.length. lia.
  - apply Nat.leb_gt in L.
    assert (Ls : String.length s <= n) by lia.
    destruct (IH s Ls) as (R & M & Len).
    assert (Run : newline_run (String c (collapse s))
                  = Nat.min (newline_run (String c s)) 2).
    { cbn [newline_run] in *. destruct (Ascii.eqb c newline); lia. }
    repeat split.
    + exact Run.
    + apply no_run3_cons. split; [lia | exact M].
    + simpl. lia.
Qed.

Lemma collapse_no_run3 (s : string) :
  matches_somewhere match_newlines (collapse s) = false.
Proof. apply (collapse_spec (String.length s) s). lia. Qed.

Lemma collapse_length (s : string) :
  String.length (collapse s) <= String.length s.
Proof. apply (collapse_spec (String.length s) s). lia. Qed.

Lemma no_run3_lstrip (s : string) :
  matches_somewhere match_newlines s = false ->
  matches_somewhere match_newlines (lstrip s) = false.
Proof.
  induction s as [| c s IH]; [trivial |].
  intro M. simpl lstrip. destruct (is_space c); [| exact M].
  apply IH. apply no_run3_cons in M. tauto.
Qed.

Lemma newline_run_rstrip (s : string) : newline_run (rstrip s) <= newline_run s.
Proof.
  induction s as [| c s IH]; simpl; [lia |].
  destruct (rstrip s) as [| d r].
  - destruct (is_space c); simpl; [lia |].
    destruct (Ascii.eqb c newline); lia.
  - cbn [newline_run] in *. destruct (Ascii.eqb c newline); lia.
Qed.

Lemma no_run3_rstrip (s : string) :
  matches_somewhere match_newlines s = false ->
  matches_somewhere match_newlines (rstrip s) = false.
Proof.
  induction s as [| c s IH]; [trivial |].
  intro M. pose proof (newline_run_rstrip (String c s)) as R.
  apply no_run3_cons in M as [L M]. specialize (IH M).
  simpl rstrip in *. destruct (rstrip s) as [| d r].
  - destruct (is_space c); [reflexivity |].
    apply no_run3_cons. split; [lia | reflexivity].
  - apply no_run3_cons. split; [lia | exact IH].
Qed.

(** Collapsing blank lines and trimming is idempotent on every text. *)
Lemma normalize_blank_idempotent (s : string) :
  normalize_blank (normalize_blank s) = normalize_blank s.
Proof.
  unfold normalize_blank. fold collapse.
  assert (M : matches_somewhere match_newlines (strip (collapse s)) = false).
  { unfold strip. apply no_run3_lstrip, no_run3_rstrip, collapse_no_run3. }
  unfold collapse at 1. rewrite (re_sub_no_match _ _ _ M).
  apply strip_idempotent.
Qed.

Lemma normalize_blank_length (s : string) :
  String.length (normalize_blank s) <= String.length s.
Proof.
  unfold normalize_blank. fold collapse.
  pose proof (strip_length (collapse s)). pose proof (collapse_length s). lia.
Qed.

End BlankLineFacts.

Section SanitizeFacts.
Import Ticket.

Lemma remove_disallowed_fold (md : string) :
  remove_disallowed md =
  fold_left (fun cleaned pat => re_sub pat "" cleaned) all_patterns md.
Proof.
  unfold remove_disallowed, all_patterns. rewrite fold_left_app. reflexivity.
Qed.

Lemma all_patterns_need_text :
  Forall (fun pat => pat EmptyString = None) all_patterns.
Proof. repeat constructor. Qed.

Lemma sanitize_fixed (y : string) :
  residue_free y = true -> _sanitize_ticket y = normalize_blank y.
Proof.
  intro R. unfold _sanitize_ticket. rewrite remove_disallowed_fold.
  rewrite (removals_identity all_patterns y R). reflexivity.
Qed.

Lemma sanitize_shortens (y : string) :
  residue_free y = false ->
  String.length (_sanitize_ticket y) < String.length y.
Proof.
  intro R. unfold _sanitize_ticket.
  pose proof (normalize_blank_length (remove_disallowed y)) as N.
  rewrite remove_disallowed_fold in *.
  pose proof (removals_shorten all_patterns y all_patterns_need_text R). lia.
Qed.

(** C2, as amended: a second pass of the sanitizer changes nothing
    exactly when the sanitized text contains no match of a removal
    pattern any more (no disallowed field line, no Example Code Snippet
    section, no fenced block); the collapse of blank lines and the trim
    are idempotent on every text ([normalize_blank_idempotent]). *)
Theorem sanitize_idempotent_iff_residue_free (md : string) :
  _sanitize_ticket (_sanitize_ticket md) = _sanitize_ticket md <->
  residue_free (_sanitize_ticket md) = true.
Proof.
  destruct (residue_free (_sanitize_ticket md)) eqn:R; split; intro E;
    try reflexivity; try discriminate E.
  - rewrite (sanitize_fixed _ R). unfold _sanitize_ticket.
    apply normalize_blank_idempotent.
  - exfalso. pose proof (sanitize_shortens _ R) as L.
    rewrite E in L. lia.
Qed.

(** C2, as stated, fails: removing the fenced block joins the two
    halves of a disallowed field line, which only a second pass
    removes. *)
Lemma sanitize_not_idempotent :
  let md := "**Prio```x```rity:** High" in
  _sanitize_ticket md = "**Priority:** High" /\
  _sanitize_ticket (_sanitize_ticket md) = "" /\
  _sanitize_ticket (_sanitize_ticket md) <> _sanitize_ticket md.
Proof.
  cbv zeta. split; [| split].
  - vm_compute. reflexivity.
  - vm_compute. reflexivity.
  - vm_compute. discriminate.
Qed.

(** A text without residue, sanitized twice *)
Example sanitize_twice_clean :
  let md := ("# Login" ++ nl ++ "**Priority:** High" ++ nl ++ nl ++ nl ++ nl
             ++ "Body ```py" ++ nl ++ "x = 1```  ")%string in
  _sanitize_ticket md = ("# Login" ++ nl ++ nl ++ "Body")%string /\
  residue_free (_sanitize_ticket md) = true /\
  _sanitize_ticket (_sanitize_ticket md) = _sanitize_ticket md.
Proof.
  cbv zeta. repeat split; vm_compute; reflexivity.
Qed.

End SanitizeFacts.

(** ** Order of the ranked list *)

Section RankOrder.
Import Ranker.
Context {F : Type} `{PyFloat F}.

Lemma insert_desc_sorted (x : F * chunk_record) (l : list (F * chunk_record)) :
  StronglySorted (fun p q => gtb (fst q) (fst p) = false) l ->
  StronglySorted (fun p q => gtb (fst q) (fst p) = false) (insert_desc x l).
Proof.
  induction l as [| y l IH]; intro S; simpl.
  - repeat constructor.
  - apply StronglySorted_inv in S as [S HA].
    destruct (gtb (fst y) (fst x)) eqn:G.
    + constructor; [apply IH; exact S |].
      apply Forall_forall. intros p I. apply insert_desc_In in I as [E | I].
      * subst p. apply gtb_asym. exact G.
      * rewrite Forall_forall in HA. apply HA. exact I.
    + constructor; [constructor; assumption |].
      constructor; [exact G |].
      apply Forall_forall. intros z I. rewrite Forall_forall in HA.
      apply gtb_le_trans with (fst y); [apply HA; exact I | exact G].
Qed.

Lemma sort_desc_sorted (l : list (F * chunk_record)) :
  StronglySorted (fun p q => gtb (fst q) (fst p) = false) (sort_desc l).
Proof.
  unfold sort_desc. induction l as [| x l IH]; simpl; [constructor |].
  apply insert_desc_sorted. exact IH.
Qed.

Lemma sorted_firstn {A : Type} (R : A -> A -> Prop) (n : nat) (l : list A) :
  StronglySorted R l -> StronglySorted R (firstn n l).
Proof.
  revert l. induction n as [| n IH]; intros [| a l] S; simpl; try constructor.
  - apply IH. apply StronglySorted_inv in S. tauto.
  - apply StronglySorted_inv in S as [_ HA].
    apply Forall_forall. intros x I. apply In_firstn in I.
    rewrite Forall_forall in HA. auto.
Qed.

Lemma sorted_filter {A : Type} (R : A -> A -> Prop) (f : A -> bool) (l : list A) :
  StronglySorted R l -> StronglySorted R (filter f l).
Proof.
  induction l as [| a l IH]; intro S; simpl; [constructor |].
  apply StronglySorted_inv in S as [S HA].
  destruct (f a); [| apply IH; exact S].
  constructor; [apply IH; exact S |].
  apply Forall_forall. intros x I. apply filter_In in I as [I _].
  rewrite Forall_forall in HA. auto.
Qed.

Lemma sorted_map {A B : Type} (R : A -> A -> Prop) (R' : B -> B -> Prop)
    (f : A -> B) (l : list A) :
  (forall x y, R x y -> R' (f x) (f y)) ->
  StronglySorted R l -> StronglySorted R' (map f l).
Proof.
  intro M. induction l as [| a l IH]; intro S; simpl; [constructor |].
  apply StronglySorted_inv in S as [S HA].
  constructor; [apply IH; exact S |].
  apply Forall_forall. intros y I. apply in_map_iff in I as (x & E & I).
  subst y. apply M. rewrite Forall_forall in HA. auto.
Qed.

Lemma rank_sorted (similarities : list (F * chunk_record)) (top_k : Z) :
  StronglySorted (fun a b => gtb (score b) (score a) = false)
                 (rank similarities top_k).
Proof.
  unfold rank.
  apply sorted_map with (R := fun p q => gtb (fst q) (fst p) = false).
  - intros x y G. rewrite !score_to_code_chunk. exact G.
  - apply sorted_filter. unfold slice_to.
    destruct (0 <=? top_k)%Z; apply sorted_firstn, sort_desc_sorted.
Qed.

Lemma filter_none {A : Type} (f : A -> bool) (l : list A) :
  (forall x, In x l -> f x = false) -> filter f l = [].
Proof.
  induction l as [| a l IH]; intro N; simpl; [reflexivity |].
  rewrite (N a (or_introl eq_refl)). apply IH. intros x I. apply N. right. exact I.
Qed.

(** In a descending list the entries above the threshold form a prefix,
    so cutting and thresholding commute. *)
Lemma threshold_firstn (thr : F) (n : nat) (l : list (F * chunk_record)) :
  StronglySorted (fun p q => gtb (fst q) (fst p) = false) l ->
  filter (fun p => gtb (fst p) thr) (firstn n l) =
  firstn n (filter (fun p => gtb (fst p) thr) l).
Proof.
  revert n. induction l as [| a l IH]; intros n S.
  - destruct n; reflexivity.
  - apply StronglySorted_inv in S as [S HA].
    destruct n as [| n]; [reflexivity |]. simpl.
    destruct (gtb (fst a) thr) eqn:G.
    + simpl. rewrite IH; [reflexivity | exact S].
    + assert (N : forall z, In z l -> gtb (fst z) thr = false).
      { intros z I. rewrite Forall_forall in HA.
        apply gtb_le_trans with (fst a); [apply HA; exact I | exact G]. }
      rewrite (filter_none _ l N).
      rewrite filter_none; [destruct n; reflexivity |].
      intros z I. apply N. apply In_firstn in I. exact I.
Qed.

Lemma rank_prefix (similarities : list (F * chunk_record)) (k k' : Z) :
  (0 <= k <= k')%Z ->
  rank similarities k = firstn (Z.to_nat k) (rank similarities k').
Proof.
  intros [P L]. unfold rank, slice_to.
  assert (E : (0 <=? k)%Z = true) by (apply Z.leb_le; lia).
  assert (E' : (0 <=? k')%Z = true) by (apply Z.leb_le; lia).
  rewrite E, E'.
  rewrite !threshold_firstn by apply sort_desc_sorted.
  rewrite <- !firstn_map, firstn_firstn.
  replace (Nat.min (Z.to_nat k) (Z.to_nat k')) with (Z.to_nat k) by lia.
  reflexivity.
Qed.

End RankOrder.

Section RankTheorems.
Import Ranker.

Lemma sorted_weaken {A : Type} (R R' : A -> A -> Prop) (l : list A) :
  (forall x y, R x y -> R' x y) -> StronglySorted R l -> StronglySorted R' l.
Proof.
  intros W S. rewrite <- (map_id l). apply (sorted_map R R' (fun x => x)); assumption.
Qed.

(** X1: in lexical mode the returned chunks are in descending order
    of score: no chunk has a greater score than one before it. *)
Theorem search_results_descending `{ListSort} (query : string)
    (code_embeddings : list chunk_record) (top_k : Z) :
  exists res : list (CodeChunk Q),
    search_relevant_code None query code_embeddings top_k = Ok res /\
    StronglySorted (fun a b => (score b <= score a)%Q) res.
Proof.
  eexists. split; [reflexivity |].
  eapply sorted_weaken; [| apply rank_sorted].
  intros x y G. apply Qgtb_false. exact G.
Qed.

(** X2: in lexical mode, for 0 <= k <= k', the result for top_k = k is
    the first k chunks of the result for top_k = k': a larger top_k only
    appends chunks, and cutting before or after the 0.3 threshold gives
    the same list. *)
Theorem search_top_k_prefix `{ListSort} (query : string)
    (code_embeddings : list chunk_record) (k k' : Z) :
  (0 <= k <= k')%Z ->
  exists res res' : list (CodeChunk Q),
    search_relevant_code None query code_embeddings k = Ok res /\
    search_relevant_code None query code_embeddings k' = Ok res' /\
    res = firstn (Z.to_nat k) res'.
Proof.
  intro B. eexists. eexists. split; [reflexivity |]. split; [reflexivity |].
  apply rank_prefix. exact B.
Qed.

Lemma search_top_k_prefix_witness :
  exists res res' : list (CodeChunk Q),
    search_relevant_code None "login form" sample_candidates 1 = Ok res /\
    search_relevant_code None "login form" sample_candidates 15 = Ok res' /\
    res = firstn (Z.to_nat 1) res'.
Proof.
  apply (search_top_k_prefix "login form" sample_candidates 1 15). lia.
Defined.

Lemma lexical_score_unmatched (q_terms : list string) (chunk : chunk_record) :
  count_matches q_terms (chunk_text chunk) = 0 ->
  (lexical_score q_terms chunk <= 3 # 10)%Q.
Proof.
  intro Z. unfold lexical_score, overlap. rewrite Z.
  pose proof (length_penalty_range (chunk_text chunk)) as [_ L].
  assert (E : (Qnat 0 / Qnat (len_or_1 q_terms) == 0)%Q).
  { unfold Qdiv. apply Qmult_0_l. }
  rewrite E. lra.
Qed.

Lemma count_matches_positive (q_terms : list string) (text : string) :
  count_matches q_terms text <> 0 ->
  exists t, In t q_terms /\ contains t text = true.
Proof.
  unfold count_matches. intro N.
  destruct (filter (fun t => negb (String.eqb t "") && contains t text) q_terms)
    as [| t l] eqn:E; [contradiction |].
  assert (I : In t (filter (fun t => negb (String.eqb t "") && contains t text) q_terms))
    by (rewrite E; left; reflexivity).
  apply filter_In in I as [I C]. apply andb_true_iff in C as [_ C].
  exists t. auto.
Qed.

(** X3: in lexical mode every returned chunk comes from a candidate
    record (filename and code copied from it) whose lower-cased
    "filename, newline, code" text contains at least one term of the
    query: a candidate that matches no term is never returned. *)
Theorem lexical_results_match_a_term `{ListSort} (query : string)
    (code_embeddings : list chunk_record) (top_k : Z) :
  exists res : list (CodeChunk Q),
    search_relevant_code None query code_embeddings top_k = Ok res /\
    Forall (fun c =>
              exists chunk t,
                In chunk code_embeddings /\
                filename c = get (r_filename chunk) "" /\
                code c = get (r_code chunk) "" /\
                In t (py_set (findall_terms (lower query))) /\
                contains t (chunk_text chunk) = true) res.
Proof.
  eexists. split; [reflexivity |].
  apply Forall_forall. intros c I.
  apply rank_In in I as (p & Ip & G & E). subst c.
  unfold lexical_similarities in Ip.
  apply in_map_iff in Ip as (chunk & Ep & Ic). subst p. simpl in G.
  apply Qgtb_true in G.
  destruct (Nat.eq_dec (count_matches (py_set (findall_terms (lower query)))
                          (chunk_text chunk)) 0) as [Z | N].
  - exfalso. apply lexical_score_unmatched in Z.
    apply (Qlt_irrefl (3 # 10)). eapply Qlt_le_trans; eassumption.
  - destruct (count_matches_positive _ _ N) as (t & It & C).
    exists chunk, t. repeat split; assumption.
Qed.

Lemma lexical_score_half_match (q_terms : list string) (chunk : chunk_record) :
  1 <= count_matches q_terms (chunk_text chunk) ->
  List.length q_terms <= 2 * count_matches q_terms (chunk_text chunk) ->
  (3 # 10 < lexical_score q_terms chunk)%Q.
Proof.
  intros P Hh. unfold lexical_score.
  pose proof (length_penalty_range (chunk_text chunk)) as [L _].
  assert (O : (1 # 2 <= overlap q_terms (chunk_text chunk))%Q).
  { unfold overlap. apply Qle_shift_div_l.
    - apply Qnat_pos, len_or_1_pos.
    - assert (B : len_or_1 q_terms <= 2 * count_matches q_terms (chunk_text chunk)).
      { unfold len_or_1. destruct (List.length q_terms); lia. }
      apply Qnat_le in B.
      assert (D : (Qnat (2 * count_matches q_terms (chunk_text chunk))
                   == 2 * Qnat (count_matches q_terms (chunk_text chunk)))%Q).
      { unfold Qnat. rewrite Nat2Z.inj_mul, inject_Z_mult. reflexivity. }
      rewrite D in B. lra. }
  lra.
Qed.

(** X4: in lexical mode, when top_k is at least the number of
    candidates, a candidate whose text contains at least one and at least
    half of the query's terms is returned, with its lexical score. *)
Theorem lexical_half_match_is_returned `{ListSort} (query : string)
    (code_embeddings : list chunk_record) (top_k : Z) (chunk : chunk_record) :
  let q_terms := py_set (findall_terms (lower query)) in
  (Z.of_nat (List.length code_embeddings) <= top_k)%Z ->
  In chunk code_embeddings ->
  1 <= count_matches q_terms (chunk_text chunk) ->
  List.length q_terms <= 2 * count_matches q_terms (chunk_text chunk) ->
  exists res : list (CodeChunk Q),
    search_relevant_code None query code_embeddings top_k = Ok res /\
    In (to_code_chunk (lexical_score q_terms chunk, chunk)) res.
Proof.
  intros q_terms K I P Hh. eexists. split; [reflexivity |].
  unfold rank. apply in_map. apply filter_In. split.
  - unfold slice_to.
    assert (E : (0 <=? top_k)%Z = true) by (apply Z.leb_le; lia). rewrite E.
    rewrite firstn_all2.
    + apply sort_desc_In. unfold lexical_similarities.
      apply in_map_iff. exists chunk. split; [reflexivity | exact I].
    + rewrite sort_desc_length. unfold lexical_similarities.
      rewrite length_map. lia.
  - simpl. apply Qgtb_true. apply lexical_score_half_match; assumption.
Qed.

Lemma lexical_half_match_is_returned_witness :
  exists res : list (CodeChunk Q),
    search_relevant_code None "login form" sample_candidates 3 = Ok res /\
    In (to_code_chunk
          (lexical_score (py_set (findall_terms (lower "login form")))
                         (record "x" "login"),
           record "x" "login")) res.
Proof.
  apply (lexical_half_match_is_returned "login form" sample_candidates 3
           (record "x" "login")).
  - simpl. lia.
  - simpl. auto.
  - vm_compute. lia.
  - vm_compute. lia.
Defined.

End RankTheorems.

Section CosineTheorems.
Import Ranker.

(** X6: for two vectors of the same length the cosine similarity does
    not depend on the order of the arguments. *)
Theorem cosine_similarity_symmetric (vec1 vec2 : list float) :
  List.length vec1 = List.length vec2 ->
  _cosine_similarity vec1 vec2 = _cosine_similarity vec2 vec1.
Proof.
  intro L. unfold _cosine_similarity.
  rewrite (np_dot_aligned _ _ L), (np_dot_aligned _ _ (eq_sym L)). unfold bind.
  rewrite (orb_comm (np_norm vec2 =? 0)%float), (dot_comm vec2 vec1).
  rewrite (float_mul_comm (np_norm vec2)). reflexivity.
Qed.

Lemma cosine_similarity_symmetric_witness :
  _cosine_similarity [1; 2]%float [3; -4]%float
  = _cosine_similarity [3; -4]%float [1; 2]%float.
Proof.
  apply (cosine_similarity_symmetric [1; 2]%float [3; -4]%float). reflexivity.
Defined.

End CosineTheorems.

(** ** What sanitization guarantees *)

Section SanitizeTheorems.
Import Ticket.

Lemma startswith_nl3_run (s : string) :
  startswith (nl ++ nl ++ nl) s = true -> 3 <= newline_run s.
Proof.
  change (nl ++ nl ++ nl)%string
    with (String newline (String newline (String newline EmptyString))).
  destruct s as [| c1 [| c2 [| c3 t]]]; cbn [startswith]; try discriminate.
  - rewrite andb_false_r. discriminate.
  - rewrite !andb_false_r. discriminate.
  - intro E. apply andb_true_iff in E as [E1 E].
    apply andb_true_iff in E as [E2 E]. apply andb_true_iff in E as [E3 _].
    apply Ascii.eqb_eq in E1, E2, E3. subst c1 c2 c3.
    cbn [newline_run]. rewrite newline_eqb_refl. lia.
Qed.

Lemma no_run3_contains (s : string) :
  matches_somewhere match_newlines s = false ->
  contains (nl ++ nl ++ nl) s = false.
Proof.
  induction s as [| c s IH]; [reflexivity |].
  intro M. apply no_run3_cons in M as [L M].
  change (contains (nl ++ nl ++ nl) (String c s))
    with (startswith (nl ++ nl ++ nl) (String c s) || contains (nl ++ nl ++ nl) s).
  rewrite (IH M), orb_false_r.
  destruct (startswith (nl ++ nl ++ nl) (String c s)) eqn:S; [| reflexivity].
  apply startswith_nl3_run in S. lia.
Qed.

Lemma sanitize_length (md : string) :
  String.length (_sanitize_ticket md) <= String.length md.
Proof.
  unfold _sanitize_ticket.
  pose proof (normalize_blank_length (remove_disallowed md)) as N.
  rewrite remove_disallowed_fold in *.
  pose proof (removals_length all_patterns md). lia.
Qed.

(** X8: for every input the sanitized text has no leading or trailing
    whitespace (stripping it again changes nothing), contains no three
    consecutive newlines, and is never longer than the input. *)
Theorem sanitize_output_normal_form (md : string) :
  strip (_sanitize_ticket md) = _sanitize_ticket md /\
  contains (nl ++ nl ++ nl) (_sanitize_ticket md) = false /\
  String.length (_sanitize_ticket md) <= String.length md.
Proof.
  split; [| split].
  - unfold _sanitize_ticket, normalize_blank. apply strip_idempotent.
  - apply no_run3_contains. unfold _sanitize_ticket, normalize_blank, strip.
    apply no_run3_lstrip, no_run3_rstrip, collapse_no_run3.
  - apply sanitize_length.
Qed.

Lemma startswith_append (a b s : string) :
  startswith (a ++ b) s = true -> startswith a s = true.
Proof.
  revert s. induction a as [| c a IH]; intros [| d s]; simpl; try reflexivity;
    try discriminate.
  intro E. apply andb_true_iff in E as [E1 E2].
  rewrite E1. simpl. apply IH. exact E2.
Qed.

Lemma contains_false_startswith (p s : string) :
  contains p s = false -> startswith p s = false.
Proof.
  destruct s; cbn [contains]; intro C; apply orb_false_iff in C; tauto.
Qed.

Lemma contains_false_tail (p : string) (c : ascii) (s : string) :
  contains p (String c s) = false -> contains p s = false.
Proof. cbn [contains]. intro C. apply orb_false_iff in C. tauto. Qed.

(** A pattern that can only match where [p] starts matches nowhere in a
    text without [p]. *)
Lemma no_marker_no_match (matcher : string -> option nat) (p s : string) :
  (forall t, startswith p t = false -> matcher t = None) ->
  contains p s = false ->
  matches_somewhere matcher s = false.
Proof.
  intros G. induction s as [| c s IH]; intro C.
  - simpl. rewrite (G EmptyString (contains_false_startswith _ _ C)). reflexivity.
  - cbn [matches_somewhere].
    rewrite (G (String c s) (contains_false_startswith _ _ C)).
    apply IH. apply (contains_false_tail p c s C).
Qed.

Lemma match_field_needs_stars (label t : string) :
  startswith "**" t = false -> match_field label t = None.
Proof.
  intro S. unfold match_field.
  destruct (startswith ("**" ++ label ++ ":**") t) eqn:E; [| reflexivity].
  apply (startswith_append "**") in E. congruence.
Qed.

Lemma match_example_needs_hashes (t : string) :
  startswith "##" t = false -> match_example t = None.
Proof. intro S. unfold match_example. rewrite S. reflexivity. Qed.

Lemma match_fence_needs_fence (t : string) :
  startswith fence t = false -> match_fence t = None.
Proof. intro S. unfold match_fence. rewrite S. reflexivity. Qed.

(** X9: a text that contains neither two asterisks in a row, nor two
    hash signs in a row, nor a triple backtick is left alone by all the
    removals: sanitizing it only collapses blank lines and trims. *)
Theorem sanitize_plain_text (md : string) :
  contains "**" md = false ->
  contains "##" md = false ->
  contains fence md = false ->
  _sanitize_ticket md = normalize_blank md.
Proof.
  intros S H B. apply sanitize_fixed.
  unfold residue_free, all_patterns, disallowed_patterns. simpl.
  rewrite !(no_marker_no_match _ "**" md (match_field_needs_stars _) S).
  rewrite (no_marker_no_match _ "##" md match_example_needs_hashes H).
  rewrite (no_marker_no_match _ fence md match_fence_needs_fence B).
  reflexivity.
Qed.

Lemma sanitize_plain_text_witness :
  _sanitize_ticket ("  # Title" ++ nl ++ nl ++ nl ++ nl ++ "Use *one* star and `code`. ")
  = normalize_blank ("  # Title" ++ nl ++ nl ++ nl ++ nl ++ "Use *one* star and `code`. ").
Proof.
  apply (sanitize_plain_text
           ("  # Title" ++ nl ++ nl ++ nl ++ nl ++ "Use *one* star and `code`. "));
    reflexivity.
Defined.

Lemma append_assoc (a b c : string) : ((a ++ b) ++ c = a ++ (b ++ c))%string.
Proof. induction a as [| x a IH]; simpl; [reflexivity | rewrite IH; reflexivity]. Qed.

Lemma length_append (a b : string) :
  String.length (a ++ b) = String.length a + String.length b.
Proof. induction a as [| x a IH]; simpl; [reflexivity | rewrite IH; reflexivity]. Qed.

Lemma startswith_self_append (m t : string) : startswith m (m ++ t) = true.
Proof.
  induction m as [| c m IH]; simpl; [reflexivity |].
  rewrite Ascii.eqb_refl. exact IH.
Qed.

Lemma drop_append (m t : string) : drop (String.length m) (m ++ t) = t.
Proof. induction m as [| c m IH]; simpl; [destruct t; reflexivity | exact IH]. Qed.

Lemma line_length_append (line rest : string) :
  contains nl line = false ->
  line_length (line ++ nl ++ rest) = String.length line.
Proof.
  induction line as [| c line IH]; intro C.
  - reflexivity.
  - pose proof (contains_false_startswith _ _ C) as C1.
    apply contains_false_tail in C.
    unfold nl in C1. cbn [startswith] in C1. rewrite andb_true_r in C1.
    change ((String c line ++ nl ++ rest)%string)
      with (String c (line ++ nl ++ rest)).
    cbn [line_length String.length].
    rewrite Ascii.eqb_sym, C1, (IH C). reflexivity.
Qed.

Lemma re_sub_field_prefix (label before rest : string) :
  contains "*" before = false ->
  re_sub (match_field label) "" (before ++ rest)
  = (before ++ re_sub (match_field label) "" rest)%string.
Proof.
  induction before as [| c before IH]; intro C; [reflexivity |].
  pose proof (contains_false_startswith _ _ C) as C1.
  apply contains_false_tail in C.
  cbn [startswith] in C1. rewrite andb_true_r in C1.
  change ((String c before ++ rest)%string) with (String c (before ++ rest)).
  rewrite re_sub_step.
  assert (N : match_field label (String c (before ++ rest)) = None).
  { apply match_field_needs_stars. cbn [startswith]. rewrite C1. reflexivity. }
  rewrite N, (IH C). reflexivity.
Qed.

(** X10: one substitution of a disallowed field pattern removes the
    whole field line with its newline: when the text before the bold
    label has no asterisk and the rest of the line has no newline, what
    is left is the text before, followed by the substitution of the text
    after the line. *)
Theorem field_line_removed (label before line after : string) :
  contains "*" before = false ->
  contains nl line = false ->
  re_sub (match_field label) ""
         (before ++ ("**" ++ label ++ ":**") ++ line ++ nl ++ after)
  = (before ++ re_sub (match_field label) "" after)%string.
Proof.
  intros B L. rewrite (re_sub_field_prefix label before _ B). f_equal.
  set (marker := ("**" ++ label ++ ":**")%string).
  assert (M : match_field label (marker ++ line ++ nl ++ after)
              = Some (String.length marker + String.length line + 1)).
  { unfold match_field. fold marker.
    rewrite startswith_self_append, drop_append, (line_length_append _ _ L).
    replace (drop (String.length line) (line ++ nl ++ after))
      with (nl ++ after)%string by (symmetry; apply drop_append).
    reflexivity. }
  destruct (marker ++ line ++ nl ++ after)%string as [| c s] eqn:E.
  - unfold marker in E. discriminate E.
  - rewrite re_sub_step, M.
    replace (String.length marker + String.length line + 1)
      with (S (String.length marker + String.length line)) by lia.
    simpl append.
    assert (D : drop (S (String.length marker + String.length line)) (String c s)
                = after).
    { rewrite <- E.
      replace (S (String.length marker + String.length line))
        with (String.length (marker ++ line ++ nl)).
      - replace (marker ++ line ++ nl ++ after)%string
          with ((marker ++ line ++ nl) ++ after)%string.
        + apply drop_append.
        + rewrite !append_assoc. reflexivity.
      - rewrite !length_append. simpl. lia. }
    simpl in D. rewrite D. reflexivity.
Qed.

Lemma field_line_removed_witness :
  re_sub (match_field "Priority") ""
         (("# Title" ++ nl) ++ ("**" ++ "Priority" ++ ":**") ++ " High" ++ nl ++ "Body")
  = (("# Title" ++ nl) ++ re_sub (match_field "Priority") "" "Body")%string.
Proof.
  apply (field_line_removed "Priority" ("# Title" ++ nl) " High" "Body");
    reflexivity.
Defined.

End SanitizeTheorems.

(** ** What parsing guarantees *)

Section ParseTheorems.
Import Ticket Render.

Lemma criteria_loop_trimmed (flag : bool) (lines : list string) :
  Forall (fun c => c <> EmptyString /\ strip c = c) (criteria_loop flag lines).
Proof.
  revert flag. induction lines as [| line rest IH]; intro flag;
    cbn [criteria_loop]; cbv zeta; [constructor |].
  destruct (String.eqb (strip line) "## Acceptance Criteria"); [apply IH |].
  destruct (startswith "## " line && flag); [constructor |].
  destruct (flag && startswith "- [ ]" (strip line)); [| apply IH].
  destruct (String.eqb (strip (drop 5 (strip line))) "") eqn:E; cbn [negb];
    [apply IH |].
  constructor; [| apply IH]. split.
  - apply String.eqb_neq. exact E.
  - apply strip_idempotent.
Qed.

(** X11: whatever the text, every acceptance criterion that parsing
    returns is non-empty and has no leading or trailing whitespace. *)
Theorem parsed_criteria_trimmed (markdown_content : string) :
  exists criteria,
    lookup "acceptance_criteria" (_parse_generated_ticket markdown_content)
      = Some (VList criteria) /\
    Forall (fun c => c <> EmptyString /\ strip c = c) criteria.
Proof.
  eexists. split; [reflexivity |]. apply criteria_loop_trimmed.
Qed.

Lemma take_plain_run_no_backtick (s : string) :
  contains (String backtick EmptyString) (take (plain_run s) s) = false.
Proof.
  induction s as [| c s IH]; [reflexivity |].
  cbn [plain_run]. destruct (Ascii.eqb c backtick) eqn:E; [reflexivity |].
  cbn [take contains startswith]. rewrite Ascii.eqb_sym, E, IH. reflexivity.
Qed.

Lemma take_nonempty (n : nat) (s : string) :
  0 < n -> 0 < plain_run s -> take n s <> EmptyString.
Proof.
  destruct n as [| n]; [lia |]. destruct s as [| c s]; simpl; [lia |].
  intros _ _. discriminate.
Qed.

Lemma first_backticked_plain (line m : string) :
  first_backticked line = Some m ->
  m <> EmptyString /\ contains (String backtick EmptyString) m = false.
Proof.
  induction line as [| c s IH]; cbn [first_backticked]; [discriminate |].
  destruct (Ascii.eqb c backtick); [| exact IH].
  destruct ((0 <? plain_run s)
            && startswith (String backtick EmptyString) (drop (plain_run s) s)) eqn:G;
    [| exact IH].
  intro E. inversion E. apply andb_true_iff in G as [G _]. apply Nat.ltb_lt in G.
  split; [apply take_nonempty; assumption | apply take_plain_run_no_backtick].
Qed.

Lemma files_loop_plain (flag : bool) (lines : list string) :
  Forall (fun f => f <> EmptyString /\ contains (String backtick EmptyString) f = false)
         (files_loop flag lines).
Proof.
  revert flag. induction lines as [| line rest IH]; intro flag;
    cbn [files_loop]; [constructor |].
  destruct (String.eqb (strip line) "## Files to Modify"); [apply IH |].
  destruct (startswith "## " line && flag); [constructor |].
  destruct (flag && contains (String backtick EmptyString) line); [| apply IH].
  destruct (first_backticked line) as [m |] eqn:E; [| apply IH].
  constructor; [| apply IH]. apply (first_backticked_plain line). exact E.
Qed.

(** X12: whatever the text, every entry of files_to_modify that parsing
    returns is non-empty and contains no backtick. *)
Theorem parsed_files_plain (markdown_content : string) :
  exists files,
    lookup "files_to_modify" (_parse_generated_ticket markdown_content)
      = Some (VList files) /\
    Forall (fun f => f <> EmptyString /\
                     contains (String backtick EmptyString) f = false) files.
Proof.
  eexists. split; [reflexivity |]. apply files_loop_plain.
Qed.

End ParseTheorems.

Section RoundTrip.
Import Ticket Render.

Lemma no_newline_head (c : ascii) (a : string) :
  contains nl (String c a) = false ->
  Ascii.eqb c newline = false /\ contains nl a = false.
Proof.
  intro C. pose proof (contains_false_startswith _ _ C) as C1.
  apply contains_false_tail in C.
  unfold nl in C1. cbn [startswith] in C1. rewrite andb_true_r in C1.
  rewrite Ascii.eqb_sym. auto.
Qed.

Lemma no_newline_append (a b : string) :
  contains nl a = false -> contains nl b = false -> contains nl (a ++ b) = false.
Proof.
  induction a as [| c a IH]; intros A B; [exact B |].
  apply no_newline_head in A as [A1 A2].
  change ((String c a ++ b)%string) with (String c (a ++ b)).
  cbn [contains]. rewrite (IH A2 B), orb_false_r.
  unfold nl. cbn [startswith]. rewrite Ascii.eqb_sym, A1. reflexivity.
Qed.

Lemma split_single (a : string) :
  contains nl a = false -> split newline a = [a].
Proof.
  induction a as [| c a IH]; intro C; [reflexivity |].
  apply no_newline_head in C as [C1 C2].
  cbn [split]. rewrite C1, (IH C2). reflexivity.
Qed.

Lemma split_line (a b : string) :
  contains nl a = false ->
  split newline (a ++ nl ++ b) = a :: split newline b.
Proof.
  induction a as [| c a IH]; intro C.
  - change (("" ++ nl ++ b)%string) with (String newline b).
    cbn [split]. rewrite newline_eqb_refl. reflexivity.
  - apply no_newline_head in C as [C1 C2].
    change ((String c a ++ nl ++ b)%string) with (String c (a ++ nl ++ b)).
    cbn [split]. rewrite C1, (IH C2). reflexivity.
Qed.

Lemma append_empty_r (a : string) : (a ++ "")%string = a.
Proof. induction a as [| c a IH]; simpl; [reflexivity | rewrite IH; reflexivity]. Qed.

Lemma split_criteria (items : list string) (tail : string) (tail_lines : list string) :
  Forall (fun i => contains nl i = false) items ->
  (forall a, contains nl a = false -> split newline (a ++ tail) = a :: tail_lines) ->
  forall a, contains nl a = false ->
  split newline
    (a ++ fold_right (fun item rest => (nl ++ checklist_line item ++ rest)%string)
                     tail items)
  = a :: map checklist_line items ++ tail_lines.
Proof.
  intros N T. induction N as [| i items Ni _ IH]; intros a A.
  - simpl. apply T. exact A.
  - cbn [fold_right map app]. rewrite (split_line a _ A). f_equal.
    apply IH. unfold checklist_line. apply no_newline_append; [reflexivity | exact Ni].
Qed.

Lemma strip_fixed (i : string) : strip i = i -> rstrip i = i /\ lstrip i = i.
Proof.
  intro E. unfold strip in E.
  assert (R : rstrip i = i).
  { rewrite <- E at 1. rewrite (rstrip_lstrip_fixed _ (rstrip_idempotent i)).
    exact E. }
  split; [exact R |]. rewrite R in E. exact E.
Qed.

Lemma rstrip_append_fixed (a i : string) :
  rstrip i = i -> i <> EmptyString -> rstrip (a ++ i) = (a ++ i)%string.
Proof.
  intros R N. induction a as [| c a IH]; [exact R |].
  change ((String c a ++ i)%string) with (String c (a ++ i)).
  cbn [rstrip]. rewrite IH.
  destruct (a ++ i)%string as [| d r] eqn:E; [| reflexivity].
  destruct a; simpl in E; [congruence | discriminate].
Qed.

Lemma strip_checklist_line (i : string) :
  strip i = i -> i <> EmptyString ->
  strip (checklist_line i) = checklist_line i /\
  strip (drop 5 (checklist_line i)) = i.
Proof.
  intros E N. destruct (strip_fixed i E) as [R L]. unfold checklist_line, strip. split.
  - rewrite (rstrip_append_fixed _ i R N). reflexivity.
  - change (drop 5 ("- [ ] " ++ i)%string) with (" " ++ i)%string.
    rewrite (rstrip_append_fixed _ i R N). simpl. exact L.
Qed.

Lemma criteria_loop_items (items tail_lines : list string) :
  Forall (fun i => i <> EmptyString /\ strip i = i) items ->
  criteria_loop true tail_lines = [] ->
  criteria_loop true (map checklist_line items ++ tail_lines) = items.
Proof.
  intros O T. induction O as [| i items [N E] _ IH]; [exact T |].
  cbn [map app criteria_loop]. cbv zeta.
  destruct (strip_checklist_line i E N) as [S D]. rewrite S, D.
  assert (H1 : String.eqb (checklist_line i) "## Acceptance Criteria" = false)
    by reflexivity.
  assert (H2 : startswith "## " (checklist_line i) = false) by reflexivity.
  assert (H3 : startswith "- [ ]" (checklist_line i) = true) by reflexivity.
  rewrite H1, H2, H3. cbn [andb].
  pose proof (proj2 (String.eqb_neq i "") N) as H4. rewrite H4. cbn [negb].
  rewrite IH. reflexivity.
Qed.

(** X13: parsing reads back a rendered checklist. For items that are
    non-empty, trimmed and free of newlines, the text made of the heading
    "## Acceptance Criteria" and one line "- [ ] item" per item, alone or
    followed by a "## Files to Modify" section, parses to exactly these
    items, in order. *)
Theorem acceptance_criteria_round_trip (items : list string) (rest : string) :
  Forall (fun i => i <> EmptyString /\ strip i = i /\ contains nl i = false) items ->
  lookup "acceptance_criteria"
         (_parse_generated_ticket (criteria_section items ""))
    = Some (VList items) /\
  lookup "acceptance_criteria"
         (_parse_generated_ticket
            (criteria_section items (nl ++ "## Files to Modify" ++ nl ++ rest)))
    = Some (VList items).
Proof.
  intro O.
  assert (O1 : Forall (fun i => contains nl i = false) items)
    by (eapply Forall_impl; [| exact O]; cbv beta; tauto).
  assert (O2 : Forall (fun i => i <> EmptyString /\ strip i = i) items)
    by (eapply Forall_impl; [| exact O]; cbv beta; tauto).
  unfold _parse_generated_ticket, criteria_section. cbn [lookup String.eqb].
  split.
  - rewrite (split_criteria items "" [] O1); [| | reflexivity].
    + change (criteria_loop false ("## Acceptance Criteria"
                                     :: map checklist_line items ++ []))
        with (criteria_loop true (map checklist_line items ++ [])).
      rewrite (criteria_loop_items items [] O2 eq_refl). reflexivity.
    + intros a A. rewrite append_empty_r. apply split_single. exact A.
  - rewrite (split_criteria items _ ("## Files to Modify" :: split newline rest) O1);
      [| | reflexivity].
    + change (criteria_loop false
                ("## Acceptance Criteria"
                   :: map checklist_line items
                   ++ "## Files to Modify" :: split newline rest))
        with (criteria_loop true
                (map checklist_line items
                   ++ "## Files to Modify" :: split newline rest)).
      rewrite (criteria_loop_items items ("## Files to Modify" :: split newline rest)
                 O2 eq_refl).
      reflexivity.
    + intros a A. rewrite (split_line a _ A). reflexivity.
Qed.

Lemma acceptance_criteria_round_trip_witness :
  lookup "acceptance_criteria"
         (_parse_generated_ticket
            (criteria_section ["Add login form"; "Add tests"] ""))
    = Some (VList ["Add login form"; "Add tests"]) /\
  lookup "acceptance_criteria"
         (_parse_generated_ticket
            (criteria_section ["Add login form"; "Add tests"]
               (nl ++ "## Files to Modify" ++ nl ++ "- `app/login.tsx`")))
    = Some (VList ["Add login form"; "Add tests"]).
Proof.
  apply (acceptance_criteria_round_trip ["Add login form"; "Add tests"]
           "- `app/login.tsx`").
  repeat constructor; discriminate.
Defined.

Lemma all_space_rstrip (c : string) : all_space c = true -> rstrip c = EmptyString.
Proof.
  induction c as [| x c IH]; [reflexivity |].
  cbn [all_space rstrip]. intro A. apply andb_true_iff in A as [A1 A2].
  rewrite (IH A2), A1. reflexivity.
Qed.

(** X14: when the generation call returns no content ([None]) or a
    content of whitespace only, the ticket is the default one: title
    "Generated Ticket", empty description and raw_markdown, no criteria,
    no files. *)
Theorem generate_ticket_blank_content (create : generation)
    (contextual_prompt user_request : string) (content : option string) :
  create contextual_prompt (user_instruction user_request) = Ok content ->
  match content with
  | None => True
  | Some c => all_space c = true
  end ->
  _generate_ticket_with_llm create contextual_prompt user_request
  = Ok [ ("title", VStr "Generated Ticket"); ("description", VStr "");
         ("acceptance_criteria", VList []); ("files_to_modify", VList []);
         ("raw_markdown", VStr "") ].
Proof.
  intros E B. unfold _generate_ticket_with_llm. rewrite E.
  assert (S : strip (match content with Some c => c | None => "" end) = EmptyString).
  { destruct content as [c |]; [| reflexivity].
    unfold strip. rewrite (all_space_rstrip c B). reflexivity. }
  cbn [bind try_except]. rewrite S. reflexivity.
Qed.

Lemma generate_ticket_blank_content_witness :
  _generate_ticket_with_llm (fun _ _ => Ok (Some ("  " ++ nl)%string)) "prompt" "request"
  = Ok [ ("title", VStr "Generated Ticket"); ("description", VStr "");
         ("acceptance_criteria", VList []); ("files_to_modify", VList []);
         ("raw_markdown", VStr "") ].
Proof.
  apply (generate_ticket_blank_content (fun _ _ => Ok (Some ("  " ++ nl)%string))
           "prompt" "request" (Some ("  " ++ nl)%string)); reflexivity.
Defined.

End RoundTrip.

(** ** Request analysis *)

Section RunsFacts.
Import Analyzer Shape.

Lemma runs_spec (p : ascii -> bool) (s : string) :
  Forall (fun r => r <> EmptyString /\ all_chars p r = true /\ contains r s = true)
         (runs p s) /\
  match s with
  | EmptyString => True
  | String c _ =>
      p c = true -> exists w ws, runs p s = w :: ws /\ startswith w s = true
  end.
Proof.
  induction s as [| c s [IH1 IH2]]; [split; [constructor | exact I] |].
  assert (Lift : Forall (fun r => r <> EmptyString /\ all_chars p r = true /\
                                  contains r (String c s) = true) (runs p s)).
  { eapply Forall_impl; [| exact IH1]. cbv beta. intros r (N & A & C).
    repeat split; try assumption. cbn [contains]. rewrite C. apply orb_true_r. }
  assert (Single : p c = true ->
                   String c EmptyString <> EmptyString /\
                   all_chars p (String c EmptyString) = true /\
                   contains (String c EmptyString) (String c s) = true).
  { intro P. repeat split; [discriminate | cbn [all_chars]; rewrite P; reflexivity |].
    cbn [contains startswith]. rewrite Ascii.eqb_refl. reflexivity. }
  cbn [runs]. destruct (p c) eqn:P; [| split; [exact Lift | discriminate]].
  destruct s as [| c' t].
  - split; [constructor; [apply Single; reflexivity | constructor] |].
    intros _. exists (String c EmptyString), []. split; [reflexivity |].
    cbn [startswith]. rewrite Ascii.eqb_refl. reflexivity.
  - destruct (p c') eqn:P'.
    + destruct (IH2 eq_refl) as (w & ws & E & S). rewrite E in *.
      apply Forall_cons_iff in Lift as [(Nw & Aw & Cw) Lws].
      split.
      * constructor; [| exact Lws].
        repeat split; [discriminate | cbn [all_chars]; rewrite P, Aw; reflexivity |].
        cbn [contains startswith]. rewrite Ascii.eqb_refl, S. reflexivity.
      * intros _. exists (String c w), ws. split; [reflexivity |].
        cbn [startswith]. rewrite Ascii.eqb_refl, S. reflexivity.
    + split; [constructor; [apply Single; reflexivity | exact Lift] |].
      intros _. exists (String c EmptyString), (runs p (String c' t)).
      split; [reflexivity |]. cbn [startswith]. rewrite Ascii.eqb_refl. reflexivity.
Qed.

Lemma runs_ext (p q : ascii -> bool) (s : string) :
  all_chars (fun c => Bool.eqb (p c) (q c)) s = true -> runs p s = runs q s.
Proof.
  induction s as [| c s IH]; [reflexivity |].
  cbn [all_chars]. intro A. apply andb_true_iff in A as [Ac As].
  apply eqb_prop in Ac. cbn [runs]. rewrite Ac, (IH As).
  destruct s as [| c' t]; [reflexivity |].
  cbn [all_chars] in As. apply andb_true_iff in As as [Ac' _].
  apply eqb_prop in Ac'. rewrite Ac'. reflexivity.
Qed.

Lemma findall_terms_runs (s : string) :
  Ranker.findall_terms s = runs Ranker.is_term_char s.
Proof.
  induction s as [| c s IH]; [reflexivity |].
  cbn [Ranker.findall_terms runs]. rewrite IH. reflexivity.
Qed.

Lemma mem_In (x : string) (l : list string) : mem x l = true <-> In x l.
Proof.
  unfold mem. rewrite existsb_exists. split.
  - intros (y & I & E). apply String.eqb_eq in E. subst y. exact I.
  - intro I. exists x. split; [exact I | apply String.eqb_refl].
Qed.

Lemma lower_char_not_upper (c : ascii) : is_upper (lower_char c) = false.
Proof.
  destruct c as [[|] [|] [|] [|] [|] [|] [|] [|]]; reflexivity.
Qed.

Lemma word_char_lower (c : ascii) :
  (nat_of_ascii c <? 128) = true ->
  is_word_char (lower_char c) = Ranker.is_term_char (lower_char c).
Proof.
  destruct c as [[|] [|] [|] [|] [|] [|] [|] [|]]; reflexivity.
Qed.

Lemma words_are_terms (s : string) :
  is_ascii_text s = true ->
  runs is_word_char (lower s) = Ranker.findall_terms (lower s).
Proof.
  intro A. rewrite findall_terms_runs. apply runs_ext.
  induction s as [| c s IH]; [reflexivity |].
  unfold is_ascii_text in A. cbn [all_chars] in A.
  apply andb_true_iff in A as [Ac As].
  cbn [lower all_chars]. rewrite (word_char_lower c Ac), (IH As).
  rewrite eqb_reflx. reflexivity.
Qed.

(** X15: the keywords extracted from a request are pairwise distinct;
    each has at least three characters, is not one of the stop words and
    occurs in the lower-cased request. *)
Theorem extracted_keywords_invariant (request : string) :
  NoDup (_extract_keywords request) /\
  Forall (fun k => 3 <= String.length k /\ ~ In k common_words /\
                   contains k (lower request) = true)
         (_extract_keywords request).
Proof.
  unfold _extract_keywords. split; [apply NoDup_nodup |].
  apply Forall_forall. intros k I. apply nodup_In in I.
  apply filter_In in I as [I C]. apply andb_true_iff in C as [C1 C2].
  apply Nat.ltb_lt in C2. split; [lia |]. split.
  - intro M. apply mem_In in M. rewrite M in C1. discriminate.
  - destruct (runs_spec is_word_char (lower request)) as [R _].
    rewrite Forall_forall in R. apply R in I. tauto.
Qed.

(** X16: for a request of ASCII characters, the keywords are exactly the
    query terms that lexical search derives from the same text (the runs
    of [a-z0-9_] of the lower-cased request), without the stop words and
    the terms shorter than three characters. *)
Theorem keywords_are_query_terms (request k : string) :
  is_ascii_text request = true ->
  (In k (_extract_keywords request) <->
   In k (Ranker.py_set (Ranker.findall_terms (lower request))) /\
   ~ In k common_words /\ 3 <= String.length k).
Proof.
  intro A. unfold _extract_keywords, Ranker.py_set.
  rewrite !nodup_In, filter_In, (words_are_terms request A).
  rewrite andb_true_iff, negb_true_iff, Nat.ltb_lt. split.
  - intros (I & M & L). repeat split; [exact I | | lia].
    intro C. apply mem_In in C. congruence.
  - intros (I & M & L). repeat split; [exact I | | lia].
    destruct (mem k common_words) eqn:E; [| reflexivity].
    apply mem_In in E. contradiction.
Qed.

Lemma keywords_are_query_terms_witness :
  In "login" (_extract_keywords "Fix the Login bug") <->
  In "login" (Ranker.py_set (Ranker.findall_terms (lower "Fix the Login bug"))) /\
  ~ In "login" common_words /\ 3 <= String.length "login".
Proof.
  apply (keywords_are_query_terms "Fix the Login bug" "login"). reflexivity.
Defined.

Lemma hints_fold (request_lower : string) (table : list (string * list string))
    (hints : list string) :
  fold_left
    (fun hints entry =>
       let '(tech, keywords) := entry in
       if any_in keywords request_lower then hints ++ [tech] else hints)
    table hints
  = hints ++ map fst (filter (fun entry => any_in (snd entry) request_lower) table).
Proof.
  revert hints. induction table as [| [tech kws] table IH]; intro hints; simpl.
  - rewrite app_nil_r. reflexivity.
  - rewrite IH. destruct (any_in kws request_lower); simpl; [| reflexivity].
    rewrite <- app_assoc. reflexivity.
Qed.

(** X17: the technology hints are the labels of the table entries with
    a keyword in the lower-cased request, in table order, and no label
    occurs twice. *)
Theorem technology_hints_distinct (request : string) :
  _extract_technology_hints request
  = map fst (filter (fun entry => any_in (snd entry) (lower request))
                    technology_keywords) /\
  NoDup (_extract_technology_hints request).
Proof.
  assert (E : _extract_technology_hints request
              = map fst (filter (fun entry => any_in (snd entry) (lower request))
                                technology_keywords)).
  { unfold _extract_technology_hints. cbv zeta. rewrite hints_fold. reflexivity. }
  split; [exact E |]. rewrite E.
  assert (N : NoDup (map fst technology_keywords)).
  { unfold technology_keywords. simpl.
    repeat (constructor; [simpl; intuition discriminate |]). constructor. }
  revert N. generalize technology_keywords.
  induction l as [| [tech kws] l IH]; simpl; intro N; [constructor |].
  inversion N as [| ? ? Nt Nl]; subst.
  destruct (any_in kws (lower request)); simpl; [| apply IH; exact Nl].
  constructor; [| apply IH; exact Nl].
  intro I. apply Nt. apply in_map_iff in I as (e & Ee & Ie).
  apply filter_In in Ie as [Ie _]. rewrite <- Ee. apply in_map. exact Ie.
Qed.

End RunsFacts.

Section BlankRequest.
Import Analyzer Render Shape.

Lemma space_char (c : ascii) :
  is_space c = true -> lower_char c = c /\ is_word_char c = false.
Proof.
  destruct c as [[|] [|] [|] [|] [|] [|] [|] [|]]; intro S;
    try discriminate S; split; reflexivity.
Qed.

Lemma lower_blank (s : string) : all_space s = true -> lower s = s.
Proof.
  induction s as [| c s IH]; [reflexivity |].
  cbn [all_space lower]. intro A. apply andb_true_iff in A as [Ac As].
  rewrite (proj1 (space_char c Ac)), (IH As). reflexivity.
Qed.

Lemma runs_blank (p : ascii -> bool) (s : string) :
  (forall c, is_space c = true -> p c = false) ->
  all_space s = true -> runs p s = [].
Proof.
  intro N. induction s as [| c s IH]; [reflexivity |].
  cbn [all_space runs]. intro A. apply andb_true_iff in A as [Ac As].
  rewrite (N c Ac). apply IH. exact As.
Qed.

Lemma contains_blank (w s : string) :
  starts_with_text w = true -> all_space s = true -> contains w s = false.
Proof.
  intros W. destruct w as [| a w]; [discriminate W |].
  cbn [starts_with_text] in W. apply negb_true_iff in W.
  induction s as [| c s IH]; [reflexivity |].
  cbn [all_space contains startswith]. intro A. apply andb_true_iff in A as [Ac As].
  rewrite (IH As), orb_false_r.
  destruct (Ascii.eqb a c) eqn:E; [| reflexivity].
  apply Ascii.eqb_eq in E. subst c. congruence.
Qed.

Lemma any_in_blank (words : list string) (s : string) :
  forallb starts_with_text words = true -> all_space s = true ->
  any_in words s = false.
Proof.
  intros W A. apply any_in_false. intros w I.
  rewrite forallb_forall in W. apply contains_blank; [apply W; exact I | exact A].
Qed.

(** X18: a request of whitespace only (the empty request included) gets
    every default: intent general_implementation, complexity simple,
    scope component, no keywords and no technology hints. *)
Theorem analyze_blank_request (user_request : string) :
  all_space user_request = true ->
  analyze_user_request user_request
  = {| intent := "general_implementation"; complexity := "simple";
       scope := "component"; keywords := []; technology_hints := [] |}.
Proof.
  intro A. unfold analyze_user_request.
  assert (I : Intent._classify_intent user_request = "general_implementation").
  { unfold Intent._classify_intent. cbv zeta. rewrite (lower_blank _ A).
    rewrite (any_in_blank Intent.feature_words _ eq_refl A),
      (any_in_blank Intent.bug_words _ eq_refl A),
      (any_in_blank Intent.refactor_words _ eq_refl A),
      (any_in_blank Intent.security_words _ eq_refl A),
      (any_in_blank Intent.performance_words _ eq_refl A).
    reflexivity. }
  assert (C : _estimate_complexity user_request = "simple").
  { unfold _estimate_complexity, split_words. cbv zeta.
    rewrite runs_blank; [reflexivity | | exact A].
    intros c S. rewrite S. reflexivity. }
  assert (S : _determine_scope user_request = "component").
  { unfold _determine_scope. cbv zeta. rewrite (lower_blank _ A).
    rewrite (any_in_blank component_words _ eq_refl A),
      (any_in_blank module_words _ eq_refl A),
      (any_in_blank system_words _ eq_refl A).
    reflexivity. }
  assert (K : _extract_keywords user_request = []).
  { unfold _extract_keywords. cbv zeta. rewrite (lower_blank _ A).
    rewrite runs_blank; [reflexivity | | exact A].
    intros c Sc. apply (space_char c Sc). }
  assert (T : _extract_technology_hints user_request = []).
  { unfold _extract_technology_hints. cbv zeta. rewrite hints_fold.
    rewrite (lower_blank _ A).
    rewrite filter_none; [reflexivity |].
    intros [tech kws] In. apply any_in_blank; [| exact A].
    unfold technology_keywords in In. simpl in In.
    repeat (destruct In as [In | In]; [inversion In; reflexivity |]).
    contradiction. }
  rewrite I, C, S, K, T. reflexivity.
Qed.

Lemma analyze_blank_request_witness :
  analyze_user_request ("  " ++ Ticket.nl)
  = {| intent := "general_implementation"; complexity := "simple";
       scope := "component"; keywords := []; technology_hints := [] |}.
Proof.
  apply (analyze_blank_request ("  " ++ Ticket.nl)). reflexivity.
Defined.

End BlankRequest.

(** ** Project context *)

Section CounterFacts.
Import Context.

Lemma count_of_incr_same (k : string) (d : counter) :
  count_of k (incr k d) = S (count_of k d).
Proof.
  induction d as [| [k' n] d IH]; simpl.
  - rewrite String.eqb_refl. reflexivity.
  - destruct (String.eqb k' k) eqn:E; simpl; rewrite E; [reflexivity | exact IH].
Qed.

Lemma count_of_incr_other (k k' : string) (d : counter) :
  k' <> k -> count_of k' (incr k d) = count_of k' d.
Proof.
  intro N. induction d as [| [k0 n] d IH]; simpl.
  - assert (E : String.eqb k k' = false) by (apply String.eqb_neq; congruence).
    rewrite E. reflexivity.
  - destruct (String.eqb k0 k) eqn:E; simpl.
    + apply String.eqb_eq in E. subst k0.
      assert (E' : String.eqb k k' = false) by (apply String.eqb_neq; congruence).
      rewrite E'. reflexivity.
    + destruct (String.eqb k0 k'); [reflexivity | exact IH].
Qed.

Lemma incr_keys (k x : string) (d : counter) :
  In x (map fst (incr k d)) <-> x = k \/ In x (map fst d).
Proof.
  induction d as [| [k0 n] d IH]; simpl.
  - intuition.
  - destruct (String.eqb k0 k) eqn:E; simpl.
    + apply String.eqb_eq in E. subst k0. intuition.
    + rewrite IH. intuition.
Qed.

Lemma incr_NoDup (k : string) (d : counter) :
  NoDup (map fst d) -> NoDup (map fst (incr k d)).
Proof.
  induction d as [| [k0 n] d IH]; simpl; intro N.
  - constructor; [simpl; tauto | constructor].
  - inversion N as [| ? ? N0 Nd]; subst.
    destruct (String.eqb k0 k) eqn:E; simpl.
    + constructor; assumption.
    + constructor; [| apply IH; exact Nd].
      rewrite incr_keys. intros [E' | I]; [| contradiction].
      apply String.eqb_neq in E. congruence.
Qed.

Lemma incr_sum (k : string) (d : counter) :
  list_sum (map snd (incr k d)) = S (list_sum (map snd d)).
Proof.
  induction d as [| [k0 n] d IH]; simpl; [reflexivity |].
  destruct (String.eqb k0 k); simpl; [reflexivity | rewrite IH; lia].
Qed.

Lemma count_of_bump (cond : bool) (k k' : string) (d : counter) :
  count_of k' (bump cond k d)
  = count_of k' d + (if cond && String.eqb k k' then 1 else 0).
Proof.
  unfold bump. destruct cond; simpl; [| lia].
  destruct (String.eqb k k') eqn:E.
  - apply String.eqb_eq in E. subst k'. rewrite count_of_incr_same. lia.
  - apply String.eqb_neq in E. rewrite count_of_incr_other by congruence. lia.
Qed.

End CounterFacts.

Section StackFacts.
Import Context.
Context {F : Type}.

Lemma tally_fold (key : CodeChunk F -> string) (code_chunks : list (CodeChunk F))
    (acc : counter) :
  let d := fold_left (fun d chunk => incr (key chunk) d) code_chunks acc in
  (NoDup (map fst acc) -> NoDup (map fst d)) /\
  (forall l, count_of l d
             = count_of l acc
               + List.length (filter (fun c => String.eqb (key c) l) code_chunks)) /\
  list_sum (map snd d) = list_sum (map snd acc) + List.length code_chunks /\
  (forall l, In l (map fst d) <->
             In l (map fst acc) \/ exists c, In c code_chunks /\ key c = l).
Proof.
  cbv zeta. revert acc. induction code_chunks as [| c cs IH]; intro acc; simpl.
  - repeat split; auto; try lia; intuition. destruct H0 as (c & [] & _).
  - destruct (IH (incr (key c) acc)) as (N & C & S & K). repeat split.
    + intro Na. apply N, incr_NoDup, Na.
    + intro l. rewrite C. destruct (String.eqb (key c) l) eqn:E; simpl.
      * apply String.eqb_eq in E. subst l. rewrite count_of_incr_same. lia.
      * apply String.eqb_neq in E. rewrite count_of_incr_other by congruence. lia.
    + rewrite S, incr_sum. lia.
    + rewrite K, incr_keys. intros [[E | I] | (c' & I & E)].
      * right. exists c. auto.
      * left. exact I.
      * right. exists c'. auto.
    + rewrite K, incr_keys. intros [I | (c' & [E | I] & E')].
      * left. right. exact I.
      * subst c'. left. left. symmetry. exact E'.
      * right. exists c'. auto.
Qed.

(** X19: the language tally has one entry per language that occurs
    among the chunks; the count of a language is the number of chunks
    with that language, and the counts add up to the number of chunks. *)
Theorem language_tally (code_chunks : list (CodeChunk F)) :
  let langs := languages (_analyze_technology_stack code_chunks) in
  NoDup (map fst langs) /\
  (forall l, count_of l langs
             = List.length (filter (fun c => String.eqb (language c) l) code_chunks)) /\
  list_sum (map snd langs) = List.length code_chunks /\
  (forall l, In l (map fst langs) <-> exists c, In c code_chunks /\ language c = l).
Proof.
  cbv zeta. unfold _analyze_technology_stack. cbn [languages].
  destruct (tally_fold language code_chunks []) as (N & C & S & K).
  repeat split.
  - apply N. constructor.
  - intro l. rewrite C. reflexivity.
  - rewrite S. reflexivity.
  - rewrite K. simpl. intros [[] | E]. exact E.
  - intro E. apply K. right. exact E.
Qed.

End StackFacts.

Section FrameworkFacts.
Import Context.
Context {F : Type}.

Lemma tally_if (step : CodeChunk F -> counter -> counter)
    (p : CodeChunk F -> bool) (k : string) :
  (forall c d, count_of k (step c d) = count_of k d + (if p c then 1 else 0)) ->
  forall code_chunks acc,
    count_of k (fold_left (fun d chunk => step chunk d) code_chunks acc)
    = count_of k acc + List.length (filter p code_chunks).
Proof.
  intros S code_chunks. induction code_chunks as [| c cs IH]; intro acc; simpl.
  - lia.
  - rewrite IH, S. destruct (p c); simpl; lia.
Qed.

Lemma bump_keys (cond : bool) (k x : string) (d : counter) :
  In x (map fst (bump cond k d)) -> x = k \/ In x (map fst d).
Proof.
  unfold bump. destruct cond; [apply incr_keys | auto].
Qed.

Lemma fold_keys (step : CodeChunk F -> counter -> counter) (labels : list string) :
  (forall c d, incl (map fst d) labels -> incl (map fst (step c d)) labels) ->
  forall code_chunks acc,
    incl (map fst acc) labels ->
    incl (map fst (fold_left (fun d chunk => step chunk d) code_chunks acc)) labels.
Proof.
  intros S code_chunks. induction code_chunks as [| c cs IH]; intros acc I; simpl.
  - exact I.
  - apply IH, S, I.
Qed.

Ltac eval_label_tests :=
  repeat match goal with
         | |- context [String.eqb ?a ?b] =>
             let v := eval vm_compute in (String.eqb a b) in
             change (String.eqb a b) with v
         end;
  rewrite ?andb_false_r, ?andb_true_r, ?Nat.add_0_r.

Ltac label_count :=
  intros; unfold detect_frameworks, detect_libraries; cbv zeta;
  rewrite !count_of_bump; eval_label_tests; reflexivity.

Ltac label_keys :=
  intros c d I; unfold detect_frameworks, detect_libraries; cbv zeta;
  intros x Hx;
  repeat (apply bump_keys in Hx; destruct Hx as [-> | Hx]; [simpl; tauto |]);
  apply I, Hx.

(** X20: the framework and library tallies count chunks, not
    occurrences: the count of a label is the number of chunks whose
    lower-cased code contains it (for "react": contains "react" or
    "jsx"), no other label is ever a key, and the three remaining
    sections of the stack stay empty. *)
Theorem framework_tally (code_chunks : list (CodeChunk F)) :
  let stack := _analyze_technology_stack code_chunks in
  let holds (label : string) (c : CodeChunk F) := contains label (lower (code c)) in
  count_of "react" (frameworks stack)
  = List.length (filter (fun c => holds "react" c || holds "jsx" c) code_chunks) /\
  Forall (fun label => count_of label (frameworks stack)
                       = List.length (filter (holds label) code_chunks))
         ["vue"; "angular"; "flutter"; "django"; "fastapi"; "spring"] /\
  Forall (fun label => count_of label (libraries stack)
                       = List.length (filter (holds label) code_chunks))
         ["axios"; "lodash"; "moment"; "pandas"] /\
  incl (map fst (frameworks stack))
       ["react"; "vue"; "angular"; "flutter"; "django"; "fastapi"; "spring"] /\
  incl (map fst (libraries stack)) ["axios"; "lodash"; "moment"; "pandas"] /\
  tools stack = [] /\ databases stack = [] /\ platforms stack = [].
Proof.
  cbv zeta. unfold _analyze_technology_stack.
  cbn [frameworks libraries tools databases platforms].
  split; [| split; [| split; [| split; [| split]]]].
  - rewrite (tally_if (fun c d => detect_frameworks (lower (code c)) d)
               (fun c => contains "react" (lower (code c))
                         || contains "jsx" (lower (code c))) "react").
    + reflexivity.
    + label_count.
  - repeat constructor.
    all: match goal with
         | |- count_of ?l _ = _ =>
             rewrite (tally_if (fun c d => detect_frameworks (lower (code c)) d)
                        (fun c => contains l (lower (code c))) l);
             [reflexivity | label_count]
         end.
  - repeat constructor.
    all: match goal with
         | |- count_of ?l _ = _ =>
             rewrite (tally_if (fun c d => detect_libraries (lower (code c)) d)
                        (fun c => contains l (lower (code c))) l);
             [reflexivity | label_count]
         end.
  - apply (fold_keys (fun c d => detect_frameworks (lower (code c)) d)).
    + label_keys.
    + intros x [].
  - apply (fold_keys (fun c d => detect_libraries (lower (code c)) d)).
    + label_keys.
    + intros x [].
  - repeat split.
Qed.

End FrameworkFacts.

Section ConventionFacts.
Import Regex Context.
Context {F : Type}.

Lemma findall_groups (matcher : string -> option (nat * string))
    (P : string -> Prop) :
  (forall t n g, matcher t = Some (n, g) -> P g) ->
  forall s skip, Forall P (findall_from matcher skip s).
Proof.
  intros M s. induction s as [| c s IH]; intro skip; simpl.
  - constructor.
  - destruct skip as [| k]; [| apply IH].
    destruct (matcher (String c s)) as [[[| n] g] |] eqn:E; try apply IH.
    constructor; [eapply M; exact E | apply IH].
Qed.

Lemma match_declaration_first (keyword : string) (first rest : ascii -> bool)
    (s : string) (n : nat) (g : string) :
  match_declaration keyword first rest s = Some (n, g) ->
  exists c g', g = String c g' /\ first c = true.
Proof.
  unfold match_declaration.
  destruct (startswith keyword s); [| discriminate].
  cbv zeta. destruct (1 <=? _); [| discriminate].
  destruct (drop _ _) as [| c t]; [discriminate |].
  destruct (first c) eqn:E; [| discriminate].
  intro J. injection J as _ <-. exists c. eexists. split; [reflexivity | exact E].
Qed.

Lemma lower_start_not_upper (c : ascii) :
  is_lower c || is_underscore c = true -> is_upper c = false.
Proof.
  unfold is_lower, is_underscore, is_upper. cbv zeta.
  set (n := nat_of_ascii c). intro J.
  destruct (65 <=? n) eqn:A; [| reflexivity].
  destruct (n <=? 90) eqn:B; [| reflexivity].
  apply Nat.leb_le in A, B.
  apply orb_true_iff in J. destruct J as [J | J].
  - apply andb_true_iff in J. destruct J as [J _]. apply Nat.leb_le in J. lia.
  - apply Nat.eqb_eq in J. lia.
Qed.

Lemma function_pattern_groups (pattern : string -> option (nat * string))
    (s : string) :
  In pattern function_patterns ->
  Forall (fun g => exists c g', g = String c g' /\ is_upper c = false)
         (findall pattern s).
Proof.
  intro I. apply findall_groups. intros t n g M.
  destruct I as [<- | [<- | [<- | []]]].
  - apply match_declaration_first in M. destruct M as (c & g' & -> & J).
    exists c, g'. split; [reflexivity | apply lower_start_not_upper, J].
  - apply match_declaration_first in M. destruct M as (c & g' & -> & J).
    exists c, g'. split; [reflexivity |].
    apply lower_start_not_upper. rewrite J. reflexivity.
  - unfold match_const in M.
    destruct (match_declaration _ _ _ t) as [[n0 g0] |] eqn:D; [| discriminate].
    cbv zeta in M. destruct (startswith _ _); [| discriminate].
    injection M as _ <-.
    apply match_declaration_first in D. destruct D as (c & g' & -> & J).
    exists c, g'. split; [reflexivity |].
    apply lower_start_not_upper. rewrite J. reflexivity.
Qed.

Lemma incr_style_keys (k : string) (d : counter) :
  k = "snake_case" \/ k = "camelCase" ->
  incl (map fst d) ["snake_case"; "camelCase"] ->
  incl (map fst (incr k d)) ["snake_case"; "camelCase"].
Proof.
  intros K I x Hx. apply incr_keys in Hx. destruct Hx as [-> | Hx].
  - simpl. destruct K as [-> | ->]; auto.
  - apply I, Hx.
Qed.

Lemma tally_matches_total (matches : list string) :
  Forall (fun g => exists c g', g = String c g' /\ is_upper c = false) matches ->
  forall acc,
    incl (map fst acc) ["snake_case"; "camelCase"] ->
    NoDup (map fst acc) ->
    exists d,
      tally_matches matches acc = Ok d /\
      incl (map fst d) ["snake_case"; "camelCase"] /\
      NoDup (map fst d) /\
      list_sum (map snd d) = list_sum (map snd acc) + List.length matches.
Proof.
  induction 1 as [| g rest (c & g' & -> & U) _ IH]; intros acc I N.
  - exists acc. simpl. repeat split; auto.
  - cbn [tally_matches naming_style]. rewrite U.
    destruct (contains "_" (String c g')); unfold bind.
    + destruct (IH (incr "snake_case" acc)) as (d & E & I' & N' & S).
      { apply incr_style_keys; auto. }
      { apply incr_NoDup, N. }
      exists d. rewrite E, S, incr_sum. repeat split; auto; simpl; lia.
    + destruct (IH (incr "camelCase" acc)) as (d & E & I' & N' & S).
      { apply incr_style_keys; auto. }
      { apply incr_NoDup, N. }
      exists d. rewrite E, S, incr_sum. repeat split; auto; simpl; lia.
Qed.

Lemma tally_patterns_total (patterns : list (string -> option (nat * string)))
    (code : string) :
  incl patterns function_patterns ->
  forall acc,
    incl (map fst acc) ["snake_case"; "camelCase"] ->
    NoDup (map fst acc) ->
    exists d,
      tally_patterns patterns code acc = Ok d /\
      incl (map fst d) ["snake_case"; "camelCase"] /\
      NoDup (map fst d) /\
      list_sum (map snd d)
      = list_sum (map snd acc)
        + list_sum (map (fun p => List.length (findall p code)) patterns).
Proof.
  induction patterns as [| p ps IH]; intros P acc I N.
  - exists acc. simpl. repeat split; auto.
  - cbn [tally_patterns].
    destruct (tally_matches_total (findall p code)
                (function_pattern_groups p code (P p (or_introl eq_refl)))
                acc I N) as (d0 & E0 & I0 & N0 & S0).
    rewrite E0. unfold bind.
    destruct (IH (fun x Hx => P x (or_intror Hx)) d0 I0 N0) as (d & E & I' & N' & S).
    exists d. rewrite E, S, S0. repeat split; auto; simpl; lia.
Qed.

Lemma tally_chunks_total (code_chunks : list (CodeChunk F)) :
  forall acc,
    incl (map fst acc) ["snake_case"; "camelCase"] ->
    NoDup (map fst acc) ->
    exists d,
      tally_chunks code_chunks acc = Ok d /\
      incl (map fst d) ["snake_case"; "camelCase"] /\
      NoDup (map fst d) /\
      list_sum (map snd d)
      = list_sum (map snd acc)
        + list_sum (map (fun c => List.length (findall match_def (code c))
                                  + List.length (findall match_function (code c))
                                  + List.length (findall match_const (code c)))
                        code_chunks).
Proof.
  induction code_chunks as [| c cs IH]; intros acc I N.
  - exists acc. simpl. repeat split; auto.
  - cbn [tally_chunks].
    destruct (tally_patterns_total function_patterns (code c)
                (fun x Hx => Hx) acc I N) as (d0 & E0 & I0 & N0 & S0).
    rewrite E0. unfold bind.
    destruct (IH d0 I0 N0) as (d & E & I' & N' & S).
    exists d. rewrite E, S, S0. repeat split; auto; simpl; lia.
Qed.

Lemma count_of_absent (k : string) (d : counter) :
  ~ In k (map fst d) -> count_of k d = 0.
Proof.
  induction d as [| [k0 n] d IH]; simpl; intro N; [reflexivity |].
  destruct (String.eqb k0 k) eqn:E.
  - apply String.eqb_eq in E. tauto.
  - apply IH. tauto.
Qed.

(** X21: the analysis of the coding conventions never raises (the
    group of each of the three patterns is never empty, so [match[0]]
    is defined); the group never starts with an upper-case letter, so
    "PascalCase" is never tallied and the only keys are "snake_case"
    and "camelCase"; the counts add up to the number of matches of the
    three patterns in all chunks; the other two sections stay empty. *)
Theorem coding_conventions_total (code_chunks : list (CodeChunk F)) :
  exists conv,
    _analyze_coding_conventions code_chunks = Ok conv /\
    incl (map fst (naming conv)) ["snake_case"; "camelCase"] /\
    NoDup (map fst (naming conv)) /\
    count_of "PascalCase" (naming conv) = 0 /\
    list_sum (map snd (naming conv))
    = list_sum (map (fun c => List.length (findall match_def (code c))
                              + List.length (findall match_function (code c))
                              + List.length (findall match_const (code c)))
                    code_chunks) /\
    structure conv = [] /\ style conv = [].
Proof.
  unfold _analyze_coding_conventions.
  destruct (tally_chunks_total code_chunks []) as (d & E & I & N & S).
  { intros x []. }
  { constructor. }
  rewrite E. unfold bind. eexists. split; [reflexivity |].
  cbn [naming structure style]. repeat split; auto.
  apply count_of_absent. intro J. apply I in J.
  destruct J as [J | [J | []]]; discriminate.
Qed.

End ConventionFacts.

Section PracticeFacts.
Import Context.
Context {F : Type}.

Lemma chunk_practices_labels (code : string) :
  incl (chunk_practices code)
       ["Error Handling"; "Type Annotations"; "Code Documentation"; "Testing"].
Proof.
  unfold chunk_practices.
  destruct (contains "try:" code || _ || _), (contains ":" code && _),
    (contains (dq ++ dq ++ dq) code || _ || _), (contains "test" _ || _);
    intros x Hx; simpl in Hx; simpl; intuition.
Qed.

Lemma chunk_practices_In (code : string) :
  (In "Error Handling" (chunk_practices code)
   <-> contains "try:" code || contains "catch" code || contains "except" code
       = true) /\
  (In "Type Annotations" (chunk_practices code)
   <-> contains ":" code && (contains "def " code || contains "function" code)
       = true) /\
  (In "Code Documentation" (chunk_practices code)
   <-> contains (dq ++ dq ++ dq) code || contains "'''" code || contains "//" code
       = true) /\
  (In "Testing" (chunk_practices code)
   <-> contains "test" (lower code) || contains "spec" (lower code) = true).
Proof.
  unfold chunk_practices.
  destruct (contains "try:" code || _ || _), (contains ":" code && _),
    (contains (dq ++ dq ++ dq) code || _ || _), (contains "test" _ || _);
    simpl; repeat split; intros; auto; try discriminate;
    repeat match goal with
           | J : _ \/ _ |- _ => destruct J as [J | J]
           | J : False |- _ => destruct J
           | J : _ = _ |- _ => discriminate J
           end.
Qed.

(** X22: the best practices are pairwise distinct labels out of four
    (so at most four), and a label is present exactly when some chunk's
    code shows its marker: "try:", "catch" or "except" for error
    handling; a colon together with "def " or "function" for type
    annotations; a triple quote or "//" for documentation; "test" or
    "spec" in any letter case for testing. *)
Theorem best_practices_spec (code_chunks : list (CodeChunk F)) :
  let practices := _identify_best_practices code_chunks in
  let some (p : string -> bool) := exists c, In c code_chunks /\ p (code c) = true in
  NoDup practices /\
  incl practices ["Error Handling"; "Type Annotations"; "Code Documentation"; "Testing"] /\
  List.length practices <= 4 /\
  (In "Error Handling" practices
   <-> some (fun s => contains "try:" s || contains "catch" s || contains "except" s)) /\
  (In "Type Annotations" practices
   <-> some (fun s => contains ":" s && (contains "def " s || contains "function" s))) /\
  (In "Code Documentation" practices
   <-> some (fun s => contains (dq ++ dq ++ dq) s || contains "'''" s || contains "//" s)) /\
  (In "Testing" practices
   <-> some (fun s => contains "test" (lower s) || contains "spec" (lower s))).
Proof.
  cbv zeta. unfold _identify_best_practices.
  assert (L : incl (nodup string_dec
                      (flat_map (fun chunk : CodeChunk F => chunk_practices (code chunk))
                                code_chunks))
                   ["Error Handling"; "Type Annotations"; "Code Documentation"; "Testing"]).
  { intros x Hx. apply nodup_In, in_flat_map in Hx. destruct Hx as (c & _ & Hx).
    exact (chunk_practices_labels _ _ Hx). }
  split; [apply NoDup_nodup |]. split; [exact L |].
  split; [exact (NoDup_incl_length (NoDup_nodup _ _) L) |].
  repeat split.
  all: try (intro J; apply nodup_In, in_flat_map in J; destruct J as (c & I & J);
            exists c; split; [exact I |]; apply (chunk_practices_In (code c)); exact J).
  all: intros (c & I & J); apply nodup_In, in_flat_map; exists c; split; [exact I |];
    apply (chunk_practices_In (code c)); exact J.
Qed.

End PracticeFacts.

Section DependencyFacts.
Import Similar Context.
Context {F : Type}.

Lemma add_new_first_occurrences (ks : list string) (imp : string) :
  add_new (first_occurrences ks) imp = first_occurrences (ks ++ [imp]).
Proof.
  unfold add_new. rewrite first_occurrences_snoc.
  destruct (Analyzer.mem imp (first_occurrences ks)) eqn:M.
  - apply (proj1 (mem_In _ _)) in M. apply (proj1 (first_occurrences_In _ _)) in M.
    destruct (in_dec string_dec imp ks); [reflexivity | contradiction].
  - destruct (in_dec string_dec imp ks) as [I | I]; [| reflexivity].
    apply (proj2 (first_occurrences_In _ _)) in I. apply (proj2 (mem_In _ _)) in I.
    congruence.
Qed.

Lemma fold_add_new (imps ks : list string) :
  fold_left add_new imps (first_occurrences ks) = first_occurrences (ks ++ imps).
Proof.
  revert ks. induction imps as [| i imps IH]; intro ks; simpl.
  - rewrite app_nil_r. reflexivity.
  - rewrite add_new_first_occurrences, IH, <- app_assoc. reflexivity.
Qed.

Lemma fold_imports (code_chunks : list (CodeChunk F)) (ks : list string) :
  fold_left (fun found chunk => fold_left add_new (all_imports (code chunk)) found)
            code_chunks (first_occurrences ks)
  = first_occurrences
      (ks ++ flat_map (fun chunk => all_imports (code chunk)) code_chunks).
Proof.
  revert ks. induction code_chunks as [| c cs IH]; intro ks; simpl.
  - rewrite app_nil_r. reflexivity.
  - rewrite fold_add_new, IH, <- app_assoc. reflexivity.
Qed.

(** X23: the external dependencies are the captured names of all import
    matches of all chunks, in the order of their first occurrence and
    without repetition; they depend neither on the project metadata nor
    on the JSON decoder. *)
Theorem external_dependencies_spec (loads : string -> pyresult json)
    (code_chunks : list (CodeChunk F)) (project_metadata : manifests) :
  let ext := external (_analyze_dependencies loads code_chunks project_metadata) in
  ext = first_occurrences (flat_map (fun chunk => all_imports (code chunk)) code_chunks) /\
  NoDup ext /\
  (forall imp, In imp ext
               <-> exists c, In c code_chunks /\ In imp (all_imports (code c))).
Proof.
  cbv zeta. unfold _analyze_dependencies.
  destruct (manifest_dependencies loads project_metadata) as [run dev].
  cbn [external].
  pose proof (fold_imports code_chunks []) as E.
  cbn [first_occurrences app] in E. rewrite E.
  split; [reflexivity |]. split; [apply first_occurrences_NoDup |].
  intro imp. rewrite first_occurrences_In, in_flat_map. reflexivity.
Qed.

(** X24: with a package.json that decodes to an object, a failure while
    reading one of the two sections is swallowed, but not symmetrically:
    the development list is empty as soon as either "dependencies" or
    "devDependencies" is not an object, while the runtime list is kept
    (the keys of "dependencies", in order) whenever "dependencies" is an
    object. *)
Theorem dependencies_partial_failure (loads : string -> pyresult json)
    (code_chunks : list (CodeChunk F)) (project_metadata : manifests)
    (text : string) (fields : list (string * json)) (a b : json) :
  manifest "package.json" project_metadata = Some text ->
  loads text = Ok (JObj fields) ->
  json_get "dependencies" (JObj fields) = Ok a ->
  json_get "devDependencies" (JObj fields) = Ok b ->
  (forall r, a <> JObj r) \/ (forall d, b <> JObj d) ->
  let deps := _analyze_dependencies loads code_chunks project_metadata in
  development deps = [] /\
  runtime deps = match a with JObj r => map fst r | _ => [] end.
Proof.
  intros M L A B N. cbv zeta. unfold _analyze_dependencies, manifest_dependencies.
  rewrite M, L, A, B. unfold bind.
  destruct a as [| ? | ? | ? | ? | r]; cbn [json_keys development runtime];
    try (split; reflexivity).
  destruct b as [| ? | ? | ? | ? | d]; cbn [json_keys development runtime];
    try (split; reflexivity).
  destruct N as [N | N]; [destruct (N r eq_refl) | destruct (N d eq_refl)].
Qed.


End DependencyFacts.

Section DependencyExamples.
Import Context.

Lemma dependencies_partial_failure_witness :
  development
    (@_analyze_dependencies Q
       (fun _ : string =>
          Ok (JObj [("dependencies", JObj [("react", JStr "18"); ("next", JStr "13")]);
                    ("devDependencies", JArr [JStr "eslint"])]))
       [] [("package.json", "{}")]) = [] /\
  runtime
    (@_analyze_dependencies Q
       (fun _ : string =>
          Ok (JObj [("dependencies", JObj [("react", JStr "18"); ("next", JStr "13")]);
                    ("devDependencies", JArr [JStr "eslint"])]))
       [] [("package.json", "{}")]) = ["react"; "next"].
Proof.
  apply (dependencies_partial_failure (F := Q)
           (fun _ : string =>
              Ok (JObj [("dependencies", JObj [("react", JStr "18"); ("next", JStr "13")]);
                        ("devDependencies", JArr [JStr "eslint"])]))
           [] [("package.json", "{}")] "{}"
           [("dependencies", JObj [("react", JStr "18"); ("next", JStr "13")]);
            ("devDependencies", JArr [JStr "eslint"])]
           (JObj [("react", JStr "18"); ("next", JStr "13")])
           (JArr [JStr "eslint"])).
  - reflexivity.
  - reflexivity.
  - reflexivity.
  - reflexivity.
  - right. intros d J. discriminate J.
Defined.

End DependencyExamples.

Section BuildFacts.
Import Similar Context.
Context {F : Type} `{PyFloat F}.

Lemma build_project_context_ok (loads : string -> pyresult json)
    (code_chunks : list (CodeChunk F)) (project_metadata : manifests) :
  exists conv impls,
    _analyze_coding_conventions code_chunks = Ok conv /\
    _extract_similar_implementations code_chunks = Ok impls /\
    build_project_context loads code_chunks project_metadata
    = Ok {| technology_stack := _analyze_technology_stack code_chunks;
            architectural_patterns := Patterns._detect_architectural_patterns code_chunks;
            coding_conventions := conv;
            similar_implementations := impls;
            best_practices := _identify_best_practices code_chunks;
            dependencies := _analyze_dependencies loads code_chunks project_metadata |}.
Proof.
  destruct (tally_chunks_total code_chunks []) as (d & E & _).
  { intros x []. }
  { constructor. }
  destruct (extract_similar_implementations_generic code_chunks) as (impls & S & _).
  exists {| naming := d; structure := []; style := [] |}, impls.
  unfold build_project_context, _analyze_coding_conventions.
  rewrite E, S. unfold bind. repeat split.
Qed.

(** X25: building the project context never raises, whatever the chunks,
    the metadata and the behaviour of the JSON decoder: the two steps
    that could fail (the first character of a matched name, the maximum
    of a group) never do. The context holds the results of the six
    analyses of the same chunks, with at most five similar
    implementations, each of them one of the chunks. *)
Theorem build_project_context_total (loads : string -> pyresult json)
    (code_chunks : list (CodeChunk F)) (project_metadata : manifests) :
  exists ctx,
    build_project_context loads code_chunks project_metadata = Ok ctx /\
    technology_stack ctx = _analyze_technology_stack code_chunks /\
    architectural_patterns ctx = Patterns._detect_architectural_patterns code_chunks /\
    _analyze_coding_conventions code_chunks = Ok (coding_conventions ctx) /\
    _extract_similar_implementations code_chunks = Ok (similar_implementations ctx) /\
    best_practices ctx = _identify_best_practices code_chunks /\
    dependencies ctx = _analyze_dependencies loads code_chunks project_metadata /\
    List.length (similar_implementations ctx) <= 5 /\
    incl (similar_implementations ctx) code_chunks.
Proof.
  destruct (build_project_context_ok loads code_chunks project_metadata)
    as (conv & impls & C & S & B).
  eexists. split; [exact B |].
  cbn [technology_stack architectural_patterns coding_conventions
       similar_implementations best_practices dependencies].
  repeat split; auto.
  - destruct (extract_similar_implementations_generic code_chunks)
      as (impls' & S' & L & _).
    rewrite S in S'. injection S' as <-. exact L.
  - destruct (extract_similar_implementations_generic code_chunks)
      as (impls' & S' & _ & I & _).
    rewrite S in S'. injection S' as <-.
    intros c Hc. rewrite Forall_forall in I. apply (I c Hc).
Qed.

End BuildFacts.

(** ** Prompt *)

Section PromptFacts.
Import Context Analyzer Prompt Shape.
Context {F : Type}.

Lemma examples_from_view (impls impls' : list (CodeChunk F)) (i : nat)
    (context : string) :
  map (fun c => (filename c, language c, Ticket.take 200 (code c))) impls
  = map (fun c => (filename c, language c, Ticket.take 200 (code c))) impls' ->
  examples_from i impls context = examples_from i impls' context.
Proof.
  revert impls' i context.
  induction impls as [| c cs IH]; intros [| c' cs'] i context E;
    try discriminate E; [reflexivity |].
  cbn [map] in E.
  remember (Ticket.take 200 (code c)) as t eqn:Et.
  remember (Ticket.take 200 (code c')) as t' eqn:Et'.
  injection E as Ef El Ec Er. subst t t'.
  cbn [examples_from]. rewrite Ef, El, Ec. apply IH. exact Er.
Qed.

(** X26: the examples part of the prompt depends only on the first
    three similar implementations, and of each of them only on the
    filename, the language and the first 200 characters of the code:
    two lists that agree on these give the same text, whatever their
    scores, metadata, locations, longer codes and further chunks. *)
Theorem examples_context_clipped (impls impls' : list (CodeChunk F)) :
  map (fun c => (filename c, language c, Ticket.take 200 (code c))) (firstn 3 impls)
  = map (fun c => (filename c, language c, Ticket.take 200 (code c))) (firstn 3 impls') ->
  _build_examples_context impls = _build_examples_context impls'.
Proof.
  intro E. unfold _build_examples_context.
  destruct impls as [| c cs], impls' as [| c' cs']; try discriminate E.
  - reflexivity.
  - apply examples_from_view. exact E.
Qed.

Lemma contains_skip (m a s : string) :
  contains m s = true -> contains m (a ++ s)%string = true.
Proof.
  intro C. induction a as [| c a IH]; [exact C |].
  change (String c a ++ s)%string with (String c (a ++ s)%string).
  cbn [contains]. rewrite IH. apply orb_true_r.
Qed.

Lemma contains_prefix (m t : string) : contains m (m ++ t)%string = true.
Proof.
  pose proof (startswith_self_append m t) as S.
  destruct (m ++ t)%string; cbn [contains]; rewrite S; reflexivity.
Qed.

Lemma contains_quoted (u rest : string) :
  contains (dq ++ u ++ dq) (dq ++ u ++ dq ++ rest)%string = true.
Proof.
  replace (dq ++ u ++ dq ++ rest)%string with ((dq ++ u ++ dq) ++ rest)%string.
  - apply contains_prefix.
  - rewrite !append_assoc. reflexivity.
Qed.

Lemma contains_line (label v rest : string) :
  contains (label ++ v ++ nl) (label ++ v ++ nl ++ rest)%string = true.
Proof.
  replace (label ++ v ++ nl ++ rest)%string with ((label ++ v ++ nl) ++ rest)%string.
  - apply contains_prefix.
  - rewrite !append_assoc. reflexivity.
Qed.

Lemma contains_request (u rest : string) :
  contains ("USER REQUEST: " ++ dq ++ u ++ dq ++ nl)
           ("USER REQUEST: " ++ dq ++ u ++ dq ++ nl ++ rest)%string = true.
Proof.
  replace ("USER REQUEST: " ++ dq ++ u ++ dq ++ nl ++ rest)%string
    with (("USER REQUEST: " ++ dq ++ u ++ dq ++ nl) ++ rest)%string.
  - apply contains_prefix.
  - rewrite !append_assoc. reflexivity.
Qed.

(** X27: the prompt embeds the user request verbatim between double
    quotes, and carries the intent, the complexity and the scope of the
    request analysis, each on its own labelled line. *)
Theorem prompt_embeds_request `{PyFloat F} (user_request : string)
    (project_context : ProjectContext) (request_analysis : RequestAnalysis) :
  let prompt := generate_contextual_prompt user_request project_context request_analysis in
  contains ("USER REQUEST: " ++ dq ++ user_request ++ dq ++ nl) prompt = true /\
  contains ("- Intent: " ++ intent request_analysis ++ nl) prompt = true /\
  contains ("- Complexity: " ++ complexity request_analysis ++ nl) prompt = true /\
  contains ("- Scope: " ++ scope request_analysis ++ nl) prompt = true.
Proof.
  cbv zeta. unfold generate_contextual_prompt. cbv zeta.
  repeat split.
  - repeat lazymatch goal with
           | |- contains _ ("USER REQUEST: " ++ _)%string = true => idtac
           | |- contains _ (_ ++ _)%string = true => apply contains_skip
           end.
    apply contains_request.
  - repeat lazymatch goal with
           | |- contains _ ("- Intent: " ++ _)%string = true => idtac
           | |- contains _ (_ ++ _)%string = true => apply contains_skip
           end.
    apply contains_line.
  - repeat lazymatch goal with
           | |- contains _ ("- Complexity: " ++ _)%string = true => idtac
           | |- contains _ (_ ++ _)%string = true => apply contains_skip
           end.
    apply contains_line.
  - repeat lazymatch goal with
           | |- contains _ ("- Scope: " ++ _)%string = true => idtac
           | |- contains _ (_ ++ _)%string = true => apply contains_skip
           end.
    apply contains_line.
Qed.

End PromptFacts.

Section PromptExamples.
Import Prompt.

Lemma examples_context_clipped_witness :
  _build_examples_context
    [ {| filename := "a.py"; code := "x = 1"; language := "py"; score := (1 # 2)%Q;
         chunk_metadata := []; location := "1:1" |} ]
  = _build_examples_context
      [ {| filename := "a.py"; code := "x = 1"; language := "py"; score := (9 # 10)%Q;
           chunk_metadata := [("has_functions", true)]; location := "7:3" |} ].
Proof.
  apply (examples_context_clipped (F := Q)). reflexivity.
Defined.

End PromptExamples.

(** ** Orchestrator *)

Section OrchestratorFacts.
Import Ranker Context Analyzer Prompt Orchestrator.

Lemma rank_length_le {F : Type} `{PyFloat F} (similarities : list (F * chunk_record))
    (top_k : Z) :
  List.length (rank similarities top_k) <= List.length similarities.
Proof.
  unfold rank. rewrite length_map.
  pose proof (length_filter_le (fun p : F * chunk_record => gtb (fst p) (lit (3 # 10)))
                (slice_to (sort_desc similarities) top_k)) as L.
  assert (S : List.length (slice_to (sort_desc similarities) top_k)
              <= List.length similarities).
  { unfold slice_to. rewrite <- (sort_desc_length similarities).
    destruct (0 <=? top_k)%Z; rewrite length_firstn; apply Nat.le_min_r. }
  lia.
Qed.

Lemma generate_ticket_total (create : Ticket.generation)
    (contextual_prompt user_request : string) :
  exists t, Ticket._generate_ticket_with_llm create contextual_prompt user_request = Ok t.
Proof.
  unfold Ticket._generate_ticket_with_llm, try_except, bind.
  destruct (create contextual_prompt (Ticket.user_instruction user_request));
    eexists; reflexivity.
Qed.

Lemma placeholder_language (chunk : chunk_record) :
  In chunk _get_placeholder_embeddings -> r_language chunk = Some "typescript".
Proof.
  unfold _get_placeholder_embeddings.
  intros [<- | [<- | [<- | []]]]; reflexivity.
Qed.

Lemma relevant_placeholders (user_request : string) :
  let relevant_code :=
    rank (lexical_similarities user_request _get_placeholder_embeddings) default_top_k in
  List.length relevant_code <= 3 /\
  Forall (fun c : CodeChunk Q => language c = "typescript") relevant_code.
Proof.
  cbv zeta. split.
  - etransitivity; [apply rank_length_le |].
    unfold lexical_similarities. rewrite length_map. apply Nat.le_refl.
  - apply Forall_forall. intros c I.
    apply rank_In in I. destruct I as ([s chunk] & I & _ & ->).
    unfold lexical_similarities in I. apply in_map_iff in I.
    destruct I as (chunk' & E & I). injection E as _ <-.
    cbn [to_code_chunk language]. rewrite (placeholder_language _ I). reflexivity.
Qed.

Section Collaborators.
Context `{ListSort}.
Variable index : string -> option string -> pyresult indexing_result.
Variable create : Ticket.generation.

Lemma run_body_indexed (loads : string -> pyresult json)
    (user_request repo_url : string) (github_token : option string)
    (repository : string) (indexed_files embeddings_generated : nat) :
  index repo_url github_token = Ok (Indexed repository indexed_files embeddings_generated) ->
  let relevant_code : list (CodeChunk Q) :=
    rank (lexical_similarities user_request _get_placeholder_embeddings) default_top_k in
  exists conv impls t,
    _analyze_coding_conventions relevant_code = Ok conv /\
    Similar._extract_similar_implementations relevant_code = Ok impls /\
    Ticket._generate_ticket_with_llm create
      (generate_contextual_prompt user_request
         {| technology_stack := _analyze_technology_stack relevant_code;
            architectural_patterns :=
              Patterns._detect_architectural_patterns relevant_code;
            coding_conventions := conv;
            similar_implementations := impls;
            best_practices := _identify_best_practices relevant_code;
            dependencies :=
              _analyze_dependencies loads relevant_code _get_placeholder_metadata |}
         (analyze_user_request user_request))
      user_request = Ok t /\
    run_body index loads create user_request repo_url github_token
    = Ok (Success t
            {| ctx_indexing_result :=
                 Indexed repository indexed_files embeddings_generated;
               ctx_request_analysis := analyze_user_request user_request;
               relevant_code_count := List.length relevant_code;
               ctx_languages :=
                 map fst (languages (_analyze_technology_stack relevant_code));
               ctx_frameworks :=
                 map fst (frameworks (_analyze_technology_stack relevant_code));
               ctx_patterns := Patterns._detect_architectural_patterns relevant_code;
               ctx_best_practices := _identify_best_practices relevant_code |}).
Proof.
  intros E relevant_code.
  destruct (build_project_context_ok loads relevant_code _get_placeholder_metadata)
    as (conv & impls & C & S & B).
  match type of B with
  | _ = Ok ?pc =>
      destruct (generate_ticket_total create
                  (generate_contextual_prompt user_request pc
                     (analyze_user_request user_request)) user_request) as (t & G)
  end.
  exists conv, impls, t. split; [exact C |]. split; [exact S |]. split; [exact G |].
  unfold run_body. rewrite E. unfold bind at 1.
  change (search_relevant_code None user_request _get_placeholder_embeddings
            default_top_k) with (Ok relevant_code).
  unfold bind at 1. cbv zeta. fold relevant_code.
  rewrite B. unfold bind at 1. rewrite G. reflexivity.
Qed.

(** X28: the envelope follows the indexing step. When indexing raises,
    the result is a failure with the text of the exception; when it
    reports a failure, the result is a failure whose error is that
    report after the fixed prefix; when it succeeds, the result is
    always a success, whatever the request, the JSON decoder and the
    generation call do: its context echoes the indexing result and the
    request analysis, counts at most three relevant chunks, and names no
    language other than "typescript". The function itself never
    raises. *)
Theorem orchestrator_envelope (loads : string -> pyresult json)
    (user_request repo_url : string) (github_token : option string) :
  let result :=
    generate_intelligent_ticket index loads create user_request repo_url github_token in
  match index repo_url github_token with
  | Raise e => result = Ok (Failure (exn_str e))
  | Ok (NotIndexed error _) =>
      result = Ok (Failure ("Failed to index repository: " ++ error)%string)
  | Ok (Indexed repository indexed_files embeddings_generated) =>
      exists t context,
        result = Ok (Success t context) /\
        ctx_indexing_result context
        = Indexed repository indexed_files embeddings_generated /\
        ctx_request_analysis context = analyze_user_request user_request /\
        relevant_code_count context <= 3 /\
        incl (ctx_languages context) ["typescript"]
  end.
Proof.
  cbv zeta. unfold generate_intelligent_ticket.
  destruct (index repo_url github_token) as [[repository files embeddings | error repository] | e]
    eqn:E.
  - destruct (run_body_indexed loads user_request repo_url github_token _ _ _ E)
      as (conv & impls & t & _ & _ & _ & R).
    rewrite R. unfold try_except. eexists. eexists. split; [reflexivity |].
    cbn [ctx_indexing_result ctx_request_analysis relevant_code_count ctx_languages].
    destruct (relevant_placeholders user_request) as (L & T).
    repeat split; [exact L |].
    intros l I.
    unfold _analyze_technology_stack in I. cbn [languages] in I.
    apply (proj1 (proj2 (proj2 (proj2 (tally_fold language _ []))) l)) in I.
    destruct I as [[] | (c & I & <-)].
    rewrite Forall_forall in T. rewrite (T c I). left. reflexivity.
  - unfold run_body. rewrite E. reflexivity.
  - unfold run_body. rewrite E. reflexivity.
Qed.

(** X29: a failure of the generation call does not make the run fail:
    when indexing succeeded and the generation call raises, the result
    is still a success, and its ticket is the four-key error ticket of
    [_generate_ticket_with_llm]. *)
Theorem orchestrator_generation_failure (loads : string -> pyresult json)
    (user_request repo_url : string) (github_token : option string)
    (repository : string) (indexed_files embeddings_generated : nat) (e : exn) :
  index repo_url github_token = Ok (Indexed repository indexed_files embeddings_generated) ->
  (forall prompt, create prompt (Ticket.user_instruction user_request) = Raise e) ->
  exists context,
    generate_intelligent_ticket index loads create user_request repo_url github_token
    = Ok (Success (Ticket.error_ticket e) context) /\
    Ticket.lookup "raw_markdown" (Ticket.error_ticket e) = None.
Proof.
  intros E C. unfold generate_intelligent_ticket.
  destruct (run_body_indexed loads user_request repo_url github_token _ _ _ E)
    as (conv & impls & t & _ & _ & G & R).
  rewrite R. unfold try_except.
  unfold Ticket._generate_ticket_with_llm in G. rewrite C in G.
  unfold bind, try_except in G. injection G as <-.
  eexists. split; reflexivity.
Qed.

(** X30: the dependency analysis has no influence on the result: the
    envelope is the same for every behaviour of the JSON decoder, since
    neither the prompt nor the context of the envelope reads the
    dependencies. *)
Theorem orchestrator_ignores_dependencies (loads loads' : string -> pyresult json)
    (user_request repo_url : string) (github_token : option string) :
  generate_intelligent_ticket index loads create user_request repo_url github_token
  = generate_intelligent_ticket index loads' create user_request repo_url github_token.
Proof.
  unfold generate_intelligent_ticket.
  destruct (index repo_url github_token) as [[repository files embeddings | error repository] | e]
    eqn:E.
  - destruct (run_body_indexed loads user_request repo_url github_token _ _ _ E)
      as (conv & impls & t & C & S & G & R).
    destruct (run_body_indexed loads' user_request repo_url github_token _ _ _ E)
      as (conv' & impls' & t' & C' & S' & G' & R').
    rewrite R, R'. rewrite C in C'. injection C' as <-.
    rewrite S in S'. injection S' as <-.
    unfold generate_contextual_prompt in G, G'.
    cbn [technology_stack architectural_patterns coding_conventions
         similar_implementations] in G, G'.
    rewrite G in G'. injection G' as <-. reflexivity.
  - unfold run_body. rewrite E. reflexivity.
  - unfold run_body. rewrite E. reflexivity.
Qed.

End Collaborators.

Lemma orchestrator_generation_failure_witness :
  exists context,
    generate_intelligent_ticket
      (fun _ _ => Ok (Indexed "repo" 3 3))
      (fun _ => Raise (ValueError "no decoder"))
      (fun _ _ => Raise (RuntimeError "timeout"))
      "Add a login form" "https://example.org/repo.git" None
    = Ok (Success (Ticket.error_ticket (RuntimeError "timeout")) context) /\
    Ticket.lookup "raw_markdown" (Ticket.error_ticket (RuntimeError "timeout")) = None.
Proof.
  apply (orchestrator_generation_failure
           (fun _ _ => Ok (Indexed "repo" 3 3))
           (fun _ _ => Raise (RuntimeError "timeout"))
           (fun _ => Raise (ValueError "no decoder"))
           "Add a login form" "https://example.org/repo.git" None "repo" 3 3
           (RuntimeError "timeout")).
  - reflexivity.
  - intro prompt. reflexivity.
Defined.

End OrchestratorFacts.
